(** * WikiPortraits image-usage analysis: introduction detection and statistics

    A shallow embedding of [imageusage.py] and [wikidata_utils.py]:
    the text matcher, the wikitext introduction finder, the Wikidata (P18)
    fallback finder, the resolver that chains them, the batch driver and the
    statistics tracker, followed by the properties established about them.

    Modelling conventions.
    - A Python [str] is a [string]: a sequence of 8-bit characters.
      [str.lower] is the ASCII case folding (characters outside [A-Z] are
      left alone), which is what Python computes on the strings that
      [str.isascii] accepts; the properties that depend on which characters
      are folded are stated for those strings.
    - Python integers are unbounded: [Z].
    - A dynamically typed value (an element of the P18 history, a revision id
      that may be [None]) is a [pyval].
    - A [dict] whose key order is observable is an association list; the
      counters of the tracker, read by key only, are [gmap string Z] with the
      [defaultdict(int)] reading of a missing key as [0]. *)

From Stdlib Require Import ZArith Ascii String List Bool Lia Permutation.
From stdpp Require Import gmap strings list.

Import ListNotations.
Local Open Scope string_scope.
Local Open Scope Z_scope.
Local Open Scope list_scope.
#[local] Set Warnings "-register-all".
#[local] Arguments String.append !_ _ / : simpl nomatch.

(** ** Python strings *)

Module PyStr.

(** [c.lower()] on one ASCII character. *)
Definition lower_ascii (c : ascii) : ascii :=
  let n := N_of_ascii c in
  if ((65 <=? n) && (n <=? 90))%N then ascii_of_N (n + 32) else c.

(** [s.lower()] *)
Fixpoint lower (s : string) : string :=
  match s with
  | EmptyString => EmptyString
  | String c s' => String (lower_ascii c) (lower s')
  end.

(** [s.startswith(p)] *)
Fixpoint startswith (p s : string) : bool :=
  match p, s with
  | EmptyString, _ => true
  | String _ _, EmptyString => false
  | String a p', String b s' => if Ascii.eqb a b then startswith p' s' else false
  end.

(** [s[n:]] for [n >= 0] *)
Fixpoint drop_chars (n : nat) (s : string) : string :=
  match n, s with
  | O, _ => s
  | S _, EmptyString => EmptyString
  | S k, String _ s' => drop_chars k s'
  end.

(** [s.removeprefix(p)] *)
Definition removeprefix (p s : string) : string :=
  if startswith p s then drop_chars (String.length p) s else s.

(** [s.endswith(suf)] *)
Fixpoint endswith (suf s : string) : bool :=
  if String.eqb s suf then true
  else match s with
       | EmptyString => false
       | String _ s' => endswith suf s'
       end.

(** [needle in hay] *)
Fixpoint contains (needle hay : string) : bool :=
  if startswith needle hay then true
  else match hay with
       | EmptyString => false
       | String _ hay' => contains needle hay'
       end.

(** [s.replace(old, new)] for a non-empty [old]: the occurrences of [old]
    are found left to right and do not overlap.  [skip] counts the
    characters of a matched occurrence that are still to be dropped. *)
Fixpoint replace_from (old new : string) (skip : nat) (s : string) : string :=
  match s with
  | EmptyString => EmptyString
  | String c s' =>
      match skip with
      | S k => replace_from old new k s'
      | O =>
          if startswith old s
          then new +:+ replace_from old new (String.length old - 1) s'
          else String c (replace_from old new 0 s')
      end
  end.

(** With an empty [old], Python puts [new] before every character and at
    the end. *)
Fixpoint replace_empty (new s : string) : string :=
  match s with
  | EmptyString => new
  | String c s' => new +:+ String c (replace_empty new s')
  end.

Definition replace (old new s : string) : string :=
  match old with
  | EmptyString => replace_empty new s
  | String _ _ => replace_from old new 0 s
  end.

(** [s.split(sep)[0]] for a one-character separator. *)
Fixpoint split_first (sep : ascii) (s : string) : string :=
  match s with
  | EmptyString => EmptyString
  | String c s' => if Ascii.eqb c sep then EmptyString else String c (split_first sep s')
  end.

(** The character-wise substitution that [replace] performs when both
    patterns are one character long. *)
Fixpoint subst_char (a b : ascii) (s : string) : string :=
  match s with
  | EmptyString => EmptyString
  | String c s' => String (if Ascii.eqb a c then b else c) (subst_char a b s')
  end.

(** [c] occurs in [s]. *)
Fixpoint has_char (c : ascii) (s : string) : bool :=
  match s with
  | EmptyString => false
  | String d s' => Ascii.eqb c d || has_char c s'
  end.

End PyStr.

(** ** Text matcher ([imageusage.py]) *)

Definition IMAGE_EXTENSIONS : list string :=
  [".jpg"; ".jpeg"; ".png"; ".gif"; ".tiff"].

(** [any(ext in content_lower for ext in IMAGE_EXTENSIONS)] *)
Definition has_image_in_wikitext (content : string) : bool :=
  let content_lower := PyStr.lower content in
  let has_extension :=
    existsb (fun ext => PyStr.contains ext content_lower) IMAGE_EXTENSIONS in
  has_extension.

(** The three spellings tried by [matches_file_in_wikitext]; the source
    collects them in a set, of which only membership is used. *)
Definition file_name_variants (file_name : string) : list string :=
  let file_name_lower := PyStr.removeprefix "file:" (PyStr.lower file_name) in
  let fn_spaces := PyStr.replace "_" " " file_name_lower in
  let fn_underscores := PyStr.replace " " "_" file_name_lower in
  [file_name_lower; fn_spaces; fn_underscores].

Definition matches_file_in_wikitext (content file_name : string) : bool :=
  let content_lower := PyStr.lower content in
  existsb (fun variant => PyStr.contains variant content_lower)
          (file_name_variants file_name).

(** ** Name comparison against the Wikidata value ([wikidata_utils.py]) *)

Definition check_if_file_matches_wikidata_image (file_name wikidata_image : string) : bool :=
  let commons_name := PyStr.lower (PyStr.replace "File:" "" file_name) in
  let wikidata_name := PyStr.lower wikidata_image in
  let commons_spaces := PyStr.replace "_" " " commons_name in
  let commons_underscores := PyStr.replace " " "_" commons_name in
  let wikidata_spaces := PyStr.replace "_" " " wikidata_name in
  let wikidata_underscores := PyStr.replace " " "_" wikidata_name in
  String.eqb commons_spaces wikidata_spaces
  || String.eqb commons_underscores wikidata_underscores
  || String.eqb commons_name wikidata_name.

(** ** Dynamically typed values and exceptions *)

Inductive pyval : Type :=
| VNone
| VBool (b : bool)
| VInt (z : Z)
| VStr (s : string)
| VList (l : list pyval)
| VDict (d : list (string * pyval)).

(** [d.get(key)] on a dict given as an association list. *)
Fixpoint dict_get (key : string) (d : list (string * pyval)) : option pyval :=
  match d with
  | [] => None
  | (k, v) :: d' => if String.eqb k key then Some v else dict_get key d'
  end.

(** [isinstance(h, dict)] *)
Definition is_dict (v : pyval) : bool :=
  match v with VDict _ => true | _ => false end.

(** [isinstance(h, dict) and key in h] *)
Definition dict_has (key : string) (v : pyval) : bool :=
  match v with
  | VDict d => match dict_get key d with Some _ => true | None => false end
  | _ => false
  end.

(** [h[key]] for an [h] already known to be a dict holding [key]; the
    cases excluded by the guard are mapped to [None]. *)
Definition dict_item (key : string) (v : pyval) : pyval :=
  match v with
  | VDict d => match dict_get key d with Some x => x | None => VNone end
  | _ => VNone
  end.

Definition is_str (v : pyval) : bool :=
  match v with VStr _ => true | _ => false end.

(** [str(type(v))] *)
Definition type_repr (v : pyval) : string :=
  match v with
  | VNone => "<class 'NoneType'>"
  | VBool _ => "<class 'bool'>"
  | VInt _ => "<class 'int'>"
  | VStr _ => "<class 'str'>"
  | VList _ => "<class 'list'>"
  | VDict _ => "<class 'dict'>"
  end.

Inductive exn : Type :=
| ValueError (msg : string)
| KeyError (key : string)
| TypeError (msg : string)
| AttributeError (msg : string)
| OtherError (msg : string).

Inductive res (A : Type) : Type :=
| Ok (a : A)
| Raise (e : exn).
Arguments Ok {A} a.
Arguments Raise {A} e.

(** ** The outside world

    The requests sent to the MediaWiki APIs and the lines printed when a
    failure is reported are recorded as events.  Progress messages are not
    recorded. *)

Inductive event : Type :=
| ApiRevisions (wiki page_title : string)
| ApiWikidataItem (wiki page_title : string)
| ApiCurrentImage (item_id : string)
| ApiImageHistory (item_id : string)
| ApiGlobalUsage (filename : string)
| ApiCategoryFiles (category_name : string) (depth : Z)
| PrintHistoryError (item_id : string) (e : exn)
| PrintPageError (file_title wiki page_title : string) (e : exn)
| PrintNoFiles
| PrintUnexpectedError (e : exn).

(** One revision as the API returns it: [revid] and [timestamp] may be
    missing, a missing content is read as the empty string. *)
Record api_revision : Type := {
  api_revid : option Z;
  api_timestamp : option string;
  api_content : string
}.

(** A revision as the generator yields it: [(revision_id, timestamp, wikitext)]. *)
Definition revision : Type := (Z * string * string)%type.

(** What the APIs answer.
    - [revisions_of_page wiki page]: the revisions received for the page,
      newest first, up to the end of the history or to the transport error
      that the generator turns into the end of the stream;
    - [wikidata_item_for_page], [current_image_for_item]: what
      [get_wikidata_item_for_page] and [get_current_image_for_item] return
      ([None] also after a transport error, which they catch);
    - [image_history_for_item]: the value returned by
      [get_image_history_for_item], or the exception that escapes from it;
    - [global_usage_of_file]: the items of the dict returned by
      [get_global_usage_of_file], in its order;
    - [commons_category_files]: the list returned by
      [get_commons_category_files];
    - [datetime_format]: [datetime.fromisoformat(..).strftime(..)], [None]
      when [fromisoformat] rejects its argument. *)
Record Env : Type := {
  revisions_of_page : string -> string -> list api_revision;
  wikidata_item_for_page : string -> string -> option string;
  current_image_for_item : string -> option string;
  image_history_for_item : string -> res pyval;
  global_usage_of_file : string -> list (string * list string);
  commons_category_files : string -> Z -> list string;
  datetime_format : string -> option string
}.

(** Computations that log events and may raise. *)
Definition io (A : Type) : Type := (list event * res A)%type.

Definition io_ret {A} (a : A) : io A := ([], Ok a).
Definition io_raise {A} (e : exn) : io A := ([], Raise e).
Definition io_log (ev : event) : io unit := ([ev], Ok tt).

Definition io_bind {A B} (m : io A) (k : A -> io B) : io B :=
  match m with
  | (l, Ok a) => let '(l', r) := k a in (l ++ l', r)
  | (l, Raise e) => (l, Raise e)
  end.

(** [try: m except Exception as e: h(e)] *)
Definition io_try {A} (m : io A) (h : exn -> io A) : io A :=
  match m with
  | (l, Ok a) => (l, Ok a)
  | (l, Raise e) => let '(l', r) := h e in (l ++ l', r)
  end.

#[global] Instance io_mret : MRet io := @io_ret.
#[global] Instance io_mbind : MBind io := fun A B k m => io_bind m k.

(** Lifting of a computation that only returns or raises. *)
Definition io_lift {A} (r : res A) : io A := ([], r).

(** [get_page_revisions_wikitext_descending]: the revisions of the page,
    newest first, without those whose id, timestamp or content is missing,
    zero or empty. *)
Definition yielded (r : api_revision) : option revision :=
  match api_revid r, api_timestamp r with
  | Some revision_id, Some timestamp =>
      if negb (revision_id =? 0) && negb (String.eqb timestamp "")
         && negb (String.eqb (api_content r) "")
      then Some (revision_id, timestamp, api_content r)
      else None
  | _, _ => None
  end.

Definition get_page_revisions_wikitext_descending
    (env : Env) (wiki page_title : string) : io (list revision) :=
  io_log (ApiRevisions wiki page_title);;
  mret (omap yielded (revisions_of_page env wiki page_title)).

(** ** Introduction records

    The dict returned by the two finders.  The four keys that only the
    Wikidata finder sets are optional: [None] is an absent key. *)

Record info : Type := {
  introduced_revision_id : pyval;
  introduced_timestamp : pyval;
  timestamp_is_formatted : option bool;
  first_image : bool;
  first_p18 : option bool;
  from_wikidata : bool;
  wikidata_item : option string;
  previous_p18_images : option (list pyval)
}.

(** ** Wikitext introduction finder *)

(** The three local variables of the loop. *)
Record scan_state : Type := {
  earliest_rev_id : option Z;
  earliest_ts : option string;
  found_any : bool
}.

Definition scan_init : scan_state :=
  {| earliest_rev_id := None; earliest_ts := None; found_any := false |}.

Definition opt_int (o : option Z) : pyval :=
  match o with Some z => VInt z | None => VNone end.

Definition opt_str (o : option string) : pyval :=
  match o with Some s => VStr s | None => VNone end.

(** The dict built at both [return] statements of the finder. *)
Definition wikitext_info (st : scan_state) (first_image : bool) : info :=
  {| introduced_revision_id := opt_int (earliest_rev_id st);
     introduced_timestamp := opt_str (earliest_ts st);
     timestamp_is_formatted := None;
     first_image := first_image;
     first_p18 := None;
     from_wikidata := false;
     wikidata_item := None;
     previous_p18_images := None |}.

(** The [for] loop: [inr] is the [return] inside the loop, [inl] the state
    in which the loop runs out of revisions. *)
Fixpoint scan_revisions (file_name : string) (revs : list revision)
    (st : scan_state) : scan_state + info :=
  match revs with
  | [] => inl st
  | (rev_id, ts, content) :: rest =>
      let has_target_file := matches_file_in_wikitext content file_name in
      if negb (found_any st) then
        if has_target_file then
          scan_revisions file_name rest
            {| earliest_rev_id := Some rev_id; earliest_ts := Some ts;
               found_any := true |}
        else scan_revisions file_name rest st
      else
        if negb has_target_file then
          let first_image := negb (has_image_in_wikitext content) in
          inr (wikitext_info st first_image)
        else
          scan_revisions file_name rest
            {| earliest_rev_id := Some rev_id; earliest_ts := Some ts;
               found_any := found_any st |}
  end.

(** The finder on the sequence of revisions it is fed. *)
Definition earliest_in_revisions (revs : list revision) (file_name : string)
    : option info :=
  match scan_revisions file_name revs scan_init with
  | inr i => Some i
  | inl st => if found_any st then Some (wikitext_info st true) else None
  end.

Definition find_earliest_wikitext_introduction
    (env : Env) (wiki page_title file_name : string) : io (option info) :=
  revs ← get_page_revisions_wikitext_descending env wiki page_title;
  mret (earliest_in_revisions revs file_name).

(** ** Wikidata fallback finder *)

(** [[h["image"] for h in image_history[1:] if isinstance(h, dict) and "image" in h]] *)
Definition images_after_first (image_history : list pyval) : list pyval :=
  map (dict_item "image") (List.filter (dict_has "image") (tail image_history)).

(** The body of the [try] once the history has been fetched. *)
Definition introduction_from_history (wikidata_item : string)
    (image_history : pyval) : res info :=
  match image_history with
  | VList l =>
      if match l with h0 :: _ => negb (is_dict h0) | [] => false end
      then Raise (ValueError
             ("Invalid image_history structure: first element is "
              +:+ type_repr (hd VNone l)))
      else
        let first_p18 := (Z.of_nat (length l) <=? 1) in
        (* the message of the else branch joins the previous images *)
        if negb first_p18 && negb (forallb is_str (images_after_first l))
        then Raise (TypeError "sequence item: expected str instance")
        else
          let timestamp_str :=
            match l with
            | h0 :: _ =>
                match h0 with
                | VDict d =>
                    match dict_get "timestamp" d with
                    | Some t => Ok t
                    | None => Raise (KeyError "timestamp")
                    end
                | _ => Raise (TypeError "not subscriptable")
                end
            | [] => Ok (VStr "Unknown")
            end in
          match timestamp_str with
          | Raise e => Raise e
          | Ok timestamp_str =>
              let previous_images :=
                if (1 <? Z.of_nat (length l)) then images_after_first l else [] in
              Ok {| introduced_revision_id :=
                      match l with
                      | VDict d :: _ => default (VInt 0) (dict_get "revision_id" d)
                      | _ => VInt 0
                      end;
                    introduced_timestamp := timestamp_str;
                    timestamp_is_formatted := Some true;
                    first_image := (Z.of_nat (length previous_images) =? 0);
                    first_p18 := Some first_p18;
                    from_wikidata := true;
                    wikidata_item := Some wikidata_item;
                    previous_p18_images := Some previous_images |}
          end
  | v => Raise (ValueError ("Invalid image_history type: " +:+ type_repr v))
  end.

Definition find_wikidata_introduction
    (env : Env) (wiki page_title file_name : string) : io (option info) :=
  io_log (ApiWikidataItem wiki page_title);;
  match wikidata_item_for_page env wiki page_title with
  | None => mret None
  | Some wikidata_item =>
      if String.eqb wikidata_item "" then mret None else
      io_log (ApiCurrentImage wikidata_item);;
      match current_image_for_item env wikidata_item with
      | None => mret None
      | Some wikidata_image =>
          if String.eqb wikidata_image "" then mret None else
          if check_if_file_matches_wikidata_image file_name wikidata_image then
            io_try
              (io_log (ApiImageHistory wikidata_item);;
               image_history ← io_lift (image_history_for_item env wikidata_item);
               i ← io_lift (introduction_from_history wikidata_item image_history);
               mret (Some i))
              (fun e => io_log (PrintHistoryError wikidata_item e);; io_raise e)
          else mret None
      end
  end.

(** ** Resolver *)

Definition find_earliest_introduction
    (env : Env) (wiki page_title file_name : string) : io (option info) :=
  wikitext_info ← find_earliest_wikitext_introduction env wiki page_title file_name;
  match wikitext_info with
  | Some i => mret (Some i)
  | None => find_wikidata_introduction env wiki page_title file_name
  end.

(** The choice made in [process_wiki_pages] between the two entry points. *)
Definition resolve (env : Env) (skip_wikidata : bool)
    (wiki page_title file_name : string) : io (option info) :=
  if skip_wikidata
  then find_earliest_wikitext_introduction env wiki page_title file_name
  else find_earliest_introduction env wiki page_title file_name.

(** ** Result entries *)

Record result_entry : Type := {
  r_file : string;
  r_wiki : string;
  r_language : string;
  r_page : string;
  r_introduced_revision_id : pyval;
  r_introduced_timestamp : pyval;
  r_first_image : bool;
  r_from_wikidata : bool;
  r_wikidata_item : option string;
  r_first_p18 : option bool;
  r_previous_p18_images : list pyval
}.

Definition format_timestamp (env : Env) (timestamp : pyval) : res pyval :=
  match timestamp with
  | VStr ts =>
      match datetime_format env (PyStr.replace "Z" "+00:00" ts) with
      | Some formatted => Ok (VStr formatted)
      | None => Raise (ValueError "Invalid isoformat string")
      end
  | _ => Raise (AttributeError "replace")
  end.

Definition create_result_entry (env : Env) (i : info)
    (file_title wiki lang_code page_title : string) : res result_entry :=
  match
    (if default false (timestamp_is_formatted i)
     then Ok (introduced_timestamp i)
     else format_timestamp env (introduced_timestamp i))
  with
  | Raise e => Raise e
  | Ok ts =>
      Ok {| r_file := file_title;
            r_wiki := wiki;
            r_language := lang_code;
            r_page := page_title;
            r_introduced_revision_id := introduced_revision_id i;
            r_introduced_timestamp := ts;
            r_first_image := first_image i;
            r_from_wikidata := from_wikidata i;
            r_wikidata_item := wikidata_item i;
            r_first_p18 := first_p18 i;
            r_previous_p18_images := default [] (previous_p18_images i) |}
  end.

(** ** Statistics tracker *)

Record StatisticsTracker : Type := {
  files_used_on_wikipedias : Z;
  wiki_pages_seen : gmap string (gset string);
  (* read in insertion order by the top-N selection of [process_files] *)
  usage_by_wiki : list (string * Z);
  first_image_by_file : gmap string Z;
  total_usages_by_file : gmap string Z;
  first_image_by_wiki : gmap string Z;
  total_usages_by_wiki : gmap string Z;
  first_image_by_lang : gmap string Z;
  total_usages_by_lang : gmap string Z;
  wikidata_sourced_count : Z;
  wikidata_sourced_by_wiki : gmap string Z;
  first_p18_count : Z;
  replaced_p18_count : Z
}.

(** [StatisticsTracker()] *)
Definition initialize_statistics : StatisticsTracker :=
  {| files_used_on_wikipedias := 0;
     wiki_pages_seen := ∅;
     usage_by_wiki := [];
     first_image_by_file := ∅;
     total_usages_by_file := ∅;
     first_image_by_wiki := ∅;
     total_usages_by_wiki := ∅;
     first_image_by_lang := ∅;
     total_usages_by_lang := ∅;
     wikidata_sourced_count := 0;
     wikidata_sourced_by_wiki := ∅;
     first_p18_count := 0;
     replaced_p18_count := 0 |}.

(** [d[k]] read on a [defaultdict(int)] *)
Definition counter (d : gmap string Z) (k : string) : Z := default 0 (d !! k).

(** [d[k] += 1] on a [defaultdict(int)] *)
Definition incr (k : string) (d : gmap string Z) : gmap string Z :=
  <[k := counter d k + 1]> d.

(** The method of the tracker. *)
Definition update_file_usage (self : StatisticsTracker)
    (file_title wiki lang_code : string)
    (is_first_image from_wikidata is_first_p18 : bool) : StatisticsTracker :=
  let s1 :=
    {| files_used_on_wikipedias := files_used_on_wikipedias self;
       wiki_pages_seen := wiki_pages_seen self;
       usage_by_wiki := usage_by_wiki self;
       first_image_by_file := first_image_by_file self;
       total_usages_by_file := incr file_title (total_usages_by_file self);
       first_image_by_wiki := first_image_by_wiki self;
       total_usages_by_wiki := incr wiki (total_usages_by_wiki self);
       first_image_by_lang := first_image_by_lang self;
       total_usages_by_lang := incr lang_code (total_usages_by_lang self);
       wikidata_sourced_count := wikidata_sourced_count self;
       wikidata_sourced_by_wiki := wikidata_sourced_by_wiki self;
       first_p18_count := first_p18_count self;
       replaced_p18_count := replaced_p18_count self |} in
  let s2 :=
    if is_first_image then
      {| files_used_on_wikipedias := files_used_on_wikipedias s1;
         wiki_pages_seen := wiki_pages_seen s1;
         usage_by_wiki := usage_by_wiki s1;
         first_image_by_file := incr file_title (first_image_by_file s1);
         total_usages_by_file := total_usages_by_file s1;
         first_image_by_wiki := incr wiki (first_image_by_wiki s1);
         total_usages_by_wiki := total_usages_by_wiki s1;
         first_image_by_lang := incr lang_code (first_image_by_lang s1);
         total_usages_by_lang := total_usages_by_lang s1;
         wikidata_sourced_count := wikidata_sourced_count s1;
         wikidata_sourced_by_wiki := wikidata_sourced_by_wiki s1;
         first_p18_count := first_p18_count s1;
         replaced_p18_count := replaced_p18_count s1 |}
    else s1 in
  if from_wikidata then
    {| files_used_on_wikipedias := files_used_on_wikipedias s2;
       wiki_pages_seen := wiki_pages_seen s2;
       usage_by_wiki := usage_by_wiki s2;
       first_image_by_file := first_image_by_file s2;
       total_usages_by_file := total_usages_by_file s2;
       first_image_by_wiki := first_image_by_wiki s2;
       total_usages_by_wiki := total_usages_by_wiki s2;
       first_image_by_lang := first_image_by_lang s2;
       total_usages_by_lang := total_usages_by_lang s2;
       wikidata_sourced_count := wikidata_sourced_count s2 + 1;
       wikidata_sourced_by_wiki := incr wiki (wikidata_sourced_by_wiki s2);
       first_p18_count :=
         if is_first_p18 then first_p18_count s2 + 1 else first_p18_count s2;
       replaced_p18_count :=
         if is_first_p18 then replaced_p18_count s2
         else replaced_p18_count s2 + 1 |}
  else s2.

(** Statement-level setters, one per attribute the module-level function
    assigns to. *)
Definition set_total_usages_by_file (f : gmap string Z -> gmap string Z)
    (s : StatisticsTracker) : StatisticsTracker :=
  {| files_used_on_wikipedias := files_used_on_wikipedias s;
     wiki_pages_seen := wiki_pages_seen s; usage_by_wiki := usage_by_wiki s;
     first_image_by_file := first_image_by_file s;
     total_usages_by_file := f (total_usages_by_file s);
     first_image_by_wiki := first_image_by_wiki s;
     total_usages_by_wiki := total_usages_by_wiki s;
     first_image_by_lang := first_image_by_lang s;
     total_usages_by_lang := total_usages_by_lang s;
     wikidata_sourced_count := wikidata_sourced_count s;
     wikidata_sourced_by_wiki := wikidata_sourced_by_wiki s;
     first_p18_count := first_p18_count s;
     replaced_p18_count := replaced_p18_count s |}.

Definition set_total_usages_by_wiki (f : gmap string Z -> gmap string Z)
    (s : StatisticsTracker) : StatisticsTracker :=
  {| files_used_on_wikipedias := files_used_on_wikipedias s;
     wiki_pages_seen := wiki_pages_seen s; usage_by_wiki := usage_by_wiki s;
     first_image_by_file := first_image_by_file s;
     total_usages_by_file := total_usages_by_file s;
     first_image_by_wiki := first_image_by_wiki s;
     total_usages_by_wiki := f (total_usages_by_wiki s);
     first_image_by_lang := first_image_by_lang s;
     total_usages_by_lang := total_usages_by_lang s;
     wikidata_sourced_count := wikidata_sourced_count s;
     wikidata_sourced_by_wiki := wikidata_sourced_by_wiki s;
     first_p18_count := first_p18_count s;
     replaced_p18_count := replaced_p18_count s |}.

Definition set_total_usages_by_lang (f : gmap string Z -> gmap string Z)
    (s : StatisticsTracker) : StatisticsTracker :=
  {| files_used_on_wikipedias := files_used_on_wikipedias s;
     wiki_pages_seen := wiki_pages_seen s; usage_by_wiki := usage_by_wiki s;
     first_image_by_file := first_image_by_file s;
     total_usages_by_file := total_usages_by_file s;
     first_image_by_wiki := first_image_by_wiki s;
     total_usages_by_wiki := total_usages_by_wiki s;
     first_image_by_lang := first_image_by_lang s;
     total_usages_by_lang := f (total_usages_by_lang s);
     wikidata_sourced_count := wikidata_sourced_count s;
     wikidata_sourced_by_wiki := wikidata_sourced_by_wiki s;
     first_p18_count := first_p18_count s;
     replaced_p18_count := replaced_p18_count s |}.

Definition set_first_image_by_file (f : gmap string Z -> gmap string Z)
    (s : StatisticsTracker) : StatisticsTracker :=
  {| files_used_on_wikipedias := files_used_on_wikipedias s;
     wiki_pages_seen := wiki_pages_seen s; usage_by_wiki := usage_by_wiki s;
     first_image_by_file := f (first_image_by_file s);
     total_usages_by_file := total_usages_by_file s;
     first_image_by_wiki := first_image_by_wiki s;
     total_usages_by_wiki := total_usages_by_wiki s;
     first_image_by_lang := first_image_by_lang s;
     total_usages_by_lang := total_usages_by_lang s;
     wikidata_sourced_count := wikidata_sourced_count s;
     wikidata_sourced_by_wiki := wikidata_sourced_by_wiki s;
     first_p18_count := first_p18_count s;
     replaced_p18_count := replaced_p18_count s |}.

Definition set_first_image_by_wiki (f : gmap string Z -> gmap string Z)
    (s : StatisticsTracker) : StatisticsTracker :=
  {| files_used_on_wikipedias := files_used_on_wikipedias s;
     wiki_pages_seen := wiki_pages_seen s; usage_by_wiki := usage_by_wiki s;
     first_image_by_file := first_image_by_file s;
     total_usages_by_file := total_usages_by_file s;
     first_image_by_wiki := f (first_image_by_wiki s);
     total_usages_by_wiki := total_usages_by_wiki s;
     first_image_by_lang := first_image_by_lang s;
     total_usages_by_lang := total_usages_by_lang s;
     wikidata_sourced_count := wikidata_sourced_count s;
     wikidata_sourced_by_wiki := wikidata_sourced_by_wiki s;
     first_p18_count := first_p18_count s;
     replaced_p18_count := replaced_p18_count s |}.

Definition set_first_image_by_lang (f : gmap string Z -> gmap string Z)
    (s : StatisticsTracker) : StatisticsTracker :=
  {| files_used_on_wikipedias := files_used_on_wikipedias s;
     wiki_pages_seen := wiki_pages_seen s; usage_by_wiki := usage_by_wiki s;
     first_image_by_file := first_image_by_file s;
     total_usages_by_file := total_usages_by_file s;
     first_image_by_wiki := first_image_by_wiki s;
     total_usages_by_wiki := total_usages_by_wiki s;
     first_image_by_lang := f (first_image_by_lang s);
     total_usages_by_lang := total_usages_by_lang s;
     wikidata_sourced_count := wikidata_sourced_count s;
     wikidata_sourced_by_wiki := wikidata_sourced_by_wiki s;
     first_p18_count := first_p18_count s;
     replaced_p18_count := replaced_p18_count s |}.

Definition set_wikidata_sourced_by_wiki (f : gmap string Z -> gmap string Z)
    (s : StatisticsTracker) : StatisticsTracker :=
  {| files_used_on_wikipedias := files_used_on_wikipedias s;
     wiki_pages_seen := wiki_pages_seen s; usage_by_wiki := usage_by_wiki s;
     first_image_by_file := first_image_by_file s;
     total_usages_by_file := total_usages_by_file s;
     first_image_by_wiki := first_image_by_wiki s;
     total_usages_by_wiki := total_usages_by_wiki s;
     first_image_by_lang := first_image_by_lang s;
     total_usages_by_lang := total_usages_by_lang s;
     wikidata_sourced_count := wikidata_sourced_count s;
     wikidata_sourced_by_wiki := f (wikidata_sourced_by_wiki s);
     first_p18_count := first_p18_count s;
     replaced_p18_count := replaced_p18_count s |}.

Definition set_wikidata_sourced_count (f : Z -> Z)
    (s : StatisticsTracker) : StatisticsTracker :=
  {| files_used_on_wikipedias := files_used_on_wikipedias s;
     wiki_pages_seen := wiki_pages_seen s;
     usage_by_wiki := usage_by_wiki s;
     first_image_by_file := first_image_by_file s;
     total_usages_by_file := total_usages_by_file s;
     first_image_by_wiki := first_image_by_wiki s;
     total_usages_by_wiki := total_usages_by_wiki s;
     first_image_by_lang := first_image_by_lang s;
     total_usages_by_lang := total_usages_by_lang s;
     wikidata_sourced_count := f (wikidata_sourced_count s);
     wikidata_sourced_by_wiki := wikidata_sourced_by_wiki s;
     first_p18_count := first_p18_count s;
     replaced_p18_count := replaced_p18_count s |}.

Definition set_first_p18_count (f : Z -> Z)
    (s : StatisticsTracker) : StatisticsTracker :=
  {| files_used_on_wikipedias := files_used_on_wikipedias s;
     wiki_pages_seen := wiki_pages_seen s;
     usage_by_wiki := usage_by_wiki s;
     first_image_by_file := first_image_by_file s;
     total_usages_by_file := total_usages_by_file s;
     first_image_by_wiki := first_image_by_wiki s;
     total_usages_by_wiki := total_usages_by_wiki s;
     first_image_by_lang := first_image_by_lang s;
     total_usages_by_lang := total_usages_by_lang s;
     wikidata_sourced_count := wikidata_sourced_count s;
     wikidata_sourced_by_wiki := wikidata_sourced_by_wiki s;
     first_p18_count := f (first_p18_count s);
     replaced_p18_count := replaced_p18_count s |}.

Definition set_replaced_p18_count (f : Z -> Z)
    (s : StatisticsTracker) : StatisticsTracker :=
  {| files_used_on_wikipedias := files_used_on_wikipedias s;
     wiki_pages_seen := wiki_pages_seen s;
     usage_by_wiki := usage_by_wiki s;
     first_image_by_file := first_image_by_file s;
     total_usages_by_file := total_usages_by_file s;
     first_image_by_wiki := first_image_by_wiki s;
     total_usages_by_wiki := total_usages_by_wiki s;
     first_image_by_lang := first_image_by_lang s;
     total_usages_by_lang := total_usages_by_lang s;
     wikidata_sourced_count := wikidata_sourced_count s;
     wikidata_sourced_by_wiki := wikidata_sourced_by_wiki s;
     first_p18_count := first_p18_count s;
     replaced_p18_count := f (replaced_p18_count s) |}.

(** The module-level function, statement by statement.
    [info.get("first_p18", False)] reads an absent key as [False]. *)
Definition update_statistics (i : info) (stats : StatisticsTracker)
    (file_title wiki lang_code : string) : StatisticsTracker :=
  let stats := set_total_usages_by_file (incr file_title) stats in
  let stats := set_total_usages_by_wiki (incr wiki) stats in
  let stats := set_total_usages_by_lang (incr lang_code) stats in
  let stats :=
    if first_image i then
      let stats := set_first_image_by_file (incr file_title) stats in
      let stats := set_first_image_by_wiki (incr wiki) stats in
      set_first_image_by_lang (incr lang_code) stats
    else stats in
  if from_wikidata i then
    let stats := set_wikidata_sourced_count (fun n => n + 1) stats in
    let stats := set_wikidata_sourced_by_wiki (incr wiki) stats in
    if default false (first_p18 i) then set_first_p18_count (fun n => n + 1) stats
    else set_replaced_p18_count (fun n => n + 1) stats
  else stats.

(** ** Batch driver *)

Record Args : Type := {
  category : string;
  depth : Z;
  limit_wikis : option Z;
  skip_wikidata : bool
}.

Definition get_language_code (wiki_domain : string) : string :=
  if negb (PyStr.endswith ".wikipedia.org" wiki_domain) then "unknown"
  else PyStr.split_first "." wiki_domain.

(** The objects that [process_files] creates or receives and that every
    callee mutates in place. *)
Record run_state : Type := {
  stats : StatisticsTracker;
  results : list result_entry
}.

(** [stats.wiki_pages_seen[wiki].add(page_title)] *)
Definition mark_page_seen (wiki page_title : string)
    (s : StatisticsTracker) : StatisticsTracker :=
  {| files_used_on_wikipedias := files_used_on_wikipedias s;
     wiki_pages_seen :=
       <[wiki := {[page_title]} ∪ default ∅ (wiki_pages_seen s !! wiki)]>
         (wiki_pages_seen s);
     usage_by_wiki := usage_by_wiki s;
     first_image_by_file := first_image_by_file s;
     total_usages_by_file := total_usages_by_file s;
     first_image_by_wiki := first_image_by_wiki s;
     total_usages_by_wiki := total_usages_by_wiki s;
     first_image_by_lang := first_image_by_lang s;
     total_usages_by_lang := total_usages_by_lang s;
     wikidata_sourced_count := wikidata_sourced_count s;
     wikidata_sourced_by_wiki := wikidata_sourced_by_wiki s;
     first_p18_count := first_p18_count s;
     replaced_p18_count := replaced_p18_count s |}.

(** What a loop body leaves behind: the events, the mutated objects, and
    the exception that escaped from it, if any. *)
Definition step_result : Type := (list event * run_state * option exn)%type.

(** One iteration of the loop of [process_wiki_pages]: the [try] block and
    its handler, which prints and raises again. *)
Definition process_page (env : Env) (args : Args)
    (wiki lang_code file_title page_title : string) (st : run_state) : step_result :=
  let st1 := {| stats := mark_page_seen wiki page_title (stats st);
                results := results st |} in
  match resolve env (skip_wikidata args) wiki page_title file_title with
  | (log, Raise e) =>
      (log ++ [PrintPageError file_title wiki page_title e], st1, Some e)
  | (log, Ok None) => (log, st1, None)
  | (log, Ok (Some i)) =>
      let stats2 := update_statistics i (stats st1) file_title wiki lang_code in
      match create_result_entry env i file_title wiki lang_code page_title with
      | Ok entry =>
          (log, {| stats := stats2; results := results st1 ++ [entry] |}, None)
      | Raise e =>
          (log ++ [PrintPageError file_title wiki page_title e],
           {| stats := stats2; results := results st1 |}, Some e)
      end
  end.

(** A [for] loop whose body may raise: the first exception ends it. *)
Fixpoint for_each {A} (body : A -> run_state -> step_result)
    (xs : list A) (st : run_state) : step_result :=
  match xs with
  | [] => ([], st, None)
  | x :: rest =>
      match body x st with
      | (log, st', Some e) => (log, st', Some e)
      | (log, st', None) =>
          let '(log', st'', r) := for_each body rest st' in
          (log ++ log', st'', r)
      end
  end.

Definition process_wiki_pages (env : Env) (args : Args)
    (wiki : string) (pages : list string) (file_title : string)
    (st : run_state) : step_result :=
  let lang_code := get_language_code wiki in
  for_each (process_page env args wiki lang_code file_title) pages st.

(** [stats.usage_by_wiki[wiki] += n]: a new key goes to the end. *)
Fixpoint usage_add (wiki : string) (n : Z) (d : list (string * Z)) : list (string * Z) :=
  match d with
  | [] => [(wiki, 0 + n)]
  | (k, v) :: d' =>
      if String.eqb k wiki then (k, v + n) :: d'
      else (k, v) :: usage_add wiki n d'
  end.

(** [sorted(items, key=lambda x: x[1], reverse=True)]: descending and
    stable, items of equal count keep their order. *)
Fixpoint insert_desc (x : string * Z) (l : list (string * Z)) : list (string * Z) :=
  match l with
  | [] => [x]
  | y :: l' => if (snd y <=? snd x) then x :: l else y :: insert_desc x l'
  end.

Definition sorted_desc (l : list (string * Z)) : list (string * Z) :=
  fold_right insert_desc [] l.

(** [l[:n]], where a negative [n] counts from the end. *)
Definition slice_to {A} (n : Z) (l : list A) : list A :=
  if (0 <=? n) then take (Z.to_nat n) l
  else take (length l - Z.to_nat (- n)) l.

Definition set_usage (files_used : Z) (usage : list (string * Z))
    (s : StatisticsTracker) : StatisticsTracker :=
  {| files_used_on_wikipedias := files_used;
     wiki_pages_seen := wiki_pages_seen s;
     usage_by_wiki := usage;
     first_image_by_file := first_image_by_file s;
     total_usages_by_file := total_usages_by_file s;
     first_image_by_wiki := first_image_by_wiki s;
     total_usages_by_wiki := total_usages_by_wiki s;
     first_image_by_lang := first_image_by_lang s;
     total_usages_by_lang := total_usages_by_lang s;
     wikidata_sourced_count := wikidata_sourced_count s;
     wikidata_sourced_by_wiki := wikidata_sourced_by_wiki s;
     first_p18_count := first_p18_count s;
     replaced_p18_count := replaced_p18_count s |}.

(** The bookkeeping of [process_files] for a file that is in use: one more
    file used, and the pages of each wiki added to its usage count. *)
Definition record_usage (wiki_pages : list (string * list string))
    (s : StatisticsTracker) : StatisticsTracker :=
  set_usage (files_used_on_wikipedias s + 1)
    (fold_left (fun d wp => usage_add (fst wp) (Z.of_nat (length (snd wp))) d)
               wiki_pages (usage_by_wiki s))
    s.

(** The [--limit-wikis] block: with a limit [n] that is not zero and below
    the number of wikis, only the wikis among the first [n] of the usage
    table sorted by count are kept. *)
Definition limit_to_top_wikis (args : Args) (usage : list (string * Z))
    (wiki_pages : list (string * list string)) : list (string * list string) :=
  match limit_wikis args with
  | Some n =>
      if negb (n =? 0) && (n <? Z.of_nat (length wiki_pages)) then
        let top_wikis := slice_to n (sorted_desc usage) in
        let top_wiki_domains := map fst top_wikis in
        List.filter (fun wp => existsb (String.eqb (fst wp)) top_wiki_domains)
                    wiki_pages
      else wiki_pages
  | None => wiki_pages
  end.

(** One iteration of the loop of [process_files]. *)
Definition process_file (env : Env) (args : Args)
    (file_title : string) (st : run_state) : step_result :=
  let wiki_pages := global_usage_of_file env file_title in
  match wiki_pages with
  | [] => ([ApiGlobalUsage file_title], st, None)
  | _ :: _ =>
      let st1 := {| stats := record_usage wiki_pages (stats st);
                    results := results st |} in
      let wiki_pages :=
        limit_to_top_wikis args (usage_by_wiki (stats st1)) wiki_pages in
      let '(log, st2, r) :=
        for_each (fun wp => process_wiki_pages env args (fst wp) (snd wp) file_title)
                 wiki_pages st1 in
      (ApiGlobalUsage file_title :: log, st2, r)
  end.

Definition process_files (env : Env) (all_files : list string) (args : Args)
    (stats0 : StatisticsTracker) : step_result :=
  for_each (process_file env args) all_files {| stats := stats0; results := [] |}.

(** How [main] ends: [sys.exit(code)], or the return of the results once
    the reports (not modelled) are printed. *)
Inductive main_result : Type :=
| Exit (code : Z)
| Returned (results : list result_entry) (stats : StatisticsTracker).

Definition main (env : Env) (args : Args) : list event * main_result :=
  let all_files := commons_category_files env (category args) (depth args) in
  match all_files with
  | [] => ([ApiCategoryFiles (category args) (depth args); PrintNoFiles], Exit 1)
  | _ :: _ =>
      let stats0 := initialize_statistics in
      match process_files env all_files args stats0 with
      | (log, _, Some e) =>
          (ApiCategoryFiles (category args) (depth args) :: log
             ++ [PrintUnexpectedError e], Exit 1)
      | (log, st, None) =>
          (ApiCategoryFiles (category args) (depth args) :: log,
           Returned (results st) (stats st))
      end
  end.

(** ** Notions used in the statements *)

(** The revision references the target file. *)
Definition references (file_name : string) (r : revision) : bool :=
  matches_file_in_wikitext (snd r) file_name.

Definition rev_id_of (r : revision) : Z := fst (fst r).
Definition rev_ts_of (r : revision) : string := snd (fst r).

(** The state in which the loop tracks revision [r] as the earliest known. *)
Definition tracking (r : revision) : scan_state :=
  {| earliest_rev_id := Some (rev_id_of r); earliest_ts := Some (rev_ts_of r);
     found_any := true |}.

(** The record of a direct introduction at revision [r]. *)
Definition introduced_at (r : revision) (first_image : bool) : info :=
  {| introduced_revision_id := VInt (rev_id_of r);
     introduced_timestamp := VStr (rev_ts_of r);
     timestamp_is_formatted := None;
     first_image := first_image;
     first_p18 := None;
     from_wikidata := false;
     wikidata_item := None;
     previous_p18_images := None |}.

(** Two strings that differ only by interchanging underscores and spaces. *)
Definition same_up_to_underscores (s t : string) : Prop :=
  PyStr.subst_char "_" " " s = PyStr.subst_char "_" " " t.

(** The comparison with the Wikidata value as the specification words it:
    the optional file-namespace prefix is removed from the target the way
    the text matcher removes it, both names are lower-cased, underscores and
    spaces are identified, and the names are compared. *)
Definition names_match_spec (file_name wikidata_image : string) : bool :=
  String.eqb
    (PyStr.subst_char "_" " " (PyStr.removeprefix "file:" (PyStr.lower file_name)))
    (PyStr.subst_char "_" " " (PyStr.lower wikidata_image)).

(** The image field of a history entry, when the entry is a dict that has
    one. *)
Definition image_field (h : pyval) : option pyval :=
  match h with
  | VDict d => dict_get "image" d
  | _ => None
  end.

(** Requests sent to Wikidata, or about the Wikidata item of a page. *)
Definition wikidata_event (ev : event) : bool :=
  match ev with
  | ApiWikidataItem _ _ | ApiCurrentImage _ | ApiImageHistory _ => true
  | _ => false
  end.



(** A usage event: the arguments of one call of [update_statistics]. *)
Record usage_event : Type := {
  ev_info : info;
  ev_file_title : string;
  ev_wiki : string;
  ev_lang_code : string
}.

(** The record operation of the aggregator, and a run of it. *)
Definition record (s : StatisticsTracker) (ev : usage_event) : StatisticsTracker :=
  update_statistics (ev_info ev) s (ev_file_title ev) (ev_wiki ev) (ev_lang_code ev).

Definition record_all (evs : list usage_event) (s : StatisticsTracker)
    : StatisticsTracker :=
  fold_left record evs s.

(** The counters the record operation maintains. *)
Inductive counter_name : Type :=
| TotalByFile (file_title : string)
| FirstImageByFile (file_title : string)
| TotalByWiki (wiki : string)
| FirstImageByWiki (wiki : string)
| TotalByLang (lang_code : string)
| FirstImageByLang (lang_code : string)
| WikidataSourcedByWiki (wiki : string)
| WikidataSourced
| FirstP18
| ReplacedP18.

Definition read (s : StatisticsTracker) (c : counter_name) : Z :=
  match c with
  | TotalByFile k => counter (total_usages_by_file s) k
  | FirstImageByFile k => counter (first_image_by_file s) k
  | TotalByWiki k => counter (total_usages_by_wiki s) k
  | FirstImageByWiki k => counter (first_image_by_wiki s) k
  | TotalByLang k => counter (total_usages_by_lang s) k
  | FirstImageByLang k => counter (first_image_by_lang s) k
  | WikidataSourcedByWiki k => counter (wikidata_sourced_by_wiki s) k
  | WikidataSourced => wikidata_sourced_count s
  | FirstP18 => first_p18_count s
  | ReplacedP18 => replaced_p18_count s
  end.

(** ** Example inputs *)

Module Examples.

Definition wiki : string := "en.wikipedia.org".
Definition target : string := "File:X.jpg".

Definition api_rev (id : Z) (ts content : string) : api_revision :=
  {| api_revid := Some id; api_timestamp := Some ts; api_content := content |}.

Definition no_history : res pyval := Ok (VList []).

(** A world with one Wikipedia and no Wikidata items; [revs] gives the
    revisions of each page and [usage] the pages using each file. *)
Definition plain_env (revs : string -> list api_revision)
    (usage : string -> list (string * list string)) : Env :=
  {| revisions_of_page := fun _ page_title => revs page_title;
     wikidata_item_for_page := fun _ _ => None;
     current_image_for_item := fun _ => None;
     image_history_for_item := fun _ => no_history;
     global_usage_of_file := usage;
     commons_category_files := fun _ _ => [target];
     datetime_format := fun ts => Some ts |}.

(** The file was added in revision 2 to a page without any image. *)
Definition added_later (page_title : string) : list api_revision :=
  [api_rev 3 "2024-03-01T00:00:00Z" "Text [[File:X.jpg|thumb]] more";
   api_rev 2 "2024-02-01T00:00:00Z" "Text [[file:x.jpg]]";
   api_rev 1 "2024-01-01T00:00:00Z" "Text only"].

Definition env_added_later : Env :=
  plain_env added_later (fun _ => [(wiki, ["Page"])]).

(** The revisions of §8.8 of the specification. *)
Definition present_from_start (page_title : string) : list api_revision :=
  [api_rev 3 "t3" "no image";
   api_rev 2 "t2" "[[File:X.jpg]]";
   api_rev 1 "t1" "[[File:X.jpg]]"].

Definition entry (ts image : string) (rev : Z) : pyval :=
  VDict [("timestamp", VStr ts); ("image", VStr image); ("revision_id", VInt rev)].

(** A world in which the pages get the file from the item [Q1]; [history]
    is what the history lookup answers. *)
Definition wikidata_env (history : res pyval)
    (usage : string -> list (string * list string)) : Env :=
  {| revisions_of_page := fun _ _ => [api_rev 1 "2024-01-01T00:00:00Z" "{{Infobox}}"];
     wikidata_item_for_page := fun _ _ => Some "Q1";
     current_image_for_item := fun _ => Some "X.jpg";
     image_history_for_item := fun _ => history;
     global_usage_of_file := usage;
     commons_category_files := fun _ _ => [target; "File:Other.png"];
     datetime_format := fun ts => Some ts |}.

Definition three_values : res pyval :=
  Ok (VList [entry "2024-03-01 00:00:00 UTC" "X.jpg" 30;
             entry "2024-02-01 00:00:00 UTC" "V1.jpg" 20;
             entry "2024-01-01 00:00:00 UTC" "V2.jpg" 10]).

Definition args_default : Args :=
  {| category := "Portraits"; depth := 0; limit_wikis := None;
     skip_wikidata := false |}.

Definition args_skip : Args :=
  {| category := "Portraits"; depth := 0; limit_wikis := None;
     skip_wikidata := true |}.

(** The target file is used on two pages of one wiki. *)
Definition two_pages (file_title : string) : list (string * list string) :=
  if String.eqb file_title target then [(wiki, ["A"; "B"])] else [(wiki, ["C"])].

Definition env_wellformed : Env := wikidata_env three_values two_pages.

(** Three usage events: two direct introductions and one through Wikidata. *)
Definition event_direct (file_title w : string) (first : bool) : usage_event :=
  {| ev_info := introduced_at (7, "2024-02-01T00:00:00Z", "") first;
     ev_file_title := file_title; ev_wiki := w;
     ev_lang_code := get_language_code w |}.

Definition event_wikidata (file_title w : string) (first_value : bool) : usage_event :=
  {| ev_info :=
       {| introduced_revision_id := VInt 30;
          introduced_timestamp := VStr "2024-03-01 00:00:00 UTC";
          timestamp_is_formatted := Some true;
          first_image := first_value;
          first_p18 := Some first_value;
          from_wikidata := true;
          wikidata_item := Some "Q1";
          previous_p18_images := Some [] |};
     ev_file_title := file_title; ev_wiki := w;
     ev_lang_code := get_language_code w |}.

Definition some_events : list usage_event :=
  [event_direct target wiki true;
   event_wikidata target "de.wikipedia.org" false;
   event_direct "File:Other.png" wiki false].

(** The history lookup itself fails on the first page: an exception other
    than [WikiAPIError] escapes from [get_image_history_for_item]. *)
Definition env_lookup_fails : Env :=
  wikidata_env
    (Raise (AttributeError "'NoneType' object has no attribute 'replace'"))
    two_pages.

End Examples.

(** ** History of the image property ([wikidata_utils.py]) *)

(** What [get_image_history_for_item] reads in the JSON of one revision of
    the item: the list of P18 claims is empty or missing, or its first
    claim is a value snak with a data value, or its first claim is
    something else. *)
Inductive p18_claims : Type :=
| NoClaims
| ValueClaim (p18_value : string)
| OtherClaim.

(** The content of a revision: text that [json.loads] rejects, or the JSON
    of the item. *)
Inductive revision_json : Type :=
| InvalidJson
| ItemJson (claims : p18_claims).

(** One revision of the item as the API returns it. *)
Record item_revision : Type := {
  item_revid : pyval;
  item_timestamp : option string;
  item_json : revision_json
}.

(** The two variables the loop over the revisions updates. *)
Record history_state : Type := {
  image_history : list pyval;
  current_p18_value : option string
}.

Definition history_entry (timestamp : pyval) (image : string) (revision_id : pyval)
    : pyval :=
  VDict [("timestamp", timestamp); ("image", VStr image);
         ("revision_id", revision_id)].

(** [p18_value != current_p18_value] *)
Definition differs_from (p18_value : string) (current : option string) : bool :=
  match current with
  | Some v => negb (String.eqb p18_value v)
  | None => true
  end.

(** The body of the loop over the revisions of one response.  The boolean
    tells whether the loop is left by [break].  An exception of the
    timestamp conversion is not caught. *)
Definition history_step (env : Env) (rev : item_revision) (st : history_state)
    : res (history_state * bool) :=
  match item_json rev with
  | InvalidJson => Ok (st, false)
  | ItemJson (ValueClaim p18_value) =>
      if differs_from p18_value (current_p18_value st) then
        match format_timestamp env (opt_str (item_timestamp rev)) with
        | Raise e => Raise e
        | Ok formatted_ts =>
            Ok ({| image_history :=
                     image_history st
                     ++ [history_entry formatted_ts p18_value (item_revid rev)];
                   current_p18_value := Some p18_value |}, false)
        end
      else Ok (st, false)
  | ItemJson OtherClaim => Ok (st, false)
  | ItemJson NoClaims =>
      match current_p18_value st with
      | Some _ => Ok (st, true)
      | None => Ok (st, false)
      end
  end.

(** The revisions of one response, up to the [break]. *)
Fixpoint history_batch (env : Env) (revisions : list item_revision)
    (st : history_state) : res history_state :=
  match revisions with
  | [] => Ok st
  | rev :: rest =>
      match history_step env rev st with
      | Raise e => Raise e
      | Ok (st', true) => Ok st'
      | Ok (st', false) => history_batch env rest st'
      end
  end.

(** The responses, one after the other: a [break] ends the revisions of
    its response only. *)
Fixpoint history_batches (env : Env) (batches : list (list item_revision))
    (st : history_state) : res history_state :=
  match batches with
  | [] => Ok st
  | revisions :: rest =>
      match history_batch env revisions st with
      | Raise e => Raise e
      | Ok st' => history_batches env rest st'
      end
  end.

(** [get_image_history_for_item], given the current image of the item, the
    responses received for its revisions, whether the request after them
    failed with a [WikiAPIError], and the time of the call as
    [datetime.now()] formats it. *)
Definition get_image_history_for_item (env : Env) (current_image : option string)
    (batches : list (list item_revision)) (transport_error : bool)
    (now : string) : res pyval :=
  match current_image with
  | None => Ok (VList [])
  | Some image =>
      if String.eqb image "" then Ok (VList []) else
      match
        history_batches env batches
          {| image_history := []; current_p18_value := None |}
      with
      | Raise e => Raise e
      | Ok st =>
          if transport_error then
            Ok (VList [history_entry (VStr now) image (VInt 0)])
          else
            match image_history st with
            | [] => Ok (VList [history_entry (VStr now) image (VInt 0)])
            | _ :: _ => Ok (VList (image_history st))
            end
      end
  end.

(** ** Files of a category ([get_commons_category_files]) *)

(** What the category requests answer: the titles received for the files
    and for the subcategories of a category, and whether the retrieval was
    ended by a [WikiAPIError]. *)
Record CategoryApi : Type := {
  category_files : string -> list string * bool;
  category_subcats : string -> list string * bool
}.

Inductive category_event : Type :=
| FetchFiles (cat_name : string)
| FetchSubcats (cat_name : string)
| PrintCategoryError (cat_name : string).

(** The two collections the nested function mutates, and the events. *)
Record crawl_state : Type := {
  all_files : list string;
  processed_categories : gset string;
  crawl_log : list category_event
}.

(** [get_category_files_recursive].  The recursion goes one level down at
    each call and stops below [depth]; [fuel] bounds the levels for the
    termination checker and is never used up when it exceeds the number of
    levels left. *)
Fixpoint get_category_files_recursive (api : CategoryApi) (depth : Z) (fuel : nat)
    (cat_name : string) (current_depth : Z) (st : crawl_state) : crawl_state :=
  if (depth <? current_depth) || bool_decide (cat_name ∈ processed_categories st)
  then st
  else
    match fuel with
    | O => st
    | S fuel' =>
        let '(titles, failed) := category_files api cat_name in
        let st1 :=
          {| all_files := all_files st ++ titles;
             processed_categories := processed_categories st ∪ {[cat_name]};
             crawl_log := crawl_log st ++ [FetchFiles cat_name] |} in
        if failed then
          {| all_files := all_files st1;
             processed_categories := processed_categories st1;
             crawl_log := crawl_log st1 ++ [PrintCategoryError cat_name] |}
        else if current_depth <? depth then
          let '(subcats, failed) := category_subcats api cat_name in
          let st2 :=
            {| all_files := all_files st1;
               processed_categories := processed_categories st1;
               crawl_log := crawl_log st1 ++ [FetchSubcats cat_name] |} in
          if failed then
            {| all_files := all_files st2;
               processed_categories := processed_categories st2;
               crawl_log := crawl_log st2 ++ [PrintCategoryError cat_name] |}
          else
            fold_left
              (fun st subcat =>
                 get_category_files_recursive api depth fuel'
                   (PyStr.removeprefix "Category:" subcat) (current_depth + 1) st)
              subcats st2
        else st1
    end.

(** The loop that removes the duplicates and keeps the file titles. *)
Fixpoint unique_files_loop (all_files unique_files : list string)
    (seen : gset string) : list string :=
  match all_files with
  | [] => unique_files
  | file :: rest =>
      if negb (bool_decide (file ∈ seen)) && PyStr.startswith "File:" file
      then unique_files_loop rest (unique_files ++ [file]) (seen ∪ {[file]})
      else unique_files_loop rest unique_files seen
  end.

Definition crawl_categories (api : CategoryApi) (category_name : string)
    (depth : Z) : crawl_state :=
  get_category_files_recursive api depth (Z.to_nat (depth + 1)) category_name 0
    {| all_files := []; processed_categories := ∅; crawl_log := [] |}.

Definition get_commons_category_files (api : CategoryApi) (category_name : string)
    (depth : Z) : list string :=
  unique_files_loop (all_files (crawl_categories api category_name depth)) [] ∅.

(** The categories whose files were requested, in the order of the
    requests. *)
Definition fetched_categories (log : list category_event) : list string :=
  omap (fun ev => match ev with FetchFiles c => Some c | _ => None end) log.

(** ** Global usage of a file ([get_global_usage_of_file]) *)

(** One usage of the file as the API lists it. *)
Record usage_entry : Type := {
  usage_wiki : option string;
  usage_title : string
}.

(** [wiki_pages[wiki].add(title)] on a dict of sets that keeps the order in
    which its keys were inserted. *)
Fixpoint add_page (wiki title : string) (d : list (string * gset string))
    : list (string * gset string) :=
  match d with
  | [] => [(wiki, {[title]})]
  | (k, pages) :: d' =>
      if String.eqb k wiki then (k, pages ∪ {[title]}) :: d'
      else (k, pages) :: add_page wiki title d'
  end.

(** The usages received are sorted by wiki, for the Wikipedias only; when
    the retrieval fails everything is dropped.  The pages of a wiki are
    left as the set the source collects, which it turns into a list in the
    order of the set. *)
Definition get_global_usage_of_file (usages : list usage_entry) (failed : bool)
    : list (string * gset string) :=
  if failed then []
  else
    fold_left
      (fun d usage =>
         match usage_wiki usage with
         | Some wiki =>
             if negb (String.eqb wiki "") && PyStr.endswith ".wikipedia.org" wiki
             then add_page wiki (usage_title usage) d
             else d
         | None => d
         end)
      usages [].

(** ** Reporting helpers of the tracker *)

(** [StatisticsTracker.get_wikidata_count_for_language]: the sum, over the
    wikis of the usage table whose language code is [lang_code], of their
    Wikidata-sourced counts ([.get(wiki, 0)] reads without inserting). *)
Definition get_wikidata_count_for_language (self : StatisticsTracker)
    (lang_code : string) : Z :=
  fold_left Z.add
    (map (fun wiki => counter (wikidata_sourced_by_wiki self) wiki)
         (List.filter (fun wiki => String.eqb (get_language_code wiki) lang_code)
                      (map fst (usage_by_wiki self))))
    0.

(** ** Further notions used in the statements *)

(** The usage event counts for the counter. *)
Definition counted (c : counter_name) (ev : usage_event) : bool :=
  let i := ev_info ev in
  match c with
  | TotalByFile k => String.eqb (ev_file_title ev) k
  | FirstImageByFile k => first_image i && String.eqb (ev_file_title ev) k
  | TotalByWiki k => String.eqb (ev_wiki ev) k
  | FirstImageByWiki k => first_image i && String.eqb (ev_wiki ev) k
  | TotalByLang k => String.eqb (ev_lang_code ev) k
  | FirstImageByLang k => first_image i && String.eqb (ev_lang_code ev) k
  | WikidataSourcedByWiki k => from_wikidata i && String.eqb (ev_wiki ev) k
  | WikidataSourced => from_wikidata i
  | FirstP18 => from_wikidata i && default false (first_p18 i)
  | ReplacedP18 => from_wikidata i && negb (default false (first_p18 i))
  end.

(** The result entry counts for the counter. *)
Definition entry_counted (c : counter_name) (r : result_entry) : bool :=
  match c with
  | TotalByFile k => String.eqb (r_file r) k
  | FirstImageByFile k => r_first_image r && String.eqb (r_file r) k
  | TotalByWiki k => String.eqb (r_wiki r) k
  | FirstImageByWiki k => r_first_image r && String.eqb (r_wiki r) k
  | TotalByLang k => String.eqb (r_language r) k
  | FirstImageByLang k => r_first_image r && String.eqb (r_language r) k
  | WikidataSourcedByWiki k => r_from_wikidata r && String.eqb (r_wiki r) k
  | WikidataSourced => r_from_wikidata r
  | FirstP18 => r_from_wikidata r && default false (r_first_p18 r)
  | ReplacedP18 => r_from_wikidata r && negb (default false (r_first_p18 r))
  end.

(** How many elements of a list pass a test. *)
Definition count_of {A} (p : A -> bool) (l : list A) : Z :=
  Z.of_nat (length (List.filter p l)).

(** [d.get(wiki, 0)] on the usage table. *)
Fixpoint usage_get (wiki : string) (d : list (string * Z)) : Z :=
  match d with
  | [] => 0
  | (k, v) :: d' => if String.eqb k wiki then v else usage_get wiki d'
  end.

(** The pages listed for a wiki in the usage of one file. *)
Fixpoint pages_on (wiki : string) (wiki_pages : list (string * list string)) : Z :=
  match wiki_pages with
  | [] => 0
  | (k, pages) :: rest =>
      (if String.eqb k wiki then Z.of_nat (length pages) else 0) + pages_on wiki rest
  end.

(** The counters agree with the result entries. *)
Definition counters_match_results (st : run_state) : Prop :=
  forall c, read (stats st) c = count_of (entry_counted c) (results st).

(** The wikis of the usage table are distinct. *)
Definition usage_keys_distinct (st : run_state) : Prop :=
  NoDup (map fst (usage_by_wiki (stats st))).

(** Every result entry is about a wiki of the usage table and carries the
    language code of its wiki. *)
Definition results_in_usage (st : run_state) : Prop :=
  Forall (fun r => In (r_wiki r) (map fst (usage_by_wiki (stats st)))
                   /\ r_language r = get_language_code (r_wiki r))
         (results st).

(** What a run keeps true of the tracker and the results. *)
Definition run_consistent (st : run_state) : Prop :=
  counters_match_results st /\ usage_keys_distinct st /\ results_in_usage st.

(** An entry as [get_image_history_for_item] builds them. *)
Definition built_entry (h : pyval) : Prop :=
  exists ts image revision_id, h = history_entry (VStr ts) image revision_id.

(** No two consecutive entries have the same image field. *)
Fixpoint no_repeated_image (l : list pyval) : Prop :=
  match l with
  | a :: (b :: _) as older => image_field a <> image_field b /\ no_repeated_image older
  | _ => True
  end.

(** What the loop keeps true of its two variables: the entries are built
    entries without a repeated image, and the current value is the image of
    the last entry. *)
Definition history_invariant (st : history_state) : Prop :=
  Forall built_entry (image_history st)
  /\ no_repeated_image (image_history st)
  /\ match current_p18_value st with
     | None => image_history st = []
     | Some v =>
         exists a, last (image_history st) = Some a
                   /\ image_field a = Some (VStr v)
     end.

(** Every fetched category is marked as processed, and none was fetched
    twice. *)
Definition crawl_invariant (st : crawl_state) : Prop :=
  NoDup (fetched_categories (crawl_log st))
  /\ forall c, c ∈ fetched_categories (crawl_log st) -> c ∈ processed_categories st.

(** The usage was listed for the wiki, and the wiki is a Wikipedia. *)
Definition listed (usages : list usage_entry) (wiki title : string) : Prop :=
  In {| usage_wiki := Some wiki; usage_title := title |} usages
  /\ wiki <> "" /\ PyStr.endswith ".wikipedia.org" wiki = true.

(** What the sorting of the usages keeps true, [done] being the usages
    read so far. *)
Definition usage_invariant (done : list usage_entry)
    (d : list (string * gset string)) : Prop :=
  NoDup (map fst d)
  /\ (forall w pages, In (w, pages) d ->
        w <> "" /\ PyStr.endswith ".wikipedia.org" w = true
        /\ forall t, t ∈ pages -> listed done w t)
  /\ (forall w t, listed done w t -> exists pages, In (w, pages) d /\ t ∈ pages).

(** Sample revisions of an item: the image is set, changed, then the
    property is removed in a newer revision. *)
Module Samples.

Definition item_rev (id : Z) (ts : string) (claims : p18_claims) : item_revision :=
  {| item_revid := VInt id; item_timestamp := Some ts; item_json := ItemJson claims |}.

Definition env : Env := Examples.plain_env (fun _ => []) (fun _ => []).

Definition revisions : list item_revision :=
  [item_rev 40 "2024-04-01T00:00:00Z" (ValueClaim "X.jpg");
   item_rev 30 "2024-03-01T00:00:00Z" (ValueClaim "X.jpg");
   item_rev 20 "2024-02-01T00:00:00Z" (ValueClaim "Old.jpg");
   item_rev 10 "2024-01-01T00:00:00Z" NoClaims;
   item_rev 5 "2023-12-01T00:00:00Z" (ValueClaim "Older.jpg")].

Definition now : string := "2024-05-01 00:00:00 UTC".

End Samples.

(** ** ASCII texts and letter case *)

(** [s.isascii()] *)
Fixpoint isascii (s : string) : bool :=
  match s with
  | EmptyString => true
  | String c s' => (N_of_ascii c <? 128)%N && isascii s'
  end.

(** [c] and [d] are the same character, or the capital and the small form
    of one of the letters [A] to [Z]. *)
Definition same_letter (c d : ascii) : bool :=
  let m := N_of_ascii c in
  let n := N_of_ascii d in
  ((m =? n) || ((65 <=? m) && (m <=? 90) && (n =? m + 32))
   || ((65 <=? n) && (n <=? 90) && (m =? n + 32)))%N.

(** Two texts of the same length that differ in the case of letters only. *)
Fixpoint differ_in_case_only (s t : string) : bool :=
  match s, t with
  | EmptyString, EmptyString => true
  | String c s', String d t' => same_letter c d && differ_in_case_only s' t'
  | _, _ => false
  end.

(** ** Runs whose image history comes from [get_image_history_for_item] *)

Module Runs.






End Runs.

(** * Properties *)

(** ** Facts about the string operations *)

Module PyStrFacts.
Import PyStr.

Lemma app_assoc (a b c : string) : (a +:+ b) +:+ c = a +:+ (b +:+ c).
Proof. induction a as [|x a IH]; simpl; [reflexivity | now rewrite IH]. Qed.

Lemma app_empty_r (a : string) : a +:+ "" = a.
Proof. induction a as [|x a IH]; simpl; [reflexivity | now rewrite IH]. Qed.

Lemma startswith_spec (p s : string) :
  startswith p s = true <-> exists t, s = p +:+ t.
Proof.
  revert s; induction p as [|a p IH]; intros s; simpl.
  - split; [intros _; now exists s | reflexivity].
  - destruct s as [|b s].
    + split; [discriminate | intros [t Ht]; discriminate].
    + destruct (Ascii.eqb_spec a b) as [->|Hne].
      * rewrite IH. split; intros [t Ht]; exists t; congruence.
      * split; [discriminate | intros [t Ht]; congruence].
Qed.

Lemma startswith_drop (p t : string) :
  drop_chars (String.length p) (p +:+ t) = t.
Proof. induction p as [|a p IH]; simpl; [now destruct t | exact IH]. Qed.

Lemma contains_spec (n h : string) :
  contains n h = true <-> exists a b, h = a +:+ (n +:+ b).
Proof.
  induction h as [|c h IH]; simpl.
  - destruct (startswith n "") eqn:E.
    + split; [intros _ | reflexivity].
      apply startswith_spec in E as [t Ht]. now exists "", t.
    + split; [discriminate |].
      intros ([|x a] & b & Hab); [|discriminate].
      assert (startswith n "" = true) by (apply startswith_spec; now exists b).
      congruence.
  - destruct (startswith n (String c h)) eqn:E.
    + split; [intros _ | reflexivity].
      apply startswith_spec in E as [t Ht]. now exists "", t.
    + rewrite IH. split.
      * intros (a & b & ->). now exists (String c a), b.
      * intros ([|x a] & b & Hab); simpl in Hab.
        -- assert (startswith n (String c h) = true)
             by (apply startswith_spec; now exists b).
           congruence.
        -- exists a, b. congruence.
Qed.

Lemma endswith_spec (suf s : string) :
  endswith suf s = true <-> exists a, s = a +:+ suf.
Proof.
  induction s as [|c s IH]; cbn [endswith].
  - destruct (String.eqb_spec "" suf) as [<-|Hne].
    + split; [now exists "" | reflexivity].
    + split; [discriminate |].
      intros ([|x a] & Ha); simpl in Ha; [congruence | discriminate].
  - destruct (String.eqb_spec (String c s) suf) as [<-|Hne].
    + split; [now exists "" | reflexivity].
    + rewrite IH. split.
      * intros (a & ->). now exists (String c a).
      * intros ([|x a] & Ha); simpl in Ha; [congruence |].
        exists a. congruence.
Qed.

(** A needle found in the haystack brings each of its suffixes along. *)
Lemma contains_suffix (a ext h : string) :
  contains (a +:+ ext) h = true -> contains ext h = true.
Proof.
  rewrite !contains_spec. intros (x & y & ->).
  exists (x +:+ a), y. now rewrite !app_assoc.
Qed.

(** A one-character [replace] is a character-wise substitution. *)
Lemma replace_char (a b : ascii) (s : string) :
  replace (String a "") (String b "") s = subst_char a b s.
Proof.
  unfold replace. induction s as [|c s IH]; simpl; [reflexivity |].
  destruct (Ascii.eqb a c); simpl; now rewrite IH.
Qed.

Lemma subst_char_app (a b : ascii) (x y : string) :
  subst_char a b (x +:+ y) = subst_char a b x +:+ subst_char a b y.
Proof. induction x as [|c x IH]; simpl; [reflexivity | now rewrite IH]. Qed.

Lemma subst_char_absent (a b : ascii) (s : string) :
  has_char a s = false -> subst_char a b s = s.
Proof.
  induction s as [|c s IH]; simpl; [reflexivity |].
  intros H. apply orb_false_elim in H as [Hc Hs].
  rewrite Hc, IH; auto.
Qed.

(** Removing a prefix leaves a suffix in place when the first character of
    the suffix does not occur in the prefix. *)
Lemma removeprefix_suffix (p s a rest : string) (c : ascii) :
  has_char c p = false ->
  s = a +:+ String c rest ->
  exists a', removeprefix p s = a' +:+ String c rest.
Proof.
  intros Hc Hs. unfold removeprefix.
  destruct (startswith p s) eqn:E; [| now exists a].
  apply startswith_spec in E as [t Ht].
  rewrite Ht, startswith_drop. rewrite Hs in Ht. clear Hs.
  revert a Hc Ht. induction p as [|d p IH]; intros a Hc Ht; simpl in *.
  - now exists a.
  - apply orb_false_elim in Hc as [Hd Hp].
    destruct a as [|x a]; simpl in Ht.
    + injection Ht as Hdc _. subst d.
      rewrite Ascii.eqb_refl in Hd. discriminate.
    + injection Ht as _ Ht. eauto.
Qed.

Lemma lower_app (x y : string) : lower (x +:+ y) = lower x +:+ lower y.
Proof. induction x as [|c x IH]; simpl; [reflexivity | now rewrite IH]. Qed.

Lemma lower_ascii_idem (c : ascii) : lower_ascii (lower_ascii c) = lower_ascii c.
Proof.
  destruct c as [[] [] [] [] [] [] [] []]; reflexivity.
Qed.

Lemma lower_idem (s : string) : lower (lower s) = lower s.
Proof.
  induction s as [|c s IH]; simpl; [reflexivity |].
  now rewrite lower_ascii_idem, IH.
Qed.

End PyStrFacts.

(** ** Text matcher *)

Lemma has_image_of_extension (content ext : string) :
  In ext IMAGE_EXTENSIONS ->
  PyStr.contains ext (PyStr.lower content) = true ->
  has_image_in_wikitext content = true.
Proof.
  intros Hin Hc. unfold has_image_in_wikitext.
  apply existsb_exists. now exists ext.
Qed.

(** Every spelling tried for a file name keeps the extension the
    lower-cased name ends with. *)
Lemma variants_keep_extension (file_name ext v : string) :
  In ext IMAGE_EXTENSIONS ->
  PyStr.endswith ext (PyStr.lower file_name) = true ->
  In v (file_name_variants file_name) ->
  exists a, v = a +:+ ext.
Proof.
  intros Hext Hend Hv.
  apply PyStrFacts.endswith_spec in Hend as [a Ha].
  assert (Hshape : exists rest, ext = String "." rest
            /\ PyStr.has_char "_" ext = false /\ PyStr.has_char " " ext = false).
  { simpl in Hext.
    destruct Hext as [<-|[<-|[<-|[<-|[<-|[]]]]]]; eexists; repeat split. }
  destruct Hshape as (rest & Hrest & Hus & Hsp).
  assert (Hfn : exists a', PyStr.removeprefix "file:" (PyStr.lower file_name) = a' +:+ ext).
  { rewrite Hrest in Ha |- *.
    eapply PyStrFacts.removeprefix_suffix; [reflexivity | exact Ha]. }
  destruct Hfn as [a' Ha'].
  unfold file_name_variants in Hv. cbv zeta in Hv.
  rewrite !PyStrFacts.replace_char, Ha' in Hv.
  rewrite !PyStrFacts.subst_char_app in Hv.
  rewrite (PyStrFacts.subst_char_absent "_" " " ext Hus) in Hv.
  rewrite (PyStrFacts.subst_char_absent " " "_" ext Hsp) in Hv.
  destruct Hv as [<-|[<-|[<-|[]]]]; eauto.
Qed.

(** C9: when the lower-cased file name ends with a recognised image
    extension, every content that the file-reference test accepts for that
    name is also accepted by the image-markup test. *)
Theorem C9_reference_implies_image_markup (content file_name ext : string) :
  In ext IMAGE_EXTENSIONS ->
  PyStr.endswith ext (PyStr.lower file_name) = true ->
  matches_file_in_wikitext content file_name = true ->
  has_image_in_wikitext content = true.
Proof.
  intros Hext Hend Hm. unfold matches_file_in_wikitext in Hm.
  apply existsb_exists in Hm as (v & Hv & Hc).
  destruct (variants_keep_extension file_name ext v Hext Hend Hv) as [a ->].
  apply (has_image_of_extension content ext Hext).
  exact (PyStrFacts.contains_suffix a ext _ Hc).
Qed.

Lemma C9_witness :
  In ".jpg" IMAGE_EXTENSIONS
  /\ PyStr.endswith ".jpg" (PyStr.lower "File:Anna_Smith.JPG") = true
  /\ matches_file_in_wikitext "{{Infobox|image=Anna Smith.jpg}}" "File:Anna_Smith.JPG" = true
  /\ has_image_in_wikitext "{{Infobox|image=Anna Smith.jpg}}" = true.
Proof.
  assert (H1 : In ".jpg" IMAGE_EXTENSIONS) by (simpl; auto).
  assert (H2 : PyStr.endswith ".jpg" (PyStr.lower "File:Anna_Smith.JPG") = true)
    by reflexivity.
  assert (H3 : matches_file_in_wikitext "{{Infobox|image=Anna Smith.jpg}}"
                 "File:Anna_Smith.JPG" = true) by reflexivity.
  split; [exact H1 | split; [exact H2 | split; [exact H3 |]]].
  exact (C9_reference_implies_image_markup _ _ _ H1 H2 H3).
Defined.

(** The file-reference test only looks at the lower-cased operands: it
    cannot tell two spellings apart that differ in letter case. *)
Lemma matches_case_insensitive (content content' file_name file_name' : string) :
  PyStr.lower content = PyStr.lower content' ->
  PyStr.lower file_name = PyStr.lower file_name' ->
  matches_file_in_wikitext content file_name
  = matches_file_in_wikitext content' file_name'.
Proof.
  intros Hc Hf. unfold matches_file_in_wikitext, file_name_variants.
  now rewrite Hc, Hf.
Qed.

(** C5: the file-reference test depends on how underscores and spaces are
    mixed in the content.  A page that spells the target
    [Anna Smith 2019.jpg] with one underscore and one space is not matched,
    although the two contents differ only by an underscore written for a
    space; the test is evaluated on both. *)
Theorem C5_underscore_swap_changes_result :
  same_up_to_underscores "[[File:Anna_Smith 2019.jpg|thumb]]"
                         "[[File:Anna Smith 2019.jpg|thumb]]"
  /\ matches_file_in_wikitext "[[File:Anna_Smith 2019.jpg|thumb]]"
                              "File:Anna Smith 2019.jpg" = false
  /\ matches_file_in_wikitext "[[File:Anna Smith 2019.jpg|thumb]]"
                              "File:Anna Smith 2019.jpg" = true.
Proof. repeat split. Qed.

(** The same dependence on the side of the target. *)
Example matches_target_swap :
  same_up_to_underscores "File:Anna_Smith 2019.jpg" "File:Anna Smith_2019.jpg"
  /\ matches_file_in_wikitext "[[File:Anna_Smith 2019.jpg]]" "File:Anna_Smith 2019.jpg" = true
  /\ matches_file_in_wikitext "[[File:Anna_Smith 2019.jpg]]" "File:Anna Smith_2019.jpg" = false.
Proof. repeat split. Qed.

(** ** Comparison with the Wikidata value *)

Lemma subst_space_after_underscore (s : string) :
  PyStr.subst_char " " "_" (PyStr.subst_char "_" " " s) = PyStr.subst_char " " "_" s.
Proof.
  induction s as [|c s IH]; cbn [PyStr.subst_char]; [reflexivity |].
  rewrite IH. f_equal.
  destruct c as [[] [] [] [] [] [] [] []]; reflexivity.
Qed.

Lemma subst_underscore_after_space (s : string) :
  PyStr.subst_char "_" " " (PyStr.subst_char " " "_" s) = PyStr.subst_char "_" " " s.
Proof.
  induction s as [|c s IH]; cbn [PyStr.subst_char]; [reflexivity |].
  rewrite IH. f_equal.
  destruct c as [[] [] [] [] [] [] [] []]; reflexivity.
Qed.

(** What the three disjuncts of the source amount to: one comparison of
    the names with underscores read as spaces.  The prefix is removed by
    [replace("File:", "")], before lower-casing. *)
Lemma check_if_file_matches_wikidata_image_eq (file_name wikidata_image : string) :
  check_if_file_matches_wikidata_image file_name wikidata_image
  = String.eqb
      (PyStr.subst_char "_" " " (PyStr.lower (PyStr.replace "File:" "" file_name)))
      (PyStr.subst_char "_" " " (PyStr.lower wikidata_image)).
Proof.
  unfold check_if_file_matches_wikidata_image. cbv zeta.
  rewrite !PyStrFacts.replace_char.
  set (c := PyStr.lower (PyStr.replace "File:" "" file_name)).
  set (w := PyStr.lower wikidata_image).
  destruct (String.eqb_spec (PyStr.subst_char "_" " " c) (PyStr.subst_char "_" " " w))
    as [Heq|Hne]; [reflexivity |].
  simpl.
  destruct (String.eqb_spec (PyStr.subst_char " " "_" c) (PyStr.subst_char " " "_" w))
    as [Heq|Hne2].
  - exfalso. apply Hne.
    now rewrite <- (subst_underscore_after_space c),
                <- (subst_underscore_after_space w), Heq.
  - simpl. destruct (String.eqb_spec c w) as [Heq|Hne3]; [|reflexivity].
    exfalso. apply Hne. now rewrite Heq.
Qed.

(** C4: the comparison against the Wikidata value removes the prefix with a
    case-sensitive [replace] of every occurrence of [File:].  A target whose
    prefix is spelled [file:] is not matched with the value [Y.jpg], and a
    target whose own name starts with [File:] is not matched with its
    value, although the comparison worded by the specification accepts
    both; the usual spelling is matched. *)
Theorem C4_prefix_spelling_not_matched :
  check_if_file_matches_wikidata_image "file:Y.jpg" "Y.jpg" = false
  /\ names_match_spec "file:Y.jpg" "Y.jpg" = true
  /\ matches_file_in_wikitext "Y.jpg" "file:Y.jpg" = true
  /\ check_if_file_matches_wikidata_image "File:File:Y.jpg" "File:Y.jpg" = false
  /\ names_match_spec "File:File:Y.jpg" "File:Y.jpg" = true
  /\ check_if_file_matches_wikidata_image "File:Y.jpg" "y.JPG" = true.
Proof. repeat split. Qed.

(** ** Wikitext introduction finder *)

Section WikitextScan.

Variable file_name : string.

Local Abbreviation references := (references file_name).

Lemma last_cons {A} (x : A) (l : list A) (d : A) :
  List.last (x :: l) d = List.last l x.
Proof.
  revert x d. induction l as [|y l IH]; intros x d; [reflexivity |].
  change (List.last (x :: y :: l) d) with (List.last (y :: l) d).
  now rewrite !IH.
Qed.

(** While searching, revisions without the file leave the state alone. *)
Lemma scan_searching (pre rest : list revision) (st : scan_state) :
  found_any st = false ->
  Forall (fun r => references r = false) pre ->
  scan_revisions file_name (pre ++ rest) st = scan_revisions file_name rest st.
Proof.
  intros Hst Hpre. induction Hpre as [|[[id ts] content] pre Hr _ IH]; [reflexivity |].
  unfold references in Hr. simpl in Hr. simpl. now rewrite Hst, Hr.
Qed.

(** The first revision with the file starts the tracking. *)
Lemma scan_first_reference (m : revision) (rest : list revision) (st : scan_state) :
  found_any st = false ->
  references m = true ->
  scan_revisions file_name (m :: rest) st = scan_revisions file_name rest (tracking m).
Proof.
  destruct m as [[id ts] content]. unfold references. simpl.
  intros -> ->. reflexivity.
Qed.

(** While tracking, every further revision with the file becomes the
    earliest known one, and the first one without it ends the loop. *)
Lemma scan_tracking (run : list revision) (m t : revision) (rest : list revision) :
  Forall (fun r => references r = true) run ->
  references t = false ->
  scan_revisions file_name (run ++ t :: rest) (tracking m)
  = inr (wikitext_info (tracking (List.last run m))
                       (negb (has_image_in_wikitext (snd t)))).
Proof.
  intros Hrun Ht. revert m.
  induction Hrun as [|[[id ts] content] run Hr _ IH]; intros m.
  - destruct t as [[id ts] content]. unfold references in Ht. simpl in Ht.
    simpl. now rewrite Ht.
  - unfold references in Hr. simpl in Hr.
    change (((id, ts, content) :: run) ++ t :: rest)
      with ((id, ts, content) :: (run ++ t :: rest)).
    cbn [scan_revisions tracking found_any negb]. rewrite Hr. cbn [negb].
    change {| earliest_rev_id := Some id; earliest_ts := Some ts; found_any := true |}
      with (tracking (id, ts, content)).
    rewrite IH. now rewrite last_cons.
Qed.

(** The tracking runs to the end of the list when every revision has the
    file. *)
Lemma scan_tracking_all (run : list revision) (m : revision) :
  Forall (fun r => references r = true) run ->
  scan_revisions file_name run (tracking m) = inl (tracking (List.last run m)).
Proof.
  intros Hrun. revert m.
  induction Hrun as [|[[id ts] content] run Hr _ IH]; intros m; [reflexivity |].
  unfold references in Hr. simpl in Hr.
  cbn [scan_revisions tracking found_any negb]. rewrite Hr. cbn [negb].
  change {| earliest_rev_id := Some id; earliest_ts := Some ts; found_any := true |}
    with (tracking (id, ts, content)).
  rewrite IH. now rewrite last_cons.
Qed.

(** A list holding a revision without the file splits at the first one. *)
Lemma first_without_file (l : list revision) (k : nat) (x : revision) :
  l !! k = Some x ->
  references x = false ->
  exists run t rest,
    l = run ++ t :: rest
    /\ Forall (fun r => references r = true) run
    /\ references t = false.
Proof.
  revert k. induction l as [|r l IH]; intros k Hk Hx; [discriminate |].
  destruct (references r) eqn:Hr.
  - destruct k as [|k]; [simpl in Hk; congruence |].
    destruct (IH k Hk Hx) as (run & t & rest & -> & Hrun & Ht).
    exists (r :: run), t, rest. repeat split; auto.
  - exists [], r, l. repeat split; auto.
Qed.

(** A list in which a revision with the file is followed, later, by one
    without it: the shape the scan goes through. *)
Lemma reference_then_absence (revs : list revision) (i j : nat) (ri rj : revision) :
  revs !! i = Some ri ->
  revs !! j = Some rj ->
  (i < j)%nat ->
  references ri = true ->
  references rj = false ->
  exists pre m run t rest,
    revs = pre ++ m :: run ++ t :: rest
    /\ Forall (fun r => references r = false) pre
    /\ references m = true
    /\ Forall (fun r => references r = true) run
    /\ references t = false.
Proof.
  revert i j. induction revs as [|r revs IH]; intros i j Hi Hj Hij Hri Hrj;
    [discriminate |].
  destruct j as [|j]; [lia |]. simpl in Hj.
  destruct (references r) eqn:Hr.
  - destruct (first_without_file revs j rj Hj Hrj) as (run & t & rest & -> & Hrun & Ht).
    exists [], r, run, t, rest. repeat split; auto.
  - destruct i as [|i]; [simpl in Hi; congruence |]. simpl in Hi.
    destruct (IH i j Hi Hj ltac:(lia) Hri Hrj)
      as (pre & m & run & t & rest & -> & Hpre & Hm & Hrun & Ht).
    exists (r :: pre), m, run, t, rest. repeat split; auto.
Qed.

(** The result of the finder on a list of that shape. *)
Lemma earliest_in_revisions_shape (pre : list revision) (m : revision)
    (run : list revision) (t : revision) (rest : list revision) :
  Forall (fun r => references r = false) pre ->
  references m = true ->
  Forall (fun r => references r = true) run ->
  references t = false ->
  earliest_in_revisions (pre ++ m :: run ++ t :: rest) file_name
  = Some (wikitext_info (tracking (List.last run m))
                        (negb (has_image_in_wikitext (snd t)))).
Proof.
  intros Hpre Hm Hrun Ht. unfold earliest_in_revisions.
  rewrite scan_searching by (auto; reflexivity).
  rewrite scan_first_reference by (auto; reflexivity).
  now rewrite scan_tracking.
Qed.

(** Every record of the finder is one built at its two [return]s. *)
Lemma scan_revisions_inr (revs : list revision) (st : scan_state) (i : info) :
  scan_revisions file_name revs st = inr i ->
  exists st' b, i = wikitext_info st' b.
Proof.
  revert st. induction revs as [|[[id ts] content] revs IH]; intros st; [discriminate |].
  simpl. destruct (found_any st); simpl.
  - destruct (matches_file_in_wikitext content file_name); simpl.
    + apply IH.
    + intros [= <-]. eauto.
  - destruct (matches_file_in_wikitext content file_name); apply IH.
Qed.

Lemma earliest_in_revisions_info (revs : list revision) (i : info) :
  earliest_in_revisions revs file_name = Some i ->
  exists st b, i = wikitext_info st b.
Proof.
  unfold earliest_in_revisions.
  destruct (scan_revisions file_name revs scan_init) as [st|i'] eqn:E.
  - destruct (found_any st); [|discriminate]. intros [= <-]. eauto.
  - intros [= <-]. eapply scan_revisions_inr; eauto.
Qed.

(** Without any revision holding the file there is no record. *)
Lemma earliest_in_revisions_none (revs : list revision) :
  Forall (fun r => references r = false) revs ->
  earliest_in_revisions revs file_name = None.
Proof.
  intros H. unfold earliest_in_revisions.
  rewrite <- (app_nil_r revs).
  rewrite scan_searching by (auto; reflexivity). reflexivity.
Qed.

End WikitextScan.

(** The finder sends one request for the revisions and neither raises nor
    prints a failure. *)
Lemma find_earliest_wikitext_introduction_eq (env : Env) (wiki page_title file_name : string) :
  find_earliest_wikitext_introduction env wiki page_title file_name
  = ([ApiRevisions wiki page_title],
     Ok (earliest_in_revisions
           (omap yielded (revisions_of_page env wiki page_title)) file_name)).
Proof. reflexivity. Qed.

(** C1: when the revisions of the page, newest first, hold a revision with
    the file and, further on, one without it, they split into revisions
    without the file, a run [m :: run] of revisions with the file and the
    revision [t] without it that ends the scan; the finder returns the id
    and timestamp of the last revision of the run, and the first-image flag
    is true exactly when [t] holds no image markup. *)
Theorem C1_wikitext_introduction_point
    (env : Env) (wiki page_title file_name : string)
    (i j : nat) (ri rj : revision) :
  let revs := omap yielded (revisions_of_page env wiki page_title) in
  revs !! i = Some ri ->
  revs !! j = Some rj ->
  (i < j)%nat ->
  references file_name ri = true ->
  references file_name rj = false ->
  exists pre m run t rest,
    revs = pre ++ m :: run ++ t :: rest
    /\ Forall (fun r => references file_name r = false) pre
    /\ references file_name m = true
    /\ Forall (fun r => references file_name r = true) run
    /\ references file_name t = false
    /\ find_earliest_wikitext_introduction env wiki page_title file_name
       = ([ApiRevisions wiki page_title],
          Ok (Some (introduced_at (List.last run m)
                      (negb (has_image_in_wikitext (snd t)))))).
Proof.
  intros revs Hi Hj Hij Hri Hrj.
  destruct (reference_then_absence file_name revs i j ri rj Hi Hj Hij Hri Hrj)
    as (pre & m & run & t & rest & Hrevs & Hpre & Hm & Hrun & Ht).
  exists pre, m, run, t, rest. repeat (split; [assumption |]).
  rewrite find_earliest_wikitext_introduction_eq. fold revs. rewrite Hrevs.
  now rewrite (earliest_in_revisions_shape file_name pre m run t rest).
Qed.

Lemma C1_witness :
  exists pre m run t rest,
    omap yielded (Examples.added_later "Page") = pre ++ m :: run ++ t :: rest
    /\ Forall (fun r => references Examples.target r = false) pre
    /\ references Examples.target m = true
    /\ Forall (fun r => references Examples.target r = true) run
    /\ references Examples.target t = false
    /\ find_earliest_wikitext_introduction Examples.env_added_later
         Examples.wiki "Page" Examples.target
       = ([ApiRevisions Examples.wiki "Page"],
          Ok (Some (introduced_at (List.last run m)
                      (negb (has_image_in_wikitext (snd t)))))).
Proof.
  apply (C1_wikitext_introduction_point Examples.env_added_later
           Examples.wiki "Page" Examples.target 0 2
           (3, "2024-03-01T00:00:00Z", "Text [[File:X.jpg|thumb]] more")
           (1, "2024-01-01T00:00:00Z", "Text only")).
  - reflexivity.
  - reflexivity.
  - lia.
  - reflexivity.
  - reflexivity.
Defined.

Example wikitext_added_later :
  find_earliest_wikitext_introduction Examples.env_added_later
    Examples.wiki "Page" Examples.target
  = ([ApiRevisions Examples.wiki "Page"],
     Ok (Some (introduced_at (2, "2024-02-01T00:00:00Z", "Text [[file:x.jpg]]") true))).
Proof. reflexivity. Qed.

(** The revisions of §8.8 of the specification: the file is in the two
    oldest revisions, the scan runs out of revisions and reports the oldest
    one. *)
Example wikitext_present_from_start :
  earliest_in_revisions (omap yielded (Examples.present_from_start "Page")) Examples.target
  = Some (introduced_at (1, "t1", "[[File:X.jpg]]") true).
Proof. reflexivity. Qed.

(** ** Wikidata fallback finder *)

Ltac io_unfold :=
  unfold mbind, io_mbind, io_bind, mret, io_mret, io_ret, io_log, io_try,
         io_lift, io_raise in *.

(** The comprehension over the older entries collects their image fields. *)
Lemma images_after_first_fields (l : list pyval) :
  images_after_first l = omap image_field (tail l).
Proof.
  unfold images_after_first. induction (tail l) as [|h t IH]; [reflexivity |].
  cbn [List.filter omap list_omap].
  destruct h as [| | | | |d]; cbn [dict_has image_field]; try exact IH.
  destruct (dict_get "image" d) as [v|] eqn:E; [|exact IH].
  cbn [map dict_item]. rewrite E. now rewrite IH.
Qed.

Lemma length_le_one {A} (l : list A) :
  (Z.of_nat (length l) <=? 1) = (length l <=? 1)%nat.
Proof.
  destruct (Z.leb_spec (Z.of_nat (length l)) 1), (Nat.leb_spec (length l) 1);
    (reflexivity || lia).
Qed.

Lemma length_gt_one {A} (l : list A) :
  (1 <? Z.of_nat (length l)) = negb (length l <=? 1)%nat.
Proof.
  destruct (Z.ltb_spec 1 (Z.of_nat (length l))), (Nat.leb_spec (length l) 1);
    (reflexivity || lia).
Qed.

(** What a record built from a history says about that history. *)
Lemma introduction_from_history_ok (item : string) (h : pyval) (i : info) :
  introduction_from_history item h = Ok i ->
  exists l,
    h = VList l
    /\ first_p18 i = Some (length l <=? 1)%nat
    /\ previous_p18_images i = Some (omap image_field (tail l))
    /\ first_image i
       = match omap image_field (tail l) with [] => true | _ :: _ => false end
    /\ match l with
       | [] => introduced_revision_id i = VInt 0
               /\ introduced_timestamp i = VStr "Unknown"
       | h0 :: _ =>
           exists d, h0 = VDict d
             /\ dict_get "timestamp" d = Some (introduced_timestamp i)
             /\ introduced_revision_id i = default (VInt 0) (dict_get "revision_id" d)
       end
    /\ from_wikidata i = true
    /\ wikidata_item i = Some item
    /\ timestamp_is_formatted i = Some true.
Proof.
  unfold introduction_from_history.
  destruct h as [| | | |l|]; try discriminate.
  intros H. exists l. split; [reflexivity |].
  destruct l as [|h0 l].
  - cbn in H. injection H as <-. cbn. repeat split; reflexivity.
  - destruct h0 as [| | | | |d]; try discriminate.
    cbn [is_dict negb] in H.
    destruct (negb _ && negb _) in H; [discriminate |].
    destruct (dict_get "timestamp" d) as [ts|] eqn:Hts; [|discriminate].
    injection H as <-. cbn [first_p18 previous_p18_images first_image
      introduced_revision_id introduced_timestamp from_wikidata wikidata_item
      timestamp_is_formatted tail].
    rewrite images_after_first_fields. cbn [tail].
    change (S (length l)) with (length (VDict d :: l)).
    rewrite length_gt_one, length_le_one.
    destruct l as [|h1 l].
    + cbn. repeat split; try reflexivity. exists d. now repeat split.
    + cbn [length Nat.leb negb tail].
      repeat split; try reflexivity.
      * destruct (omap image_field (h1 :: l)); reflexivity.
      * exists d. now repeat split.
Qed.

(** How the fallback finder comes to return a record. *)
Lemma find_wikidata_introduction_some
    (env : Env) (wiki page_title file_name : string) (log : list event) (i : info) :
  find_wikidata_introduction env wiki page_title file_name = (log, Ok (Some i)) ->
  exists item image h,
    wikidata_item_for_page env wiki page_title = Some item
    /\ current_image_for_item env item = Some image
    /\ check_if_file_matches_wikidata_image file_name image = true
    /\ image_history_for_item env item = Ok h
    /\ introduction_from_history item h = Ok i.
Proof.
  unfold find_wikidata_introduction. io_unfold.
  destruct (wikidata_item_for_page env wiki page_title) as [item|] eqn:Hitem;
    [|discriminate].
  destruct (String.eqb item ""); [discriminate |].
  destruct (current_image_for_item env item) as [image|] eqn:Himage;
    [|discriminate].
  destruct (String.eqb image ""); [discriminate |].
  destruct (check_if_file_matches_wikidata_image file_name image) eqn:Hm;
    [|discriminate].
  destruct (image_history_for_item env item) as [h|e] eqn:Hh;
    [|cbn; discriminate].
  destruct (introduction_from_history item h) as [i'|e] eqn:Hi;
    [|cbn; discriminate].
  cbn. intros [= <- <-]. exists item, image, h. repeat split; assumption.
Qed.

(** C2: a record returned by the fallback finder comes from a history that
    is a list; its first-value flag is true exactly when the list has at
    most one entry, its previous images are the image fields of the entries
    after the first, in order, its first-image flag is true exactly when
    there are none, its revision id and timestamp are those of the first
    entry (0 and [Unknown] for an empty history), and it is marked as coming
    from Wikidata. *)
Theorem C2_wikidata_record
    (env : Env) (wiki page_title file_name : string) (log : list event) (i : info) :
  find_wikidata_introduction env wiki page_title file_name = (log, Ok (Some i)) ->
  exists item l,
    wikidata_item_for_page env wiki page_title = Some item
    /\ image_history_for_item env item = Ok (VList l)
    /\ first_p18 i = Some (length l <=? 1)%nat
    /\ previous_p18_images i = Some (omap image_field (tail l))
    /\ (first_image i = true <-> previous_p18_images i = Some [])
    /\ match l with
       | [] => introduced_revision_id i = VInt 0
               /\ introduced_timestamp i = VStr "Unknown"
       | h0 :: _ =>
           exists d, h0 = VDict d
             /\ dict_get "timestamp" d = Some (introduced_timestamp i)
             /\ introduced_revision_id i = default (VInt 0) (dict_get "revision_id" d)
       end
    /\ from_wikidata i = true.
Proof.
  intros H.
  apply find_wikidata_introduction_some in H
    as (item & image & h & Hitem & _ & _ & Hh & Hi).
  apply introduction_from_history_ok in Hi
    as (l & -> & Hfp & Hprev & Hfi & Hfirst & Hfw & _ & _).
  exists item, l. repeat (split; [assumption |]).
  split; [|split; assumption].
  rewrite Hfi, Hprev.
  destruct (omap image_field (tail l)); split; congruence.
Qed.

Lemma C2_witness :
  exists item l,
    wikidata_item_for_page (Examples.wikidata_env Examples.three_values (fun _ => []))
      Examples.wiki "Page" = Some item
    /\ Examples.three_values = Ok (VList l)
    /\ Some false = Some (length l <=? 1)%nat
    /\ Some [VStr "V1.jpg"; VStr "V2.jpg"] = Some (omap image_field (tail l))
    /\ (false = true <-> Some [VStr "V1.jpg"; VStr "V2.jpg"] = Some [])
    /\ match l with
       | [] => VInt 30 = VInt 0 /\ VStr "2024-03-01 00:00:00 UTC" = VStr "Unknown"
       | h0 :: _ =>
           exists d, h0 = VDict d
             /\ dict_get "timestamp" d = Some (VStr "2024-03-01 00:00:00 UTC")
             /\ VInt 30 = default (VInt 0) (dict_get "revision_id" d)
       end
    /\ true = true.
Proof.
  exact (C2_wikidata_record
           (Examples.wikidata_env Examples.three_values (fun _ => []))
           Examples.wiki "Page" Examples.target
           [ApiWikidataItem Examples.wiki "Page"; ApiCurrentImage "Q1";
            ApiImageHistory "Q1"]
           {| introduced_revision_id := VInt 30;
              introduced_timestamp := VStr "2024-03-01 00:00:00 UTC";
              timestamp_is_formatted := Some true;
              first_image := false;
              first_p18 := Some false;
              from_wikidata := true;
              wikidata_item := Some "Q1";
              previous_p18_images := Some [VStr "V1.jpg"; VStr "V2.jpg"] |}
           eq_refl).
Defined.



(** ** Resolver *)

(** A record of the resolver comes from one of the two finders. *)
Lemma resolve_some (env : Env) (skip : bool) (wiki page_title file_name : string)
    (log : list event) (i : info) :
  resolve env skip wiki page_title file_name = (log, Ok (Some i)) ->
  (exists st b, i = wikitext_info st b) \/ from_wikidata i = true.
Proof.
  unfold resolve, find_earliest_introduction.
  rewrite find_earliest_wikitext_introduction_eq.
  set (w := earliest_in_revisions _ _).
  destruct skip.
  - intros [= _ Hw]. left. eapply earliest_in_revisions_info; eauto.
  - io_unfold. destruct w as [i'|] eqn:Hw.
    + cbn. intros [= _ <-]. left. eapply earliest_in_revisions_info; eauto.
    + destruct (find_wikidata_introduction env wiki page_title file_name)
        as [l' r] eqn:Hwd.
      intros [= _ ->]. right.
      apply find_wikidata_introduction_some in Hwd as (item & image & h & _ & _ & _ & _ & Hi).
      apply introduction_from_history_ok in Hi
        as (l & _ & _ & _ & _ & _ & Hfw & _).
      exact Hfw.
Qed.

(** C6: in every result entry made from a record of the resolver, an entry
    that is not marked as coming from Wikidata has no Wikidata item, no
    first-value flag and no previous images. *)
Theorem C6_direct_records_carry_no_wikidata_fields
    (env : Env) (skip : bool) (wiki page_title file_name lang_code : string)
    (log : list event) (i : info) (entry : result_entry) :
  resolve env skip wiki page_title file_name = (log, Ok (Some i)) ->
  create_result_entry env i file_name wiki lang_code page_title = Ok entry ->
  r_from_wikidata entry = false ->
  r_wikidata_item entry = None
  /\ r_first_p18 entry = None
  /\ r_previous_p18_images entry = [].
Proof.
  intros Hres Hentry Hfw.
  unfold create_result_entry in Hentry.
  destruct (if default false (timestamp_is_formatted i) then _ else _) as [ts|e];
    [|discriminate].
  injection Hentry as <-. cbn in *.
  apply resolve_some in Hres as [(st & b & ->)|Hw].
  - repeat split.
  - congruence.
Qed.

Lemma C6_witness :
  r_wikidata_item
    {| r_file := Examples.target; r_wiki := Examples.wiki; r_language := "en";
       r_page := "Page"; r_introduced_revision_id := VInt 2;
       r_introduced_timestamp := VStr "2024-02-01T00:00:00+00:00";
       r_first_image := true; r_from_wikidata := false;
       r_wikidata_item := None; r_first_p18 := None;
       r_previous_p18_images := [] |} = None
  /\ @None bool = None
  /\ @nil pyval = [].
Proof.
  exact (C6_direct_records_carry_no_wikidata_fields
           Examples.env_added_later false Examples.wiki "Page" Examples.target "en"
           [ApiRevisions Examples.wiki "Page"]
           (introduced_at (2, "2024-02-01T00:00:00Z", "Text [[file:x.jpg]]") true)
           _ eq_refl eq_refl eq_refl).
Defined.

(** C7: the resolver runs the wikitext finder first.  When that finder
    yields a record, the resolver returns it as it is, with or without the
    fallback, and sends no request about Wikidata; when it yields none and
    the fallback is disabled, the resolver yields none, as it does when no
    revision holds the file; when it yields none and the fallback is
    enabled, the resolver goes on with the Wikidata finder and returns its
    outcome. *)
Theorem C7_wikitext_first (env : Env) (wiki page_title file_name : string) :
  (forall log i,
      find_earliest_wikitext_introduction env wiki page_title file_name
      = (log, Ok (Some i)) ->
      forall skip,
        resolve env skip wiki page_title file_name = (log, Ok (Some i))
        /\ Forall (fun ev => wikidata_event ev = false) log)
  /\ (forall log,
      find_earliest_wikitext_introduction env wiki page_title file_name
      = (log, Ok None) ->
      resolve env true wiki page_title file_name = (log, Ok None))
  /\ (Forall (fun r => references file_name r = false)
             (omap yielded (revisions_of_page env wiki page_title)) ->
      resolve env true wiki page_title file_name
      = ([ApiRevisions wiki page_title], Ok None))
  /\ (forall log,
      find_earliest_wikitext_introduction env wiki page_title file_name
      = (log, Ok None) ->
      resolve env false wiki page_title file_name
      = (log ++ fst (find_wikidata_introduction env wiki page_title file_name),
         snd (find_wikidata_introduction env wiki page_title file_name))).
Proof.
  split; [|split; [|split]].
  - intros log i Hw skip. split.
    + unfold resolve, find_earliest_introduction. rewrite Hw.
      destruct skip; [reflexivity |]. io_unfold. now rewrite app_nil_r.
    + rewrite find_earliest_wikitext_introduction_eq in Hw.
      injection Hw as <- _. repeat constructor.
  - intros log Hw. exact Hw.
  - intros Hnone. unfold resolve.
    rewrite find_earliest_wikitext_introduction_eq.
    now rewrite earliest_in_revisions_none.
  - intros log Hw. unfold resolve, find_earliest_introduction. rewrite Hw.
    io_unfold.
    now destruct (find_wikidata_introduction env wiki page_title file_name).
Qed.

Lemma C7_witness :
  (resolve Examples.env_added_later false Examples.wiki "Page" Examples.target
   = ([ApiRevisions Examples.wiki "Page"],
      Ok (Some (introduced_at (2, "2024-02-01T00:00:00Z", "Text [[file:x.jpg]]") true)))
   /\ Forall (fun ev => wikidata_event ev = false) [ApiRevisions Examples.wiki "Page"])
  /\ resolve (Examples.wikidata_env Examples.three_values (fun _ => [])) true
       Examples.wiki "Page" Examples.target
     = ([ApiRevisions Examples.wiki "Page"], Ok None).
Proof.
  split.
  - apply (proj1 (C7_wikitext_first Examples.env_added_later Examples.wiki "Page"
                    Examples.target)).
    reflexivity.
  - apply (proj1 (proj2 (proj2 (C7_wikitext_first
                    (Examples.wikidata_env Examples.three_values (fun _ => []))
                    Examples.wiki "Page" Examples.target)))).
    repeat constructor.
Defined.

(** With the fallback enabled the same page is resolved through Wikidata. *)
Example resolve_through_wikidata :
  resolve (Examples.wikidata_env Examples.three_values (fun _ => [])) false
    Examples.wiki "Page" Examples.target
  = ([ApiRevisions Examples.wiki "Page"; ApiWikidataItem Examples.wiki "Page";
      ApiCurrentImage "Q1"; ApiImageHistory "Q1"],
     Ok (Some {| introduced_revision_id := VInt 30;
                 introduced_timestamp := VStr "2024-03-01 00:00:00 UTC";
                 timestamp_is_formatted := Some true;
                 first_image := false;
                 first_p18 := Some false;
                 from_wikidata := true;
                 wikidata_item := Some "Q1";
                 previous_p18_images := Some [VStr "V1.jpg"; VStr "V2.jpg"] |})).
Proof. reflexivity. Qed.

(** ** Failures in the batch *)







(** The first exception ends a loop: what comes after the failing element
    is not looked at. *)
Lemma for_each_raise {A} (body : A -> run_state -> step_result)
    (xs1 : list A) (x : A) (xs2 : list A) (st st1 stx : run_state)
    (log1 logx : list event) (e : exn) :
  for_each body xs1 st = (log1, st1, None) ->
  body x st1 = (logx, stx, Some e) ->
  for_each body (xs1 ++ x :: xs2) st = (log1 ++ logx, stx, Some e).
Proof.
  revert st log1. induction xs1 as [|y xs1 IH]; intros st log1 H1 Hx; cbn in *.
  - injection H1 as <- <-. now rewrite Hx.
  - destruct (body y st) as [[logy sty] [ey|]]; [discriminate |].
    destruct (for_each body xs1 sty) as [[l s] r] eqn:E.
    injection H1 as <- <- ->.
    rewrite (IH sty l E Hx). now rewrite app_assoc.
Qed.



(** ** Statistics tracker *)

Lemma counter_incr (k k' : string) (d : gmap string Z) :
  counter (incr k d) k' = if decide (k = k') then counter d k + 1 else counter d k'.
Proof.
  unfold incr, counter at 1. rewrite lookup_insert.
  destruct (decide (k = k')); reflexivity.
Qed.

Lemma counter_incr_le (k k' : string) (d : gmap string Z) :
  counter d k' <= counter (incr k d) k'.
Proof. rewrite counter_incr. destruct (decide (k = k')); subst; lia. Qed.

Lemma counter_empty (k : string) : counter ∅ k = 0.
Proof. unfold counter. now rewrite lookup_empty. Qed.

(** Two increments of a counter table commute. *)
Lemma incr_comm (a b : string) (d : gmap string Z) :
  incr a (incr b d) = incr b (incr a d).
Proof.
  destruct (decide (a = b)) as [->|Hne]; [reflexivity |].
  unfold incr, counter.
  rewrite (lookup_insert_ne _ b a) by congruence.
  rewrite (lookup_insert_ne _ a b) by congruence.
  apply insert_insert_ne. congruence.
Qed.

(** The updates are run on a tracker and a record given by their fields,
    innermost assignment first, so that each assignment rebuilds the record
    once. *)
Ltac run_updates :=
  cbv [record update_statistics update_file_usage
       ev_info ev_file_title ev_wiki ev_lang_code
       first_image from_wikidata first_p18 from_option id
       set_total_usages_by_file set_total_usages_by_wiki
       set_total_usages_by_lang set_first_image_by_file set_first_image_by_wiki
       set_first_image_by_lang set_wikidata_sourced_by_wiki
       set_wikidata_sourced_count set_first_p18_count set_replaced_p18_count
       files_used_on_wikipedias wiki_pages_seen usage_by_wiki
       first_image_by_file total_usages_by_file first_image_by_wiki
       total_usages_by_wiki first_image_by_lang total_usages_by_lang
       wikidata_sourced_count wikidata_sourced_by_wiki first_p18_count
       replaced_p18_count read].

Ltac split_info i :=
  let fi := fresh "fi" in
  let fw := fresh "fw" in
  let fp := fresh "fp" in
  destruct i as [? ? ? fi fp fw ? ?];
  destruct fi, fw, fp as [[]|].

(** C10: the method of the tracker and the module-level function make the
    same updates, the flags of the method being the first-image flag of the
    record, its Wikidata flag, and its first-value flag read as false when
    absent. *)
Theorem C10_update_statistics_is_update_file_usage
    (stats0 : StatisticsTracker) (i : info) (file_title wiki lang_code : string) :
  update_statistics i stats0 file_title wiki lang_code
  = update_file_usage stats0 file_title wiki lang_code
      (first_image i) (from_wikidata i) (default false (first_p18 i)).
Proof.
  destruct stats0. split_info i; run_updates; reflexivity.
Qed.

(** Two record operations commute. *)
Lemma record_comm (s : StatisticsTracker) (e1 e2 : usage_event) :
  record (record s e1) e2 = record (record s e2) e1.
Proof.
  destruct s, e1 as [i1 f1 w1 l1], e2 as [i2 f2 w2 l2].
  split_info i1; split_info i2; run_updates;
    f_equal; solve [reflexivity | apply incr_comm].
Qed.

Lemma record_all_perm (evs evs' : list usage_event) :
  Permutation evs evs' ->
  forall s, record_all evs s = record_all evs' s.
Proof.
  unfold record_all.
  induction 1 as [|x l l' _ IH|x y l|l l' l'' _ IH1 _ IH2]; intros s; cbn.
  - reflexivity.
  - apply IH.
  - now rewrite record_comm.
  - now rewrite IH1.
Qed.

(** One record operation lowers no counter. *)
Lemma record_le (s : StatisticsTracker) (ev : usage_event) (c : counter_name) :
  read s c <= read (record s ev) c.
Proof.
  destruct s, ev as [i f w l].
  split_info i; destruct c; run_updates;
    solve [apply counter_incr_le | lia].
Qed.

Lemma record_all_le (evs : list usage_event) (s : StatisticsTracker)
    (c : counter_name) :
  read s c <= read (record_all evs s) c.
Proof.
  revert s. induction evs as [|ev evs IH]; intros s; cbn; [lia |].
  etransitivity; [apply (record_le s ev) | apply IH].
Qed.

Lemma read_initial (c : counter_name) : read initialize_statistics c = 0.
Proof. destruct c; cbn; try reflexivity; apply counter_empty. Qed.

(** C8: the final tracker of a run of record operations on a fresh tracker
    does not depend on the order of the events (and neither does it from
    any other starting tracker); every counter is non-negative at every
    point of the run, and no counter is lowered by a record operation or
    over a continuation of the run. *)
Theorem C8_record_order_independent_and_monotone :
  (forall evs evs',
      Permutation evs evs' ->
      record_all evs initialize_statistics = record_all evs' initialize_statistics)
  /\ (forall evs evs' s,
      Permutation evs evs' -> record_all evs s = record_all evs' s)
  /\ (forall evs c, 0 <= read (record_all evs initialize_statistics) c)
  /\ (forall s ev c, read s c <= read (record s ev) c)
  /\ (forall evs1 evs2 c,
      read (record_all evs1 initialize_statistics) c
      <= read (record_all (evs1 ++ evs2) initialize_statistics) c).
Proof.
  repeat split.
  - intros evs evs' H. now apply record_all_perm.
  - intros evs evs' s H. now apply record_all_perm.
  - intros evs c. rewrite <- (read_initial c) at 1. apply record_all_le.
  - apply record_le.
  - intros evs1 evs2 c. unfold record_all. rewrite fold_left_app.
    apply record_all_le.
Qed.

Lemma C8_witness :
  record_all Examples.some_events initialize_statistics
  = record_all (rev Examples.some_events) initialize_statistics.
Proof.
  apply (proj1 C8_record_order_independent_and_monotone).
  unfold Examples.some_events. cbn [rev app].
  eapply perm_trans; [apply perm_swap |].
  eapply perm_trans; [apply perm_skip, perm_swap |].
  apply perm_swap.
Defined.

Example record_all_example :
  let s := record_all Examples.some_events initialize_statistics in
  read s (TotalByFile Examples.target) = 2
  /\ read s (TotalByLang "en") = 2
  /\ read s (FirstImageByWiki Examples.wiki) = 1
  /\ read s (WikidataSourcedByWiki "de.wikipedia.org") = 1
  /\ read s WikidataSourced = 1
  /\ read s FirstP18 = 0
  /\ read s ReplacedP18 = 1.
Proof. vm_compute. repeat split. Qed.

(** ** The model on sample inputs *)

Example lower_example : PyStr.lower "File:Y.JPG" = "file:y.jpg".
Proof. reflexivity. Qed.

Example replace_all_occurrences : PyStr.replace "File:" "" "File:aFile:b" = "ab".
Proof. reflexivity. Qed.

Example replace_does_not_overlap : PyStr.replace "aa" "b" "aaa" = "ba".
Proof. reflexivity. Qed.

Example replace_empty_pattern : PyStr.replace "" "-" "abc" = "-a-b-c-".
Proof. reflexivity. Qed.

Example removeprefix_example :
  PyStr.removeprefix "file:" "file:x.jpg" = "x.jpg"
  /\ PyStr.removeprefix "file:" "x file:.jpg" = "x file:.jpg".
Proof. split; reflexivity. Qed.

Example language_codes :
  get_language_code "en.wikipedia.org" = "en"
  /\ get_language_code "commons.wikimedia.org" = "unknown".
Proof. split; reflexivity. Qed.

(** The generator drops the revisions whose content is empty. *)
Example blank_revision_not_yielded :
  omap yielded [Examples.api_rev 2 "t2" ""; Examples.api_rev 1 "t1" "text"]
  = [(1, "t1", "text")].
Proof. reflexivity. Qed.

Example sorted_desc_is_stable :
  sorted_desc [("a", 1); ("b", 3); ("c", 1); ("d", 3)]
  = [("b", 3); ("d", 3); ("a", 1); ("c", 1)].
Proof. reflexivity. Qed.

Example slice_to_examples :
  slice_to 2 [1; 2; 3] = [1; 2]
  /\ slice_to 5 [1; 2; 3] = [1; 2; 3]
  /\ slice_to (-1) [1; 2; 3] = [1; 2]
  /\ slice_to (-5) [1; 2; 3] = [].
Proof. repeat split. Qed.

(** The test gives the same answer on a content and on its lower-cased
    form. *)
Lemma matches_lowered_content (content file_name : string) :
  matches_file_in_wikitext (PyStr.lower content) file_name
  = matches_file_in_wikitext content file_name.
Proof.
  apply matches_case_insensitive; [apply PyStrFacts.lower_idem | reflexivity].
Qed.

(** A run without failures goes through every page and every file. *)
Example main_complete_run :
  fst (main Examples.env_wellformed Examples.args_default)
  = [ApiCategoryFiles "Portraits" 0;
     ApiGlobalUsage "File:X.jpg";
     ApiRevisions "en.wikipedia.org" "A"; ApiWikidataItem "en.wikipedia.org" "A";
     ApiCurrentImage "Q1"; ApiImageHistory "Q1";
     ApiRevisions "en.wikipedia.org" "B"; ApiWikidataItem "en.wikipedia.org" "B";
     ApiCurrentImage "Q1"; ApiImageHistory "Q1";
     ApiGlobalUsage "File:Other.png";
     ApiRevisions "en.wikipedia.org" "C"; ApiWikidataItem "en.wikipedia.org" "C";
     ApiCurrentImage "Q1"]
  /\ match snd (main Examples.env_wellformed Examples.args_default) with
     | Returned results stats =>
         map r_page results = ["A"; "B"]
         /\ read stats (TotalByFile Examples.target) = 2
         /\ read stats ReplacedP18 = 2
         /\ files_used_on_wikipedias stats = 2
         /\ usage_by_wiki stats = [("en.wikipedia.org", 3)]
     | Exit _ => False
     end.
Proof. vm_compute. repeat split. Qed.

(** An exception that escapes from the history lookup ends the run the
    same way. *)
Example main_aborts_when_lookup_fails :
  main Examples.env_lookup_fails Examples.args_default
  = ([ApiCategoryFiles "Portraits" 0;
      ApiGlobalUsage Examples.target;
      ApiRevisions Examples.wiki "A";
      ApiWikidataItem Examples.wiki "A";
      ApiCurrentImage "Q1";
      ApiImageHistory "Q1";
      PrintHistoryError "Q1"
        (AttributeError "'NoneType' object has no attribute 'replace'");
      PrintPageError Examples.target Examples.wiki "A"
        (AttributeError "'NoneType' object has no attribute 'replace'");
      PrintUnexpectedError
        (AttributeError "'NoneType' object has no attribute 'replace'")],
     Exit 1).
Proof. reflexivity. Qed.

(** * Further properties *)

(** ** Text matcher and name comparison *)

(** X1: the comparison with the Wikidata value holds exactly when the two
    names, the target without its occurrences of [File:] and both
    lower-cased, are equal once underscores are read as spaces. *)
Theorem X1_wikidata_match_is_normalised_equality (file_name wikidata_image : string) :
  check_if_file_matches_wikidata_image file_name wikidata_image = true
  <-> PyStr.subst_char "_" " " (PyStr.lower (PyStr.replace "File:" "" file_name))
      = PyStr.subst_char "_" " " (PyStr.lower wikidata_image).
Proof.
  rewrite check_if_file_matches_wikidata_image_eq. apply String.eqb_eq.
Qed.

Module SpellingFacts.
Import PyStr.

Lemma subst_char_idem (a b : ascii) (s : string) :
  subst_char a b (subst_char a b s) = subst_char a b s.
Proof.
  induction s as [|c s IH]; cbn [subst_char]; [reflexivity |].
  rewrite IH. f_equal.
  destruct (Ascii.eqb_spec a c) as [<-|Hac]; [|now apply Ascii.eqb_neq in Hac as ->].
  destruct (Ascii.eqb a b); reflexivity.
Qed.

Lemma lower_ascii_underscore (c : ascii) :
  lower_ascii (if Ascii.eqb "_" c then " "%char else c)
  = if Ascii.eqb "_" (lower_ascii c) then " "%char else lower_ascii c.
Proof. destruct c as [[] [] [] [] [] [] [] []]; reflexivity. Qed.

Lemma lower_ascii_space (c : ascii) :
  lower_ascii (if Ascii.eqb " " c then "_"%char else c)
  = if Ascii.eqb " " (lower_ascii c) then "_"%char else lower_ascii c.
Proof. destruct c as [[] [] [] [] [] [] [] []]; reflexivity. Qed.

Lemma lower_subst_underscore (s : string) :
  lower (subst_char "_" " " s) = subst_char "_" " " (lower s).
Proof.
  induction s as [|c s IH]; cbn [subst_char lower]; [reflexivity |].
  now rewrite IH, lower_ascii_underscore.
Qed.

Lemma lower_subst_space (s : string) :
  lower (subst_char " " "_" s) = subst_char " " "_" (lower s).
Proof.
  induction s as [|c s IH]; cbn [subst_char lower]; [reflexivity |].
  now rewrite IH, lower_ascii_space.
Qed.

(** A substitution between two characters that do not occur in the prefix
    does not change whether the prefix is there. *)
Lemma startswith_subst (a b : ascii) (p s : string) :
  has_char a p = false ->
  has_char b p = false ->
  startswith p (subst_char a b s) = startswith p s.
Proof.
  revert s. induction p as [|x p IH]; intros s Ha Hb; [reflexivity |].
  cbn [has_char] in Ha, Hb.
  apply orb_false_elim in Ha as [Hax Ha], Hb as [Hbx Hb].
  destruct s as [|c s]; [reflexivity |]. cbn [subst_char startswith].
  rewrite IH by assumption.
  destruct (Ascii.eqb_spec a c) as [<-|Hac]; [|reflexivity].
  rewrite (Ascii.eqb_sym x b), Hbx, (Ascii.eqb_sym x a), Hax. reflexivity.
Qed.

Lemma drop_chars_subst (a b : ascii) (n : nat) (s : string) :
  drop_chars n (subst_char a b s) = subst_char a b (drop_chars n s).
Proof.
  revert s. induction n as [|n IH]; intros s; [reflexivity |].
  destruct s as [|c s]; [reflexivity |]. cbn [subst_char drop_chars]. apply IH.
Qed.

Lemma removeprefix_subst (a b : ascii) (p s : string) :
  has_char a p = false ->
  has_char b p = false ->
  removeprefix p (subst_char a b s) = subst_char a b (removeprefix p s).
Proof.
  intros Ha Hb. unfold removeprefix.
  rewrite startswith_subst by assumption.
  destruct (startswith p s); [apply drop_chars_subst | reflexivity].
Qed.

End SpellingFacts.

(** The spellings tried for a target written with spaces throughout, and
    for the same target written with underscores throughout. *)
Lemma variants_of_spaced (file_name : string) :
  let fnl := PyStr.removeprefix "file:" (PyStr.lower file_name) in
  file_name_variants (PyStr.subst_char "_" " " file_name)
  = [PyStr.subst_char "_" " " fnl; PyStr.subst_char "_" " " fnl;
     PyStr.subst_char " " "_" fnl].
Proof.
  intros fnl. unfold file_name_variants. cbv zeta.
  rewrite !PyStrFacts.replace_char.
  rewrite SpellingFacts.lower_subst_underscore.
  rewrite SpellingFacts.removeprefix_subst by reflexivity.
  fold fnl.
  now rewrite SpellingFacts.subst_char_idem, subst_space_after_underscore.
Qed.

Lemma variants_of_underscored (file_name : string) :
  let fnl := PyStr.removeprefix "file:" (PyStr.lower file_name) in
  file_name_variants (PyStr.subst_char " " "_" file_name)
  = [PyStr.subst_char " " "_" fnl; PyStr.subst_char "_" " " fnl;
     PyStr.subst_char " " "_" fnl].
Proof.
  intros fnl. unfold file_name_variants. cbv zeta.
  rewrite !PyStrFacts.replace_char.
  rewrite SpellingFacts.lower_subst_space.
  rewrite SpellingFacts.removeprefix_subst by reflexivity.
  fold fnl.
  now rewrite SpellingFacts.subst_char_idem, subst_underscore_after_space.
Qed.

(** X2: for ASCII texts, a target written with spaces throughout and the
    same target written with underscores throughout are interchangeable:
    the file-reference test gives the same answer for both on every
    content. *)
Theorem X2_uniform_spellings_interchangeable (content file_name : string) :
  isascii content = true ->
  isascii file_name = true ->
  matches_file_in_wikitext content (PyStr.subst_char "_" " " file_name)
  = matches_file_in_wikitext content (PyStr.subst_char " " "_" file_name).
Proof.
  intros _ _. unfold matches_file_in_wikitext.
  rewrite variants_of_spaced, variants_of_underscored. cbn [existsb].
  destruct (PyStr.contains (PyStr.subst_char "_" " " _) _),
           (PyStr.contains (PyStr.subst_char " " "_" _) _); reflexivity.
Qed.

Lemma X2_witness :
  matches_file_in_wikitext "[[File:Anna_Smith_2019.jpg|thumb]]"
    (PyStr.subst_char "_" " " "File:Anna_Smith 2019.jpg")
  = matches_file_in_wikitext "[[File:Anna_Smith_2019.jpg|thumb]]"
      (PyStr.subst_char " " "_" "File:Anna_Smith 2019.jpg").
Proof.
  apply (X2_uniform_spellings_interchangeable
           "[[File:Anna_Smith_2019.jpg|thumb]]" "File:Anna_Smith 2019.jpg");
    reflexivity.
Defined.

(** The capital and the small form of a letter have the same lower-case
    form. *)
Lemma same_letter_lower (c d : ascii) :
  same_letter c d = true -> PyStr.lower_ascii c = PyStr.lower_ascii d.
Proof.
  unfold same_letter, PyStr.lower_ascii. cbv zeta.
  pose proof (ascii_N_embedding c) as Ec. pose proof (ascii_N_embedding d) as Ed.
  remember (N_of_ascii c) as m eqn:Hm. remember (N_of_ascii d) as n eqn:Hn.
  rewrite <- Ec, <- Ed. clear Ec Ed Hm Hn c d. intros H.
  apply orb_prop in H as [H|H]; [apply orb_prop in H as [H|H] |].
  - apply N.eqb_eq in H. now subst n.
  - apply andb_prop in H as [H Hn]. apply andb_prop in H as [Hlo Hhi].
    apply N.eqb_eq in Hn. subst n. rewrite Hlo, Hhi. cbn [andb].
    apply N.leb_le in Hlo, Hhi.
    destruct (65 <=? m + 32)%N eqn:H1; [|reflexivity].
    destruct (m + 32 <=? 90)%N eqn:H2; [|reflexivity].
    apply N.leb_le in H2. lia.
  - apply andb_prop in H as [H Hm]. apply andb_prop in H as [Hlo Hhi].
    apply N.eqb_eq in Hm. subst m. rewrite Hlo, Hhi. cbn [andb].
    apply N.leb_le in Hlo, Hhi.
    destruct (65 <=? n + 32)%N eqn:H1; [|reflexivity].
    destruct (n + 32 <=? 90)%N eqn:H2; [|reflexivity].
    apply N.leb_le in H2. lia.
Qed.

Lemma differ_in_case_only_lower (s t : string) :
  differ_in_case_only s t = true -> PyStr.lower s = PyStr.lower t.
Proof.
  revert t. induction s as [|c s IH]; intros [|d t] H; cbn in H;
    try discriminate; [reflexivity |].
  apply andb_prop in H as [Hc Hs]. cbn [PyStr.lower].
  now rewrite (same_letter_lower c d Hc), (IH t Hs).
Qed.

(** X3: on ASCII texts both tests of the text matcher ignore the case of
    letters: contents that differ in the case of letters only, and targets
    that differ in the case of letters only, get the same answers. *)
Theorem X3_text_matcher_case_insensitive
    (content content' file_name file_name' : string) :
  isascii content = true ->
  isascii file_name = true ->
  differ_in_case_only content content' = true ->
  differ_in_case_only file_name file_name' = true ->
  matches_file_in_wikitext content file_name
  = matches_file_in_wikitext content' file_name'
  /\ has_image_in_wikitext content = has_image_in_wikitext content'.
Proof.
  intros _ _ Hc Hf.
  apply differ_in_case_only_lower in Hc, Hf. split.
  - now apply matches_case_insensitive.
  - unfold has_image_in_wikitext. now rewrite Hc.
Qed.

Lemma X3_witness :
  matches_file_in_wikitext "[[FILE:Anna_Smith.JPG]]" "file:anna_smith.jpg"
  = matches_file_in_wikitext "[[file:anna_SMITH.jpg]]" "File:Anna_Smith.JPG"
  /\ has_image_in_wikitext "[[FILE:Anna_Smith.JPG]]"
     = has_image_in_wikitext "[[file:anna_SMITH.jpg]]".
Proof.
  apply (X3_text_matcher_case_insensitive
           "[[FILE:Anna_Smith.JPG]]" "[[file:anna_SMITH.jpg]]"
           "file:anna_smith.jpg" "File:Anna_Smith.JPG"); reflexivity.
Defined.

(** Letters that are not the two forms of one letter are told apart. *)
Example different_letters_are_told_apart :
  differ_in_case_only "[[File:Anna.jpg]]" "[[File:Anne.jpg]]" = false
  /\ matches_file_in_wikitext "[[File:Anne.jpg]]" "File:Anna.jpg" = false.
Proof. split; reflexivity. Qed.

(** A target that is empty once lower-cased and rid of the prefix [file:]
    is found in every content, the empty one included. *)
Lemma empty_target_matches_everything (content file_name : string) :
  PyStr.removeprefix "file:" (PyStr.lower file_name) = "" ->
  matches_file_in_wikitext content file_name = true.
Proof.
  intros H. unfold matches_file_in_wikitext, file_name_variants. cbv zeta.
  rewrite H. cbn [existsb].
  assert (Hc : PyStr.contains "" (PyStr.lower content) = true)
    by (destruct (PyStr.lower content); reflexivity).
  now rewrite Hc.
Qed.

Example empty_target_example : matches_file_in_wikitext "" "FILE:" = true.
Proof. apply (empty_target_matches_everything "" "FILE:"). reflexivity. Qed.

Lemma contains_in_context (needle a h b : string) :
  PyStr.contains needle h = true ->
  PyStr.contains needle (a +:+ h +:+ b) = true.
Proof.
  rewrite !PyStrFacts.contains_spec. intros (x & y & ->).
  exists (a +:+ x), (y +:+ b). now rewrite !PyStrFacts.app_assoc.
Qed.

(** Both tests look for substrings: a content accepted by the
    file-reference test, or by the image-markup test, is still accepted
    with any text put before and after it. *)
Lemma tests_survive_surrounding_text (before content after file_name : string) :
  (matches_file_in_wikitext content file_name = true ->
   matches_file_in_wikitext (before +:+ content +:+ after) file_name = true)
  /\ (has_image_in_wikitext content = true ->
      has_image_in_wikitext (before +:+ content +:+ after) = true).
Proof.
  unfold matches_file_in_wikitext, has_image_in_wikitext.
  rewrite !PyStrFacts.lower_app. split; intros H.
  - apply existsb_exists in H as (v & Hv & Hc). apply existsb_exists.
    exists v. split; [assumption | now apply contains_in_context].
  - apply existsb_exists in H as (v & Hv & Hc). apply existsb_exists.
    exists v. split; [assumption | now apply contains_in_context].
Qed.


(** ** Wikitext introduction finder *)

(** Once a revision with the file has been seen, the scan ends with a
    record or still tracking. *)
Lemma scan_found_stays (file_name : string) (revs : list revision) (st : scan_state) :
  found_any st = true ->
  match scan_revisions file_name revs st with
  | inr _ => True
  | inl st' => found_any st' = true
  end.
Proof.
  revert st. induction revs as [|[[id ts] content] revs IH]; intros st Hst;
    [exact Hst |].
  cbn [scan_revisions]. rewrite Hst. cbn [negb].
  destruct (matches_file_in_wikitext content file_name); cbn [negb].
  - now apply IH.
  - exact I.
Qed.

Lemma scan_without_record (file_name : string) (revs : list revision)
    (st st' : scan_state) :
  found_any st = false ->
  scan_revisions file_name revs st = inl st' ->
  found_any st' = false ->
  Forall (fun r => references file_name r = false) revs.
Proof.
  revert st. induction revs as [|[[id ts] content] revs IH]; intros st Hst Hscan Hst';
    [constructor |].
  cbn [scan_revisions] in Hscan. rewrite Hst in Hscan. cbn [negb] in Hscan.
  destruct (matches_file_in_wikitext content file_name) eqn:Hm.
  - pose proof (scan_found_stays file_name revs
                  {| earliest_rev_id := Some id; earliest_ts := Some ts;
                     found_any := true |} eq_refl) as H.
    rewrite Hscan in H. congruence.
  - constructor; [exact Hm | exact (IH st Hst Hscan Hst')].
Qed.

(** X4: when every revision from the newest one with the file down to the
    oldest one has the file, the finder reports the oldest revision and
    sets the first-image flag. *)
Theorem X4_file_present_down_to_oldest_revision
    (env : Env) (wiki page_title file_name : string)
    (pre : list revision) (m : revision) (run : list revision) :
  omap yielded (revisions_of_page env wiki page_title) = pre ++ m :: run ->
  Forall (fun r => references file_name r = false) pre ->
  references file_name m = true ->
  Forall (fun r => references file_name r = true) run ->
  find_earliest_wikitext_introduction env wiki page_title file_name
  = ([ApiRevisions wiki page_title],
     Ok (Some (introduced_at (List.last run m) true))).
Proof.
  intros Hrevs Hpre Hm Hrun.
  rewrite find_earliest_wikitext_introduction_eq, Hrevs.
  unfold earliest_in_revisions.
  rewrite scan_searching by (auto; reflexivity).
  rewrite scan_first_reference by (auto; reflexivity).
  now rewrite scan_tracking_all.
Qed.

Lemma X4_witness :
  find_earliest_wikitext_introduction
    (Examples.plain_env Examples.present_from_start (fun _ => []))
    Examples.wiki "Page" Examples.target
  = ([ApiRevisions Examples.wiki "Page"],
     Ok (Some (introduced_at (1, "t1", "[[File:X.jpg]]") true))).
Proof.
  apply (X4_file_present_down_to_oldest_revision
           (Examples.plain_env Examples.present_from_start (fun _ => []))
           Examples.wiki "Page" Examples.target
           [(3, "t3", "no image")] (2, "t2", "[[File:X.jpg]]")
           [(1, "t1", "[[File:X.jpg]]")]).
  - reflexivity.
  - repeat constructor.
  - reflexivity.
  - repeat constructor.
Defined.

(** X5: the finder yields no record exactly when no revision it is fed
    references the file; a page without revisions is such a case. *)
Theorem X5_no_record_iff_file_never_referenced
    (revs : list revision) (file_name : string) :
  earliest_in_revisions revs file_name = None
  <-> Forall (fun r => references file_name r = false) revs.
Proof.
  split; [|apply earliest_in_revisions_none].
  unfold earliest_in_revisions.
  destruct (scan_revisions file_name revs scan_init) as [st|i] eqn:Hscan;
    [|discriminate].
  destruct (found_any st) eqn:Hst; [discriminate |]. intros _.
  exact (scan_without_record file_name revs scan_init st eq_refl Hscan Hst).
Qed.

(** X6: the scan stops at the first revision without the file that follows
    a revision with it: no older revision has any influence on the
    record. *)
Theorem X6_older_revisions_are_not_read
    (file_name : string) (pre : list revision) (m : revision)
    (run : list revision) (t : revision) (rest rest' : list revision) :
  Forall (fun r => references file_name r = false) pre ->
  references file_name m = true ->
  Forall (fun r => references file_name r = true) run ->
  references file_name t = false ->
  earliest_in_revisions (pre ++ m :: run ++ t :: rest) file_name
  = earliest_in_revisions (pre ++ m :: run ++ t :: rest') file_name.
Proof.
  intros Hpre Hm Hrun Ht.
  now rewrite !(earliest_in_revisions_shape file_name pre m run t).
Qed.

Lemma X6_witness :
  earliest_in_revisions
    ([(5, "t5", "text")] ++ (4, "t4", "[[File:X.jpg]]") :: [] ++ (3, "t3", "text")
       :: [(2, "t2", "[[File:X.jpg]] [[File:Old.png]]"); (1, "t1", "[[File:Old.png]]")])
    Examples.target
  = earliest_in_revisions
      ([(5, "t5", "text")] ++ (4, "t4", "[[File:X.jpg]]") :: [] ++ (3, "t3", "text") :: [])
      Examples.target.
Proof.
  apply (X6_older_revisions_are_not_read Examples.target
           [(5, "t5", "text")] (4, "t4", "[[File:X.jpg]]") [] (3, "t3", "text")).
  - repeat constructor.
  - reflexivity.
  - constructor.
  - reflexivity.
Defined.

(** X7: a revision that the API returns without an id, with the id 0,
    without a timestamp or with an empty timestamp or content is not
    yielded: the finder gives the same result as if it were not in the
    history. *)
Theorem X7_unusable_revisions_are_skipped
    (before : list api_revision) (r : api_revision) (after : list api_revision)
    (file_name : string) :
  api_revid r = None \/ api_revid r = Some 0
  \/ api_timestamp r = None \/ api_timestamp r = Some ""
  \/ api_content r = "" ->
  earliest_in_revisions (omap yielded (before ++ r :: after)) file_name
  = earliest_in_revisions (omap yielded (before ++ after)) file_name.
Proof.
  intros H.
  assert (Hr : yielded r = None).
  { unfold yielded.
    destruct (api_revid r) as [id|]; [|reflexivity].
    destruct (api_timestamp r) as [ts|]; [|reflexivity].
    destruct H as [H|[H|[H|[H|H]]]]; try discriminate.
    - injection H as ->. reflexivity.
    - injection H as ->. cbn. now rewrite andb_false_r.
    - rewrite H. cbn. now rewrite andb_false_r. }
  rewrite !omap_app. cbn [omap list_omap]. now rewrite Hr.
Qed.

Lemma X7_witness :
  earliest_in_revisions
    (omap yielded ([Examples.api_rev 3 "t3" "[[File:X.jpg]]"]
                     ++ Examples.api_rev 2 "t2" ""
                     :: [Examples.api_rev 1 "t1" "[[File:X.jpg]]"]))
    Examples.target
  = earliest_in_revisions
      (omap yielded ([Examples.api_rev 3 "t3" "[[File:X.jpg]]"]
                       ++ [Examples.api_rev 1 "t1" "[[File:X.jpg]]"]))
      Examples.target.
Proof.
  apply (X7_unusable_revisions_are_skipped
           [Examples.api_rev 3 "t3" "[[File:X.jpg]]"] (Examples.api_rev 2 "t2" "")
           [Examples.api_rev 1 "t1" "[[File:X.jpg]]"] Examples.target).
  right. right. right. right. reflexivity.
Defined.

(** The revision tracked by the scan is one of the revisions read so far,
    and it has the file. *)
Lemma scan_revisions_sound (file_name : string) (all revs : list revision)
    (st : scan_state) :
  (found_any st = true ->
   exists r, In r all /\ references file_name r = true /\ st = tracking r) ->
  (forall r, In r revs -> In r all) ->
  match scan_revisions file_name revs st with
  | inr i =>
      exists r b, In r all /\ references file_name r = true /\ i = introduced_at r b
  | inl st' =>
      found_any st' = true ->
      exists r, In r all /\ references file_name r = true /\ st' = tracking r
  end.
Proof.
  revert st. induction revs as [|[[id ts] content] revs IH]; intros st Hst Hall;
    [exact Hst |].
  assert (Hin : In (id, ts, content) all) by (apply Hall; now left).
  assert (Hall' : forall r, In r revs -> In r all) by (intros r Hr; apply Hall; now right).
  cbn [scan_revisions].
  destruct (found_any st) eqn:Hf; cbn [negb];
    destruct (matches_file_in_wikitext content file_name) eqn:Hm; cbn [negb].
  - apply IH; [|assumption]. intros _. exists (id, ts, content). now repeat split.
  - destruct (Hst eq_refl) as (r & Hr & Href & ->). eauto.
  - apply IH; [|assumption]. intros _. exists (id, ts, content). now repeat split.
  - apply IH; [|assumption]. rewrite Hf. discriminate.
Qed.

(** X8: the revision a record of the finder names is one of the revisions
    it was fed, and that revision references the file; the record is never
    marked as coming from Wikidata. *)
Theorem X8_reported_revision_has_the_file
    (revs : list revision) (file_name : string) (i : info) :
  earliest_in_revisions revs file_name = Some i ->
  exists r b,
    In r revs /\ references file_name r = true /\ i = introduced_at r b.
Proof.
  unfold earliest_in_revisions.
  pose proof (scan_revisions_sound file_name revs revs scan_init) as H.
  specialize (H ltac:(discriminate) ltac:(auto)).
  destruct (scan_revisions file_name revs scan_init) as [st|i'].
  - destruct (found_any st) eqn:Hst; [|discriminate].
    intros [= <-]. destruct (H eq_refl) as (r & Hr & Href & ->).
    exists r, true. now repeat split.
  - intros [= <-]. exact H.
Qed.

Lemma X8_witness :
  exists r b,
    In r (omap yielded (Examples.added_later "Page"))
    /\ references Examples.target r = true
    /\ introduced_at (2, "2024-02-01T00:00:00Z", "Text [[file:x.jpg]]") true
       = introduced_at r b.
Proof.
  apply (X8_reported_revision_has_the_file
           (omap yielded (Examples.added_later "Page")) Examples.target).
  reflexivity.
Defined.

(** ** Wikidata fallback finder *)

(** The three ways through the fallback finder: no item, no matching image,
    or a matching image whose history is fetched. *)
Lemma find_wikidata_introduction_cases
    (env : Env) (wiki page_title file_name : string) :
  find_wikidata_introduction env wiki page_title file_name
  = ([ApiWikidataItem wiki page_title], Ok None)
  \/ (exists item,
        wikidata_item_for_page env wiki page_title = Some item
        /\ find_wikidata_introduction env wiki page_title file_name
           = ([ApiWikidataItem wiki page_title; ApiCurrentImage item], Ok None))
  \/ (exists item image,
        wikidata_item_for_page env wiki page_title = Some item
        /\ current_image_for_item env item = Some image
        /\ image <> ""
        /\ check_if_file_matches_wikidata_image file_name image = true
        /\ find_wikidata_introduction env wiki page_title file_name
           = match
               match image_history_for_item env item with
               | Ok h => introduction_from_history item h
               | Raise e => Raise e
               end
             with
             | Ok i =>
                 ([ApiWikidataItem wiki page_title; ApiCurrentImage item;
                   ApiImageHistory item], Ok (Some i))
             | Raise e =>
                 ([ApiWikidataItem wiki page_title; ApiCurrentImage item;
                   ApiImageHistory item; PrintHistoryError item e], Raise e)
             end).
Proof.
  unfold find_wikidata_introduction. io_unfold.
  destruct (wikidata_item_for_page env wiki page_title) as [item|] eqn:Hitem;
    [|now left].
  destruct (String.eqb item ""); [now left |].
  destruct (current_image_for_item env item) as [image|] eqn:Himage;
    [|right; left; now exists item].
  destruct (String.eqb_spec image "") as [->|Hne]; [right; left; now exists item |].
  destruct (check_if_file_matches_wikidata_image file_name image) eqn:Hm;
    [|right; left; now exists item].
  right. right. exists item, image.
  repeat (split; [first [assumption | reflexivity] |]).
  destruct (image_history_for_item env item) as [h|e]; [|reflexivity].
  destruct (introduction_from_history item h); reflexivity.
Qed.

(** X9: in a record of the fallback finder the first-value flag implies the
    first-image flag and an empty list of previous images; when every older
    entry of the history has an image field the two flags are equal. *)
Theorem X9_first_value_and_first_image_flags
    (env : Env) (wiki page_title file_name : string) (log : list event) (i : info) :
  find_wikidata_introduction env wiki page_title file_name = (log, Ok (Some i)) ->
  (first_p18 i = Some true ->
   first_image i = true /\ previous_p18_images i = Some [])
  /\ (forall item l,
        wikidata_item_for_page env wiki page_title = Some item ->
        image_history_for_item env item = Ok (VList l) ->
        Forall (fun h => image_field h <> None) (tail l) ->
        first_p18 i = Some (first_image i)).
Proof.
  intros H.
  apply find_wikidata_introduction_some in H
    as (item & image & h & Hitem & _ & _ & Hh & Hi).
  apply introduction_from_history_ok in Hi
    as (l & -> & Hfp & Hprev & Hfi & _).
  split.
  - rewrite Hfp, Hfi, Hprev. intros [= Hlen].
    destruct l as [|h0 [|h1 l]]; [auto | auto | discriminate].
  - intros item' l' Hitem' Hh' Hfields.
    rewrite Hitem in Hitem'. injection Hitem' as <-.
    rewrite Hh in Hh'. injection Hh' as <-.
    rewrite Hfp, Hfi.
    destruct l as [|h0 [|h1 l]]; [reflexivity | reflexivity |].
    cbn [tail] in *. inversion Hfields as [|? ? Hh1 _]; subst.
    cbn [omap list_omap]. destruct (image_field h1); [reflexivity | congruence].
Qed.

Lemma X9_witness :
  (Some false = Some true ->
   false = true /\ Some [VStr "V1.jpg"; VStr "V2.jpg"] = Some [])
  /\ (forall item l,
        Some "Q1" = Some item ->
        Examples.three_values = Ok (VList l) ->
        Forall (fun h => image_field h <> None) (tail l) ->
        Some false = Some false).
Proof.
  exact (X9_first_value_and_first_image_flags
           (Examples.wikidata_env Examples.three_values (fun _ => []))
           Examples.wiki "Page" Examples.target
           [ApiWikidataItem Examples.wiki "Page"; ApiCurrentImage "Q1";
            ApiImageHistory "Q1"]
           {| introduced_revision_id := VInt 30;
              introduced_timestamp := VStr "2024-03-01 00:00:00 UTC";
              timestamp_is_formatted := Some true;
              first_image := false;
              first_p18 := Some false;
              from_wikidata := true;
              wikidata_item := Some "Q1";
              previous_p18_images := Some [VStr "V1.jpg"; VStr "V2.jpg"] |}
           eq_refl).
Defined.

(** X10: the history of an item is requested only when the page has that
    item, the item has a current image that is not empty, and the target
    matches that image. *)
Theorem X10_history_requested_only_on_match
    (env : Env) (wiki page_title file_name item : string) :
  In (ApiImageHistory item)
     (fst (find_wikidata_introduction env wiki page_title file_name)) ->
  exists image,
    wikidata_item_for_page env wiki page_title = Some item
    /\ current_image_for_item env item = Some image
    /\ image <> ""
    /\ check_if_file_matches_wikidata_image file_name image = true.
Proof.
  destruct (find_wikidata_introduction_cases env wiki page_title file_name)
    as [->|[(it & _ & ->)|(it & image & Hit & Him & Hne & Hm & ->)]].
  - intros [H|[]]; discriminate.
  - intros [H|[H|[]]]; discriminate.
  - intros Hin. exists image.
    assert (it = item) as <-.
    { destruct (match image_history_for_item env it with
                | Ok h => introduction_from_history it h
                | Raise e => Raise e
                end); cbn in Hin;
        repeat (destruct Hin as [Hin|Hin]; [try discriminate; congruence |]);
        destruct Hin. }
    now repeat split.
Qed.

Lemma X10_witness :
  exists image,
    Some "Q1" = Some "Q1"
    /\ Some "X.jpg" = Some image
    /\ image <> ""
    /\ check_if_file_matches_wikidata_image Examples.target image = true.
Proof.
  apply (X10_history_requested_only_on_match Examples.env_wellformed
           Examples.wiki "A" Examples.target "Q1").
  vm_compute. tauto.
Defined.

(** X11: the fallback finder raises only out of the history step: the page
    has an item and a matching image, the history was requested, and the
    exception was printed once, as the last event, before being raised
    again unchanged. *)
Theorem X11_fallback_raises_only_from_the_history
    (env : Env) (wiki page_title file_name : string) (log : list event) (e : exn) :
  find_wikidata_introduction env wiki page_title file_name = (log, Raise e) ->
  exists item,
    wikidata_item_for_page env wiki page_title = Some item
    /\ log = [ApiWikidataItem wiki page_title; ApiCurrentImage item;
              ApiImageHistory item; PrintHistoryError item e]
    /\ (image_history_for_item env item = Raise e
        \/ exists h, image_history_for_item env item = Ok h
                     /\ introduction_from_history item h = Raise e).
Proof.
  destruct (find_wikidata_introduction_cases env wiki page_title file_name)
    as [->|[(it & _ & ->)|(it & image & Hit & Him & Hne & Hm & ->)]];
    try discriminate.
  destruct (image_history_for_item env it) as [h|e'] eqn:Hh.
  - destruct (introduction_from_history it h) as [i|e'] eqn:Hi; [discriminate |].
    intros [= <- <-]. exists it. repeat split; eauto.
  - intros [= <- <-]. exists it. repeat split; auto.
Qed.

Lemma X11_witness :
  exists item,
    Some "Q1" = Some item
    /\ [ApiWikidataItem Examples.wiki "A"; ApiCurrentImage "Q1";
        ApiImageHistory "Q1";
        PrintHistoryError "Q1"
          (AttributeError "'NoneType' object has no attribute 'replace'")]
       = [ApiWikidataItem Examples.wiki "A"; ApiCurrentImage item;
          ApiImageHistory item;
          PrintHistoryError item
            (AttributeError "'NoneType' object has no attribute 'replace'")]
    /\ (image_history_for_item Examples.env_lookup_fails item
        = Raise (AttributeError "'NoneType' object has no attribute 'replace'")
        \/ exists h, image_history_for_item Examples.env_lookup_fails item = Ok h
                     /\ introduction_from_history item h
                        = Raise (AttributeError
                                   "'NoneType' object has no attribute 'replace'")).
Proof.
  exact (X11_fallback_raises_only_from_the_history Examples.env_lookup_fails
           Examples.wiki "A" Examples.target _ _ eq_refl).
Defined.

(** X12: the histories the fallback finder accepts are the lists that are
    empty, or whose first entry is a dict with a timestamp and whose older
    entries, if any, have only strings as image fields. *)
Theorem X12_accepted_histories (item : string) (h : pyval) :
  (exists i, introduction_from_history item h = Ok i)
  <-> exists l,
        h = VList l
        /\ match l with
           | [] => True
           | h0 :: older =>
               (exists d ts, h0 = VDict d /\ dict_get "timestamp" d = Some ts)
               /\ (older = []
                   \/ forallb is_str (omap image_field older) = true)
           end.
Proof.
  split.
  - intros [i Hi]. unfold introduction_from_history in Hi.
    destruct h as [| | | |l|]; try discriminate. exists l. split; [reflexivity |].
    destruct l as [|h0 older]; [exact I |].
    destruct h0 as [| | | | |d]; try discriminate. cbn [is_dict negb] in Hi.
    match type of Hi with
    | context [if ?c then _ else _] => destruct c eqn:Hstr
    end; [discriminate |].
    destruct (dict_get "timestamp" d) as [ts|] eqn:Hts; [|discriminate].
    split; [eauto |].
    rewrite images_after_first_fields, length_le_one in Hstr. cbn [tail] in Hstr.
    destruct older as [|h1 older]; [now left | right].
    cbn [length Nat.leb negb andb] in Hstr.
    now apply negb_false_iff in Hstr.
  - intros (l & -> & Hl). unfold introduction_from_history.
    destruct l as [|h0 older]; [eexists; reflexivity |].
    destruct Hl as ((d & ts & -> & Hts) & Holder). cbn [is_dict negb].
    rewrite images_after_first_fields, length_le_one. cbn [tail].
    assert (Hstr : negb (length (VDict d :: older) <=? 1)%nat
                   && negb (forallb is_str (omap image_field older)) = false).
    { destruct Holder as [-> | ->]; [reflexivity | apply andb_false_r]. }
    rewrite Hstr, Hts. eexists; reflexivity.
Qed.

(** X13: a record of the fallback finder always gives a result entry,
    whatever the timestamp looks like: the timestamp is copied as it is and
    the entry is marked as coming from Wikidata, with its item. *)
Theorem X13_wikidata_records_always_give_an_entry
    (env : Env) (wiki page_title file_name lang_code : string)
    (log : list event) (i : info) :
  find_wikidata_introduction env wiki page_title file_name = (log, Ok (Some i)) ->
  exists entry,
    create_result_entry env i file_name wiki lang_code page_title = Ok entry
    /\ r_introduced_timestamp entry = introduced_timestamp i
    /\ r_from_wikidata entry = true
    /\ r_wikidata_item entry = wikidata_item_for_page env wiki page_title.
Proof.
  intros H.
  apply find_wikidata_introduction_some in H
    as (item & image & h & Hitem & _ & _ & _ & Hi).
  apply introduction_from_history_ok in Hi
    as (l & _ & _ & _ & _ & _ & Hfw & Hwi & Hfmt).
  unfold create_result_entry. rewrite Hfmt. cbn.
  eexists. split; [reflexivity |]. cbn. now rewrite Hfw, Hwi, Hitem.
Qed.

Lemma X13_witness :
  exists entry,
    create_result_entry (Examples.wikidata_env Examples.three_values (fun _ => []))
      {| introduced_revision_id := VInt 30;
         introduced_timestamp := VStr "2024-03-01 00:00:00 UTC";
         timestamp_is_formatted := Some true;
         first_image := false;
         first_p18 := Some false;
         from_wikidata := true;
         wikidata_item := Some "Q1";
         previous_p18_images := Some [VStr "V1.jpg"; VStr "V2.jpg"] |}
      Examples.target Examples.wiki "en" "Page" = Ok entry
    /\ r_introduced_timestamp entry = VStr "2024-03-01 00:00:00 UTC"
    /\ r_from_wikidata entry = true
    /\ r_wikidata_item entry = Some "Q1".
Proof.
  exact (X13_wikidata_records_always_give_an_entry
           (Examples.wikidata_env Examples.three_values (fun _ => []))
           Examples.wiki "Page" Examples.target "en" _ _ eq_refl).
Defined.

(** ** Statistics tracker *)

Lemma counter_incr_eqb (k k' : string) (d : gmap string Z) :
  counter (incr k d) k' = counter d k' + (if String.eqb k k' then 1 else 0).
Proof.
  rewrite counter_incr.
  destruct (decide (k = k')) as [->|Hne].
  - rewrite String.eqb_refl. reflexivity.
  - apply String.eqb_neq in Hne. rewrite Hne. lia.
Qed.

(** The effect of one record operation on each counter. *)
Lemma read_record (s : StatisticsTracker) (ev : usage_event) (c : counter_name) :
  read (record s ev) c = read s c + (if counted c ev then 1 else 0).
Proof.
  destruct s, ev as [i f w l].
  split_info i; destruct c; run_updates;
    cbn [counted ev_info ev_file_title ev_wiki ev_lang_code first_image
         from_wikidata first_p18 andb negb from_option id];
    rewrite ?counter_incr_eqb; lia.
Qed.

Lemma count_of_cons {A} (p : A -> bool) (x : A) (l : list A) :
  count_of p (x :: l) = (if p x then 1 else 0) + count_of p l.
Proof.
  unfold count_of. cbn [List.filter]. destruct (p x); cbn [length]; lia.
Qed.

Lemma count_of_app {A} (p : A -> bool) (l l' : list A) :
  count_of p (l ++ l') = count_of p l + count_of p l'.
Proof.
  induction l as [|x l IH]; [unfold count_of; cbn; lia |].
  change ((x :: l) ++ l') with (x :: (l ++ l')).
  rewrite !count_of_cons, IH. lia.
Qed.

Lemma read_record_all (evs : list usage_event) (s : StatisticsTracker)
    (c : counter_name) :
  read (record_all evs s) c = read s c + count_of (counted c) evs.
Proof.
  revert s. induction evs as [|ev evs IH]; intros s.
  - unfold count_of. cbn. lia.
  - cbn [record_all fold_left]. fold (record_all evs (record s ev)).
    rewrite IH, read_record, count_of_cons. lia.
Qed.

(** X14: after a run of record operations on a fresh tracker every counter
    holds the number of events that count for it.  The total of a file is
    the number of events of that file, the first-image count the number of
    those with the first-image flag, the Wikidata counts the number of
    events marked as coming from Wikidata, split by the first-value flag. *)
Theorem X14_counters_count_events (evs : list usage_event) (c : counter_name) :
  read (record_all evs initialize_statistics) c = count_of (counted c) evs.
Proof. rewrite read_record_all, read_initial. lia. Qed.

Lemma count_of_le {A} (p q : A -> bool) (l : list A) :
  (forall x, p x = true -> q x = true) ->
  count_of p l <= count_of q l.
Proof.
  intros H. induction l as [|x l IH]; [reflexivity |].
  rewrite !count_of_cons. specialize (H x).
  destruct (p x), (q x); try lia; try (specialize (H eq_refl); discriminate).
Qed.

(** X15: after any run of record operations on a fresh tracker, no
    first-image count exceeds the total of its key, no Wikidata count of a
    wiki exceeds the total of that wiki or the overall Wikidata count, and
    the overall Wikidata count is the sum of the first-value and the
    replaced-value counts. *)
Theorem X15_counter_relations (evs : list usage_event) (k : string) :
  let s := record_all evs initialize_statistics in
  read s (FirstImageByFile k) <= read s (TotalByFile k)
  /\ read s (FirstImageByWiki k) <= read s (TotalByWiki k)
  /\ read s (FirstImageByLang k) <= read s (TotalByLang k)
  /\ read s (WikidataSourcedByWiki k) <= read s (TotalByWiki k)
  /\ read s (WikidataSourcedByWiki k) <= read s WikidataSourced
  /\ read s WikidataSourced = read s FirstP18 + read s ReplacedP18.
Proof.
  intros s. subst s. rewrite !read_record_all, !read_initial.
  repeat split;
    try (apply Z.add_le_mono_l, count_of_le; intros ev; cbn [counted];
         intros H; apply andb_prop in H; tauto).
  induction evs as [|ev evs IH]; [reflexivity |].
  rewrite !count_of_cons. cbn [counted].
  destruct (from_wikidata (ev_info ev)), (default false (first_p18 (ev_info ev)));
    cbn [andb negb]; lia.
Qed.

(** ** Batch driver *)

(** A property of the mutated objects that every loop body keeps, whether
    it raises or not, holds after the loop. *)
Lemma for_each_state {A} (I : run_state -> Prop)
    (body : A -> run_state -> step_result) (xs : list A) :
  (forall x st, I st -> I (snd (fst (body x st)))) ->
  forall st, I st -> I (snd (fst (for_each body xs st))).
Proof.
  intros Hbody. induction xs as [|x xs IH]; intros st Hst; [exact Hst |].
  cbn [for_each]. specialize (Hbody x st Hst).
  destruct (body x st) as [[log st'] [e|]]; [exact Hbody |].
  specialize (IH st' Hbody).
  now destruct (for_each body xs st') as [[log' st''] r].
Qed.

(** A property that the bodies keep when they do not raise holds after a
    loop that did not raise. *)
Lemma for_each_completed {A} (I : run_state -> Prop)
    (body : A -> run_state -> step_result) (xs : list A) :
  (forall x st log st', I st -> body x st = (log, st', None) -> I st') ->
  forall st log st', I st -> for_each body xs st = (log, st', None) -> I st'.
Proof.
  intros Hbody. induction xs as [|x xs IH]; intros st log st' Hst Hrun.
  - cbn in Hrun. now injection Hrun as _ <-.
  - cbn [for_each] in Hrun.
    destruct (body x st) as [[logx stx] [e|]] eqn:Hx; [discriminate |].
    destruct (for_each body xs stx) as [[log' st''] r] eqn:Hrest.
    injection Hrun as _ -> ->.
    exact (IH stx log' st' (Hbody x st logx stx Hst Hx) Hrest).
Qed.

(** A property of events that holds of everything a body logs holds of
    everything the loop logs. *)
Lemma for_each_events {A} (P : event -> Prop)
    (body : A -> run_state -> step_result) (xs : list A) :
  (forall x st, Forall P (fst (fst (body x st)))) ->
  forall st, Forall P (fst (fst (for_each body xs st))).
Proof.
  intros Hbody. induction xs as [|x xs IH]; intros st; [constructor |].
  cbn [for_each]. specialize (Hbody x st).
  destruct (body x st) as [[log st'] [e|]]; [exact Hbody |].
  specialize (IH st').
  destruct (for_each body xs st') as [[log' st''] r]. cbn in *.
  apply Forall_app; auto.
Qed.

Lemma read_mark_page_seen (wiki page_title : string) (s : StatisticsTracker)
    (c : counter_name) :
  read (mark_page_seen wiki page_title s) c = read s c.
Proof. destruct c; reflexivity. Qed.

Lemma read_record_usage (wiki_pages : list (string * list string))
    (s : StatisticsTracker) (c : counter_name) :
  read (record_usage wiki_pages s) c = read s c.
Proof. destruct c; reflexivity. Qed.

(** The entry made from a record counts for the same counters as the usage
    event of that record. *)
Lemma entry_counted_created (env : Env) (i : info)
    (file_title wiki lang_code page_title : string) (entry : result_entry)
    (c : counter_name) :
  create_result_entry env i file_title wiki lang_code page_title = Ok entry ->
  entry_counted c entry
  = counted c {| ev_info := i; ev_file_title := file_title; ev_wiki := wiki;
                 ev_lang_code := lang_code |}.
Proof.
  unfold create_result_entry.
  destruct (if default false (timestamp_is_formatted i) then _ else _) as [ts|e];
    [|discriminate].
  intros [= <-]. destruct c; reflexivity.
Qed.

Lemma process_page_counts (env : Env) (args : Args)
    (wiki lang_code file_title page_title : string)
    (st st' : run_state) (log : list event) :
  counters_match_results st ->
  process_page env args wiki lang_code file_title page_title st = (log, st', None) ->
  counters_match_results st'.
Proof.
  intros Hst. unfold process_page.
  destruct (resolve env (skip_wikidata args) wiki page_title file_title)
    as [l [[i|]|e]]; [| |discriminate].
  - destruct (create_result_entry env i file_title wiki lang_code page_title)
      as [entry|e] eqn:Hentry; [|discriminate].
    intros [= _ <-] c. cbn [stats results].
    change (update_statistics i ?s file_title wiki lang_code)
      with (record s {| ev_info := i; ev_file_title := file_title;
                        ev_wiki := wiki; ev_lang_code := lang_code |}).
    rewrite read_record, read_mark_page_seen, count_of_app, count_of_cons.
    rewrite (entry_counted_created _ _ _ _ _ _ _ c Hentry), (Hst c).
    unfold count_of at 3. cbn. lia.
  - intros [= _ <-] c. cbn [stats results].
    rewrite read_mark_page_seen. apply Hst.
Qed.

Lemma process_file_counts (env : Env) (args : Args) (file_title : string)
    (st st' : run_state) (log : list event) :
  counters_match_results st ->
  process_file env args file_title st = (log, st', None) ->
  counters_match_results st'.
Proof.
  intros Hst. unfold process_file.
  destruct (global_usage_of_file env file_title) as [|wp wps];
    [now intros [= _ <-] |].
  match goal with
  | |- context [for_each ?b ?xs ?s] =>
      destruct (for_each b xs s) as [[l st2] r] eqn:Hrun
  end.
  intros [= _ <- ->].
  eapply (for_each_completed counters_match_results); [| |exact Hrun].
  - intros [w pages] s l' s' Hs Hw. cbn [fst snd] in Hw.
    unfold process_wiki_pages in Hw.
    eapply (for_each_completed counters_match_results); [|exact Hs|exact Hw].
    intros page s1 l1 s1' Hs1 Hp. eapply process_page_counts; eauto.
  - intros c. cbn [stats results]. rewrite read_record_usage. apply Hst.
Qed.

(** X16: when [main] returns, every counter of the tracker it reports equals
    the number of result entries that count for it: the summary figures and
    the detailed results agree. *)
Theorem X16_statistics_agree_with_results
    (env : Env) (args : Args) (log : list event)
    (entries : list result_entry) (s : StatisticsTracker) (c : counter_name) :
  main env args = (log, Returned entries s) ->
  read s c = count_of (entry_counted c) entries.
Proof.
  unfold main, process_files.
  destruct (commons_category_files env (category args) (depth args)) as [|f fs];
    [discriminate |].
  match goal with
  | |- context [for_each ?b ?xs ?s0] =>
      destruct (for_each b xs s0) as [[l st] [e|]] eqn:Hrun
  end; [discriminate |].
  intros [= _ <- <-].
  assert (H : counters_match_results st); [|apply H].
  eapply (for_each_completed counters_match_results); [| |exact Hrun].
  - intros x s0 l0 s0' Hs0 Hx. eapply process_file_counts; eauto.
  - intros c'. cbn [stats results]. rewrite read_initial. reflexivity.
Qed.

Lemma X16_witness :
  read (match snd (main Examples.env_wellformed Examples.args_default) with
        | Returned _ s => s
        | Exit _ => initialize_statistics
        end) ReplacedP18
  = count_of (entry_counted ReplacedP18)
      (match snd (main Examples.env_wellformed Examples.args_default) with
       | Returned entries _ => entries
       | Exit _ => []
       end).
Proof.
  apply (X16_statistics_agree_with_results Examples.env_wellformed
           Examples.args_default
           (fst (main Examples.env_wellformed Examples.args_default))).
  vm_compute. reflexivity.
Defined.

Lemma usage_add_keys (wiki : string) (n : Z) (d : list (string * Z)) :
  map fst (usage_add wiki n d)
  = if existsb (String.eqb wiki) (map fst d) then map fst d
    else map fst d ++ [wiki].
Proof.
  induction d as [|[k v] d IH]; [reflexivity |].
  cbn [usage_add map fst existsb]. rewrite (String.eqb_sym wiki k).
  destruct (String.eqb k wiki); [reflexivity |].
  cbn [map fst orb]. rewrite IH.
  now destruct (existsb (String.eqb wiki) (map fst d)).
Qed.

Lemma usage_add_NoDup (wiki : string) (n : Z) (d : list (string * Z)) :
  NoDup (map fst d) -> NoDup (map fst (usage_add wiki n d)).
Proof.
  intros Hd. rewrite usage_add_keys.
  destruct (existsb (String.eqb wiki) (map fst d)) eqn:Hex; [exact Hd |].
  apply NoDup_app. split; [exact Hd |]. split; [|apply NoDup_singleton].
  intros x Hx Hx'. apply list_elem_of_singleton in Hx'. subst x.
  assert (Hin : existsb (String.eqb wiki) (map fst d) = true); [|congruence].
  apply existsb_exists. exists wiki. split; [|apply String.eqb_refl].
  now apply list_elem_of_In.
Qed.

Lemma usage_get_add (wiki wiki' : string) (n : Z) (d : list (string * Z)) :
  usage_get wiki' (usage_add wiki n d)
  = usage_get wiki' d + (if String.eqb wiki wiki' then n else 0).
Proof.
  induction d as [|[k v] d IH].
  - cbn. destruct (String.eqb wiki wiki'); lia.
  - cbn [usage_add usage_get].
    destruct (String.eqb_spec k wiki) as [->|Hk]; cbn [usage_get].
    + destruct (String.eqb wiki wiki'); lia.
    + destruct (String.eqb_spec k wiki') as [->|Hk']; [|exact IH].
      apply String.eqb_neq in Hk. rewrite String.eqb_sym, Hk. lia.
Qed.

Lemma usage_fold_get (wiki : string) (wiki_pages : list (string * list string))
    (d : list (string * Z)) :
  usage_get wiki
    (fold_left (fun d wp => usage_add (fst wp) (Z.of_nat (length (snd wp))) d)
               wiki_pages d)
  = usage_get wiki d + pages_on wiki wiki_pages.
Proof.
  revert d. induction wiki_pages as [|[k pages] rest IH]; intros d.
  - cbn. lia.
  - cbn [fold_left pages_on fst snd]. rewrite IH, usage_get_add. lia.
Qed.

Lemma usage_fold_NoDup (wiki_pages : list (string * list string))
    (d : list (string * Z)) :
  NoDup (map fst d) ->
  NoDup (map fst
    (fold_left (fun d wp => usage_add (fst wp) (Z.of_nat (length (snd wp))) d)
               wiki_pages d)).
Proof.
  revert d. induction wiki_pages as [|wp rest IH]; intros d Hd; [exact Hd |].
  cbn [fold_left]. apply IH. now apply usage_add_NoDup.
Qed.

(** X17: the bookkeeping done for a file that is in use adds one to the
    number of files used and, for every wiki, the number of pages listed
    for that wiki to its entry of the usage table; it keeps the wikis of
    the table distinct and leaves every counter of the record operation
    alone. *)
Theorem X17_record_usage_bookkeeping
    (wiki_pages : list (string * list string)) (s : StatisticsTracker) :
  files_used_on_wikipedias (record_usage wiki_pages s)
  = files_used_on_wikipedias s + 1
  /\ (forall wiki,
        usage_get wiki (usage_by_wiki (record_usage wiki_pages s))
        = usage_get wiki (usage_by_wiki s) + pages_on wiki wiki_pages)
  /\ (NoDup (map fst (usage_by_wiki s)) ->
      NoDup (map fst (usage_by_wiki (record_usage wiki_pages s))))
  /\ (forall c, read (record_usage wiki_pages s) c = read s c).
Proof.
  split; [reflexivity |].
  split; [intros wiki; apply usage_fold_get |].
  split; [apply usage_fold_NoDup | intros c; apply read_record_usage].
Qed.

Lemma X17_witness :
  NoDup (map fst (usage_by_wiki
    (record_usage [("en.wikipedia.org", ["A"; "B"]); ("de.wikipedia.org", ["C"])]
       initialize_statistics))).
Proof.
  apply (proj1 (proj2 (proj2 (X17_record_usage_bookkeeping
           [("en.wikipedia.org", ["A"; "B"]); ("de.wikipedia.org", ["C"])]
           initialize_statistics)))).
  constructor.
Defined.

(** ** The limit on the number of wikis *)

Lemma filter_sublist {A} (p : A -> bool) (l : list A) :
  sublist (List.filter p l) l.
Proof.
  induction l as [|x l IH]; [constructor |].
  cbn [List.filter]. destruct (p x); now constructor.
Qed.

Lemma slice_to_length {A} (n : Z) (l : list A) :
  0 <= n -> Z.of_nat (length (slice_to n l)) <= n.
Proof.
  intros Hn. unfold slice_to.
  destruct (Z.leb_spec 0 n); [|lia]. rewrite length_take. lia.
Qed.

(** Among pairs with distinct keys, at most as many have their key in a
    list as the list is long. *)
Lemma filter_keys_length {B} (top : list string) (l : list (string * B)) :
  NoDup (map fst l) ->
  (length (List.filter (fun wp => existsb (String.eqb (fst wp)) top) l)
   <= length top)%nat.
Proof.
  revert l. induction top as [|t top IH]; intros l Hl.
  - cbn [existsb]. clear Hl. induction l; cbn; auto.
  - assert (Hsplit : forall l' : list (string * B),
        NoDup (map fst l') ->
        (length (List.filter
                   (fun wp => String.eqb (fst wp) t
                              || existsb (String.eqb (fst wp)) top) l')
         <= (if existsb (String.eqb t) (map fst l') then 1 else 0)
            + length (List.filter (fun wp => existsb (String.eqb (fst wp)) top) l'))%nat).
    { induction l' as [|[k v] l' IHl']; intros Hnd; [cbn; lia |].
      cbn [map fst] in Hnd. apply NoDup_cons in Hnd as [Hk Hnd].
      specialize (IHl' Hnd).
      cbn [List.filter existsb map fst]. rewrite (String.eqb_sym t k).
      destruct (String.eqb_spec k t) as [->|Hkt]; cbn [orb].
      - assert (Hnot : existsb (String.eqb t) (map fst l') = false).
        { destruct (existsb (String.eqb t) (map fst l')) eqn:Hex; [|reflexivity].
          apply existsb_exists in Hex as (x & Hx & Hxt).
          apply String.eqb_eq in Hxt. subst x.
          exfalso. apply Hk. now apply list_elem_of_In. }
        rewrite Hnot in IHl'.
        destruct (existsb (String.eqb t) top); cbn [length]; lia.
      - destruct (existsb (String.eqb k) top); cbn [length]; lia. }
    specialize (Hsplit l Hl). specialize (IH l Hl). cbn [length existsb].
    destruct (existsb (String.eqb t) (map fst l)); lia.
Qed.

Lemma limit_to_top_wikis_sublist
    (args : Args) (usage : list (string * Z))
    (wiki_pages : list (string * list string)) :
  sublist (limit_to_top_wikis args usage wiki_pages) wiki_pages.
Proof.
  unfold limit_to_top_wikis.
  destruct (limit_wikis args) as [n|]; [|reflexivity].
  destruct (negb (n =? 0) && (n <? Z.of_nat (length wiki_pages)));
    [apply filter_sublist | reflexivity].
Qed.

(** X18: the limit on the number of wikis only ever removes wikis from the
    usage of a file, keeping the others in their order; nothing is removed
    when there is no limit, when the limit is 0, or when the file is used
    on no more wikis than the limit. *)
Theorem X18_limit_only_removes_wikis
    (args : Args) (usage : list (string * Z))
    (wiki_pages : list (string * list string)) :
  sublist (limit_to_top_wikis args usage wiki_pages) wiki_pages
  /\ (limit_wikis args = None \/ limit_wikis args = Some 0
      \/ (exists n, limit_wikis args = Some n /\ Z.of_nat (length wiki_pages) <= n) ->
      limit_to_top_wikis args usage wiki_pages = wiki_pages).
Proof.
  split; [apply limit_to_top_wikis_sublist |].
  unfold limit_to_top_wikis.
  - intros [->|[->|(n & -> & Hn)]]; [reflexivity | reflexivity |].
    destruct (Z.ltb_spec n (Z.of_nat (length wiki_pages))); [lia |].
    now rewrite andb_false_r.
Qed.

Lemma X18_witness :
  limit_to_top_wikis
    {| category := "Portraits"; depth := 0; limit_wikis := Some 2;
       skip_wikidata := false |}
    [("en.wikipedia.org", 5); ("de.wikipedia.org", 3)]
    [("de.wikipedia.org", ["C"]); ("en.wikipedia.org", ["A"; "B"])]
  = [("de.wikipedia.org", ["C"]); ("en.wikipedia.org", ["A"; "B"])].
Proof.
  apply (proj2 (X18_limit_only_removes_wikis
           {| category := "Portraits"; depth := 0; limit_wikis := Some 2;
              skip_wikidata := false |}
           [("en.wikipedia.org", 5); ("de.wikipedia.org", 3)]
           [("de.wikipedia.org", ["C"]); ("en.wikipedia.org", ["A"; "B"])])).
  right. right. exists 2. split; [reflexivity | cbn; lia].
Defined.

(** X19: with a positive limit, a file whose usage lists each wiki once is
    processed on at most that many wikis. *)
Theorem X19_limit_bounds_the_wikis
    (args : Args) (usage : list (string * Z))
    (wiki_pages : list (string * list string)) (n : Z) :
  limit_wikis args = Some n ->
  0 < n ->
  NoDup (map fst wiki_pages) ->
  Z.of_nat (length (limit_to_top_wikis args usage wiki_pages)) <= n.
Proof.
  intros Hlimit Hn Hnd. unfold limit_to_top_wikis. rewrite Hlimit.
  destruct (Z.eqb_spec n 0); [lia |]. cbn [negb andb].
  destruct (Z.ltb_spec n (Z.of_nat (length wiki_pages))); [|lia].
  pose proof (filter_keys_length (map fst (slice_to n (sorted_desc usage)))
                wiki_pages Hnd) as Hlen.
  rewrite length_map in Hlen.
  pose proof (slice_to_length n (sorted_desc usage) ltac:(lia)). lia.
Qed.

Lemma X19_witness :
  Z.of_nat (length (limit_to_top_wikis
    {| category := "Portraits"; depth := 0; limit_wikis := Some 1;
       skip_wikidata := false |}
    [("en.wikipedia.org", 5); ("de.wikipedia.org", 3)]
    [("de.wikipedia.org", ["C"]); ("en.wikipedia.org", ["A"; "B"])])) <= 1.
Proof.
  apply (X19_limit_bounds_the_wikis
           {| category := "Portraits"; depth := 0; limit_wikis := Some 1;
              skip_wikidata := false |}
           [("en.wikipedia.org", 5); ("de.wikipedia.org", 3)]
           [("de.wikipedia.org", ["C"]); ("en.wikipedia.org", ["A"; "B"])] 1).
  - reflexivity.
  - lia.
  - apply (bool_decide_unpack _). vm_compute. exact I.
Defined.

(** ** The Wikidata count of a language *)

Lemma usage_by_wiki_update_statistics (i : info) (s : StatisticsTracker)
    (file_title wiki lang_code : string) :
  usage_by_wiki (update_statistics i s file_title wiki lang_code) = usage_by_wiki s.
Proof. destruct s. split_info i; run_updates; reflexivity. Qed.

Lemma create_result_entry_place (env : Env) (i : info)
    (file_title wiki lang_code page_title : string) (entry : result_entry) :
  create_result_entry env i file_title wiki lang_code page_title = Ok entry ->
  r_wiki entry = wiki /\ r_language entry = lang_code.
Proof.
  unfold create_result_entry.
  destruct (if default false (timestamp_is_formatted i) then _ else _) as [ts|e];
    [|discriminate].
  intros [= <-]. split; reflexivity.
Qed.

Lemma process_page_consistent (env : Env) (args : Args)
    (wiki file_title page_title : string) (usage : list (string * Z))
    (st st' : run_state) (log : list event) :
  run_consistent st /\ usage_by_wiki (stats st) = usage ->
  In wiki (map fst usage) ->
  process_page env args wiki (get_language_code wiki) file_title page_title st
  = (log, st', None) ->
  run_consistent st' /\ usage_by_wiki (stats st') = usage.
Proof.
  intros [(Hc & Hk & Hr) Hu] Hwiki Hp.
  pose proof (process_page_counts _ _ _ _ _ _ _ _ _ Hc Hp) as Hc'.
  unfold process_page in Hp.
  destruct (resolve env (skip_wikidata args) wiki page_title file_title)
    as [l [[i|]|e]]; [| |discriminate].
  - destruct (create_result_entry env i file_title wiki
                (get_language_code wiki) page_title) as [entry|e] eqn:Hentry;
      [|discriminate].
    injection Hp as _ <-.
    apply create_result_entry_place in Hentry as [Hw Hl].
    unfold run_consistent, usage_keys_distinct, results_in_usage in *.
    cbn [stats results] in *. rewrite usage_by_wiki_update_statistics.
    cbn [mark_page_seen usage_by_wiki]. rewrite Hu in *.
    repeat split; try assumption.
    apply Forall_app. split; [exact Hr |].
    constructor; [|constructor]. rewrite Hw. split; [assumption | now rewrite Hl].
  - injection Hp as _ <-.
    unfold run_consistent, usage_keys_distinct, results_in_usage in *.
    cbn [stats results mark_page_seen usage_by_wiki] in *. now rewrite Hu in *.
Qed.

Lemma usage_add_keeps (wiki wiki' : string) (n : Z) (d : list (string * Z)) :
  In wiki' (map fst d) \/ wiki' = wiki -> In wiki' (map fst (usage_add wiki n d)).
Proof.
  rewrite usage_add_keys.
  destruct (existsb (String.eqb wiki) (map fst d)) eqn:Hex.
  - intros [H| ->]; [exact H |].
    apply existsb_exists in Hex as (x & Hx & Hxw).
    apply String.eqb_eq in Hxw. now subst x.
  - intros [H| ->]; apply in_or_app; [now left | right; now left].
Qed.

Lemma usage_fold_keeps (wiki : string) (wiki_pages : list (string * list string))
    (d : list (string * Z)) :
  In wiki (map fst d) \/ In wiki (map fst wiki_pages) ->
  In wiki (map fst
    (fold_left (fun d wp => usage_add (fst wp) (Z.of_nat (length (snd wp))) d)
               wiki_pages d)).
Proof.
  revert d. induction wiki_pages as [|[k pages] rest IH]; intros d H.
  - destruct H as [H|[]]. exact H.
  - cbn [fold_left fst snd]. apply IH.
    cbn [map fst] in H. destruct H as [H|[H|H]].
    + left. apply usage_add_keeps. now left.
    + left. apply usage_add_keeps. right. now symmetry.
    + now right.
Qed.

(** As [for_each_completed], for bodies that keep the property on the
    elements of the list only. *)
Lemma for_each_completed_in {A} (I : run_state -> Prop)
    (body : A -> run_state -> step_result) (xs : list A) :
  (forall x st log st', In x xs -> I st -> body x st = (log, st', None) -> I st') ->
  forall st log st', I st -> for_each body xs st = (log, st', None) -> I st'.
Proof.
  induction xs as [|x xs IH]; intros Hbody st log st' Hst Hrun.
  - cbn in Hrun. now injection Hrun as _ <-.
  - cbn [for_each] in Hrun.
    destruct (body x st) as [[logx stx] [e|]] eqn:Hx; [discriminate |].
    destruct (for_each body xs stx) as [[log' st''] r] eqn:Hrest.
    injection Hrun as _ -> ->.
    apply (IH ltac:(intros; eapply Hbody; eauto; now right) stx log' st');
      [|exact Hrest].
    eapply Hbody; eauto. now left.
Qed.

Lemma process_file_consistent (env : Env) (args : Args) (file_title : string)
    (st st' : run_state) (log : list event) :
  run_consistent st ->
  process_file env args file_title st = (log, st', None) ->
  run_consistent st'.
Proof.
  intros (Hc & Hk & Hr). unfold process_file.
  destruct (global_usage_of_file env file_title) as [|wp wps] eqn:Husage;
    [now intros [= _ <-] |].
  set (wiki_pages := wp :: wps).
  set (usage := usage_by_wiki (record_usage wiki_pages (stats st))).
  cbn [stats].
  match goal with
  | |- context [for_each ?b ?xs ?s] =>
      destruct (for_each b xs s) as [[l st2] r] eqn:Hrun
  end.
  intros [= _ <- ->].
  enough (H : run_consistent st2 /\ usage_by_wiki (stats st2) = usage) by apply H.
  eapply (for_each_completed_in
            (fun s => run_consistent s /\ usage_by_wiki (stats s) = usage));
    [| |exact Hrun].
  - intros [w pages] s0 lw sw Hin Hs0 Hw. cbn [fst snd] in Hw.
    assert (Hwin : In w (map fst usage)).
    { apply usage_fold_keeps. right.
      apply (in_map fst wiki_pages (w, pages)).
      apply list_elem_of_In. eapply elem_of_sublist;
        [|apply (limit_to_top_wikis_sublist args usage wiki_pages)].
      now apply list_elem_of_In. }
    unfold process_wiki_pages in Hw.
    eapply (for_each_completed
              (fun s => run_consistent s /\ usage_by_wiki (stats s) = usage));
      [|exact Hs0|exact Hw].
    intros page s1 l1 s1' Hs1 Hp. eapply process_page_consistent; eauto.
  - split; [|reflexivity]. repeat split.
    + intros c. cbn [stats results]. rewrite read_record_usage. apply Hc.
    + apply usage_fold_NoDup, Hk.
    + unfold results_in_usage in *. cbn [stats results].
      eapply Forall_impl; [exact Hr |]. intros r [Hin Hl]. split; [|exact Hl].
      apply usage_fold_keeps. now left.
Qed.

Lemma fold_left_add (l : list Z) (a : Z) :
  fold_left Z.add l a = a + fold_left Z.add l 0.
Proof.
  revert a. induction l as [|x l IH]; intros a; cbn [fold_left]; [lia |].
  rewrite (IH (a + x)), (IH (0 + x)). lia.
Qed.

Lemma count_of_split {A} (pq p q : A -> bool) (l : list A) :
  (forall x, (if pq x then 1 else 0) = (if p x then 1 else 0) + (if q x then 1 else 0)) ->
  count_of pq l = count_of p l + count_of q l.
Proof.
  intros H. induction l as [|x l IH]; [reflexivity |].
  rewrite !count_of_cons, IH, H. lia.
Qed.

Lemma count_of_ext {A} (p q : A -> bool) (l : list A) :
  Forall (fun x => p x = q x) l -> count_of p l = count_of q l.
Proof.
  induction 1 as [|x l Hx _ IH]; [reflexivity |].
  now rewrite !count_of_cons, IH, Hx.
Qed.

(** Summing, over distinct wikis, the entries from Wikidata of each wiki
    counts the entries from Wikidata of all these wikis. *)
Lemma sum_of_wiki_counts (ws : list string) (entries : list result_entry) :
  NoDup ws ->
  fold_left Z.add
    (map (fun w => count_of (entry_counted (WikidataSourcedByWiki w)) entries) ws) 0
  = count_of (fun r => r_from_wikidata r && existsb (String.eqb (r_wiki r)) ws)
             entries.
Proof.
  induction 1 as [|w ws Hw Hnd IH].
  - cbn. symmetry. unfold count_of.
    induction entries as [|r rs IHr]; [reflexivity |].
    cbn [List.filter]. now rewrite andb_false_r.
  - cbn [map fold_left]. rewrite fold_left_add, IH. cbn [existsb].
    rewrite (count_of_split
               (fun r => r_from_wikidata r
                         && (String.eqb (r_wiki r) w
                             || existsb (String.eqb (r_wiki r)) ws))
               (entry_counted (WikidataSourcedByWiki w))
               (fun r => r_from_wikidata r && existsb (String.eqb (r_wiki r)) ws));
      [lia |].
    intros r. cbn [entry_counted].
    destruct (r_from_wikidata r); [|reflexivity]. cbn [andb].
    destruct (String.eqb_spec (r_wiki r) w) as [Heq|Hne]; [|reflexivity].
    cbn [orb].
    destruct (existsb (String.eqb (r_wiki r)) ws) eqn:Hex; [|reflexivity].
    apply existsb_exists in Hex as (x & Hx & Hxw).
    apply String.eqb_eq in Hxw. subst x. rewrite Heq in Hx.
    exfalso. apply Hw. now apply list_elem_of_In.
Qed.

Lemma main_run_consistent (env : Env) (args : Args) (log : list event)
    (entries : list result_entry) (s : StatisticsTracker) :
  main env args = (log, Returned entries s) ->
  run_consistent {| stats := s; results := entries |}.
Proof.
  unfold main, process_files.
  destruct (commons_category_files env (category args) (depth args)) as [|f fs];
    [discriminate |].
  match goal with
  | |- context [for_each ?b ?xs ?s0] =>
      destruct (for_each b xs s0) as [[l st] [e|]] eqn:Hrun
  end; [discriminate |].
  intros [= _ <- <-].
  assert (H : run_consistent st); [|now destruct st].
  eapply (for_each_completed run_consistent); [| |exact Hrun].
  - intros x s0 l0 s0' Hs0 Hx. eapply process_file_consistent; eauto.
  - repeat split.
    + intros c. cbn [stats results]. now rewrite read_initial.
    + constructor.
    + constructor.
Qed.

(** X20: when [main] returns, the Wikidata count that the tracker gives for
    a language is the number of result entries of that language that came
    from Wikidata; it never exceeds the overall Wikidata count. *)
Theorem X20_wikidata_count_of_a_language
    (env : Env) (args : Args) (log : list event)
    (entries : list result_entry) (s : StatisticsTracker) (lang_code : string) :
  main env args = (log, Returned entries s) ->
  get_wikidata_count_for_language s lang_code
  = count_of (fun r => r_from_wikidata r && String.eqb (r_language r) lang_code)
             entries
  /\ get_wikidata_count_for_language s lang_code <= wikidata_sourced_count s.
Proof.
  intros Hmain.
  destruct (main_run_consistent env args log entries s Hmain) as (Hc & Hk & Hr).
  unfold counters_match_results, usage_keys_distinct, results_in_usage in *.
  cbn [stats results] in *.
  assert (Heq : get_wikidata_count_for_language s lang_code
                = count_of (fun r => r_from_wikidata r
                                     && String.eqb (r_language r) lang_code) entries).
  { unfold get_wikidata_count_for_language.
    set (ws := List.filter _ (map fst (usage_by_wiki s))).
    rewrite (map_ext _ (fun w => count_of (entry_counted (WikidataSourcedByWiki w))
                                          entries))
      by (intros w; apply (Hc (WikidataSourcedByWiki w))).
    rewrite sum_of_wiki_counts by (unfold ws; apply NoDup_ListNoDup, List.NoDup_filter, NoDup_ListNoDup, Hk).
    apply count_of_ext. eapply Forall_impl; [exact Hr |].
    intros r [Hin Hl]. cbn beta. f_equal. rewrite Hl.
    destruct (String.eqb_spec (get_language_code (r_wiki r)) lang_code) as [Hlang|Hlang].
    - apply existsb_exists. exists (r_wiki r). split; [|apply String.eqb_refl].
      apply filter_In. split; [exact Hin | now apply String.eqb_eq].
    - destruct (existsb (String.eqb (r_wiki r)) ws) eqn:Hex; [|reflexivity].
      apply existsb_exists in Hex as (x & Hx & Hxw).
      apply String.eqb_eq in Hxw. subst x.
      apply filter_In in Hx as [_ Hx]. apply String.eqb_eq in Hx. contradiction. }
  split; [exact Heq |].
  rewrite Heq. change (wikidata_sourced_count s) with (read s WikidataSourced).
  rewrite (Hc WikidataSourced). apply count_of_le.
  intros r H. apply andb_prop in H. cbn [entry_counted]. tauto.
Qed.

Lemma X20_witness :
  get_wikidata_count_for_language
    (match snd (main Examples.env_wellformed Examples.args_default) with
     | Returned _ s => s
     | Exit _ => initialize_statistics
     end) "en"
  <= wikidata_sourced_count
       (match snd (main Examples.env_wellformed Examples.args_default) with
        | Returned _ s => s
        | Exit _ => initialize_statistics
        end).
Proof.
  refine (proj2 (X20_wikidata_count_of_a_language Examples.env_wellformed
           Examples.args_default
           (fst (main Examples.env_wellformed Examples.args_default))
           (match snd (main Examples.env_wellformed Examples.args_default) with
            | Returned entries _ => entries
            | Exit _ => []
            end) _ "en" _)).
  vm_compute. reflexivity.
Defined.

(** ** Runs without the fallback *)

Lemma process_page_skip_events (env : Env) (args : Args)
    (wiki lang_code file_title page_title : string) (st : run_state) :
  skip_wikidata args = true ->
  Forall (fun ev => wikidata_event ev = false)
         (fst (fst (process_page env args wiki lang_code file_title page_title st))).
Proof.
  intros Hskip. unfold process_page, resolve. rewrite Hskip.
  rewrite find_earliest_wikitext_introduction_eq.
  destruct (earliest_in_revisions _ _) as [i|]; [|repeat constructor].
  destruct (create_result_entry env i file_title wiki lang_code page_title);
    repeat constructor.
Qed.

(** X21: a run with the fallback disabled sends no request about Wikidata:
    neither for the item of a page, nor for the image of an item, nor for
    its history. *)
Theorem X21_skip_wikidata_sends_no_wikidata_request (env : Env) (args : Args) :
  skip_wikidata args = true ->
  Forall (fun ev => wikidata_event ev = false) (fst (main env args)).
Proof.
  intros Hskip. unfold main, process_files.
  destruct (commons_category_files env (category args) (depth args)) as [|f fs];
    [repeat constructor |].
  match goal with
  | |- context [for_each ?b ?xs ?s0] =>
      pose proof (for_each_events (fun ev => wikidata_event ev = false) b xs) as H;
      specialize (fun Hb => H Hb s0);
      destruct (for_each b xs s0) as [[l st] r]
  end.
  assert (Hl : Forall (fun ev => wikidata_event ev = false) l).
  { apply H. intros file_title s0. unfold process_file.
    destruct (global_usage_of_file env file_title) as [|wp wps];
      [repeat constructor |].
    match goal with
    | |- context [for_each ?b ?xs ?s1] =>
        pose proof (for_each_events (fun ev => wikidata_event ev = false) b xs) as H';
        specialize (fun Hb => H' Hb s1);
        destruct (for_each b xs s1) as [[l' st'] r']
    end.
    cbn. constructor; [reflexivity |]. apply H'.
    intros [w pages] s1. unfold process_wiki_pages.
    apply for_each_events. intros page s2.
    now apply process_page_skip_events. }
  destruct r as [e|]; cbn.
  - constructor; [reflexivity |]. apply Forall_app. split; [exact Hl |].
    repeat constructor.
  - constructor; [reflexivity | exact Hl].
Qed.

Lemma X21_witness :
  Forall (fun ev => wikidata_event ev = false)
         (fst (main Examples.env_wellformed Examples.args_skip)).
Proof.
  apply (X21_skip_wikidata_sends_no_wikidata_request Examples.env_wellformed
           Examples.args_skip).
  reflexivity.
Defined.

(** ** History of the image property *)

Lemma format_timestamp_str (env : Env) (v t : pyval) :
  format_timestamp env v = Ok t -> exists s, t = VStr s.
Proof.
  unfold format_timestamp. destruct v as [| | |ts| |]; try discriminate.
  destruct (datetime_format env _); [|discriminate]. intros [= <-]. eauto.
Qed.

Lemma no_repeated_image_snoc (l : list pyval) (b : pyval) :
  no_repeated_image l ->
  (forall a, last l = Some a -> image_field a <> image_field b) ->
  no_repeated_image (l ++ [b]).
Proof.
  induction l as [|a l IH]; intros Hl Hlast; [exact I |].
  destruct l as [|a' l].
  - cbn. split; [|exact I]. apply Hlast. reflexivity.
  - cbn [no_repeated_image] in Hl. destruct Hl as [Hne Hl].
    change ((a :: a' :: l) ++ [b]) with (a :: (a' :: l) ++ [b]).
    change ((a' :: l) ++ [b]) with (a' :: (l ++ [b])).
    cbn [no_repeated_image]. split; [exact Hne |].
    change (a' :: (l ++ [b])) with ((a' :: l) ++ [b]).
    apply IH; [exact Hl |]. intros x Hx. apply Hlast.
    now rewrite last_cons_cons.
Qed.

Lemma history_step_invariant (env : Env) (rev : item_revision)
    (st st' : history_state) (stop : bool) :
  history_invariant st ->
  history_step env rev st = Ok (st', stop) ->
  history_invariant st'.
Proof.
  intros (Hb & Hn & Hc). unfold history_step.
  pose proof (conj Hb (conj Hn Hc) : history_invariant st) as Hst.
  destruct (item_json rev) as [|[|v|]]; try (intros [= <- _]; exact Hst).
  - destruct (current_p18_value st); intros [= <- _]; exact Hst.
  - destruct (differs_from v (current_p18_value st)) eqn:Hd;
      [|intros [= <- _]; exact Hst].
    destruct (format_timestamp env (opt_str (item_timestamp rev))) as [t|e] eqn:Ht;
      [|discriminate].
    intros [= <- _]. apply format_timestamp_str in Ht as [ts ->].
    repeat split; cbn [image_history current_p18_value].
    + apply Forall_app. split; [exact Hb |]. repeat constructor.
      now exists ts, v, (item_revid rev).
    + apply no_repeated_image_snoc; [exact Hn |].
      intros a Ha. destruct (current_p18_value st) as [w|].
      * destruct Hc as (a' & Ha' & Hw). rewrite Ha in Ha'. injection Ha' as <-.
        rewrite Hw. cbn. intros [= ->]. cbn in Hd.
        now rewrite String.eqb_refl in Hd.
      * rewrite Hc in Ha. discriminate.
    + eexists. split; [apply last_snoc | reflexivity].
Qed.

Lemma history_batch_invariant (env : Env) (revs : list item_revision)
    (st st' : history_state) :
  history_invariant st ->
  history_batch env revs st = Ok st' ->
  history_invariant st'.
Proof.
  revert st. induction revs as [|rev revs IH]; intros st Hst; cbn [history_batch].
  - now intros [= <-].
  - destruct (history_step env rev st) as [[st1 stop]|e] eqn:Hstep; [|discriminate].
    pose proof (history_step_invariant _ _ _ _ _ Hst Hstep) as Hst1.
    destruct stop; [now intros [= <-] | now apply IH].
Qed.

Lemma history_batches_invariant (env : Env) (batches : list (list item_revision))
    (st st' : history_state) :
  history_invariant st ->
  history_batches env batches st = Ok st' ->
  history_invariant st'.
Proof.
  revert st. induction batches as [|revs batches IH]; intros st Hst;
    cbn [history_batches].
  - now intros [= <-].
  - destruct (history_batch env revs st) as [st1|e] eqn:Hb; [|discriminate].
    apply IH. eapply history_batch_invariant; eauto.
Qed.

(** What [get_image_history_for_item] returns is a list of built entries
    without a repeated image. *)
Lemma get_image_history_for_item_built (env : Env) (current_image : option string)
    (batches : list (list item_revision)) (transport_error : bool)
    (now : string) (h : pyval) :
  get_image_history_for_item env current_image batches transport_error now = Ok h ->
  exists l, h = VList l /\ Forall built_entry l /\ no_repeated_image l.
Proof.
  unfold get_image_history_for_item.
  destruct current_image as [image|]; [|intros [= <-]; exists []; now repeat split].
  destruct (String.eqb image ""); [intros [= <-]; exists []; now repeat split |].
  destruct (history_batches env batches _) as [st|e] eqn:Hrun; [|discriminate].
  apply history_batches_invariant in Hrun as (Hb & Hn & _);
    [|repeat split; constructor].
  assert (Hsyn : Forall built_entry [history_entry (VStr now) image (VInt 0)]).
  { repeat constructor. now exists now, image, (VInt 0). }
  destruct transport_error; [intros [= <-]; eexists; now repeat split |].
  destruct (image_history st) as [|a l] eqn:Hl;
    intros [= <-]; eexists; now repeat split.
Qed.

Lemma built_entries_images (l : list pyval) :
  Forall built_entry l -> forallb is_str (omap image_field l) = true.
Proof.
  induction 1 as [|h l (ts & image & rid & ->) _ IH]; [reflexivity |].
  cbn. exact IH.
Qed.

(** A list whose first entry is a dict with a timestamp, and whose older
    entries have strings as images, is accepted by the fallback finder. *)
Lemma introduction_from_history_accepts (item : string) (l : list pyval) :
  match l with
  | [] => True
  | h0 :: older =>
      (exists d ts, h0 = VDict d /\ dict_get "timestamp" d = Some ts)
      /\ forallb is_str (omap image_field older) = true
  end ->
  exists i, introduction_from_history item (VList l) = Ok i.
Proof.
  unfold introduction_from_history.
  destruct l as [|h0 older]; [eexists; reflexivity |].
  intros ((d & ts & -> & Hts) & Holder). cbn [is_dict negb].
  rewrite images_after_first_fields. cbn [tail].
  rewrite Holder, andb_false_r, Hts. eexists; reflexivity.
Qed.

(** X22: the fallback finder accepts every history that
    [get_image_history_for_item] returns: the shape checks, the read of the
    timestamp of the first entry and the joining of the previous images
    never raise on it. *)
Theorem X22_returned_histories_are_accepted
    (env : Env) (current_image : option string)
    (batches : list (list item_revision)) (transport_error : bool)
    (now item : string) (h : pyval) :
  get_image_history_for_item env current_image batches transport_error now = Ok h ->
  exists i, introduction_from_history item h = Ok i.
Proof.
  intros H. apply get_image_history_for_item_built in H as (l & -> & Hb & _).
  apply introduction_from_history_accepts.
  destruct Hb as [|h0 older (ts & image & rid & ->) Holder]; [exact I |].
  split; [now eexists _, _ | now apply built_entries_images].
Qed.

Lemma X22_witness :
  exists i,
    introduction_from_history "Q1"
      (VList [history_entry (VStr "2024-04-01T00:00:00+00:00") "X.jpg" (VInt 40);
              history_entry (VStr "2024-02-01T00:00:00+00:00") "Old.jpg" (VInt 20)])
    = Ok i.
Proof.
  apply (X22_returned_histories_are_accepted Samples.env (Some "X.jpg")
           [Samples.revisions] false Samples.now "Q1").
  reflexivity.
Defined.

(** X23: in a history that [get_image_history_for_item] returns, no two
    consecutive entries have the same image: a value is recorded only where
    it differs from the one recorded before it. *)
Theorem X23_no_repeated_image_in_history
    (env : Env) (current_image : option string)
    (batches : list (list item_revision)) (transport_error : bool)
    (now : string) (l : list pyval) :
  get_image_history_for_item env current_image batches transport_error now
  = Ok (VList l) ->
  no_repeated_image l.
Proof.
  intros H. apply get_image_history_for_item_built in H as (l' & [= <-] & _ & Hn).
  exact Hn.
Qed.

Lemma X23_witness :
  no_repeated_image
    [history_entry (VStr "2024-04-01T00:00:00+00:00") "X.jpg" (VInt 40);
     history_entry (VStr "2024-02-01T00:00:00+00:00") "Old.jpg" (VInt 20)].
Proof.
  apply (X23_no_repeated_image_in_history Samples.env (Some "X.jpg")
           [Samples.revisions] false Samples.now).
  reflexivity.
Defined.

(** X24: without a current image the history is empty; with one, a returned
    history is never empty, and it is the single entry made of the current
    image, the time of the call and the revision id 0 when the retrieval
    failed or no revision gave a value. *)
Theorem X24_history_and_current_image
    (env : Env) (current_image : option string)
    (batches : list (list item_revision)) (transport_error : bool)
    (now : string) :
  ((current_image = None \/ current_image = Some "") ->
   get_image_history_for_item env current_image batches transport_error now
   = Ok (VList []))
  /\ (forall image l,
        current_image = Some image -> image <> "" ->
        get_image_history_for_item env current_image batches transport_error now
        = Ok (VList l) ->
        l <> []
        /\ (transport_error = true ->
            l = [history_entry (VStr now) image (VInt 0)])
        /\ (forall st,
              history_batches env batches
                {| image_history := []; current_p18_value := None |} = Ok st ->
              image_history st = [] ->
              l = [history_entry (VStr now) image (VInt 0)])).
Proof.
  unfold get_image_history_for_item. split.
  - intros [->| ->]; reflexivity.
  - intros image l -> Hne. apply String.eqb_neq in Hne. rewrite Hne.
    destruct (history_batches env batches _) as [st|e]; [|discriminate].
    destruct transport_error.
    + intros [= <-]. repeat split; auto; discriminate.
    + destruct (image_history st) as [|a rest] eqn:Hl; intros [= <-].
      * repeat split; auto; discriminate.
      * repeat split; try discriminate.
        intros st' [= <-] Hst'. congruence.
Qed.

Lemma X24_witness :
  [history_entry (VStr Samples.now) "X.jpg" (VInt 0)] <> []
  /\ (true = true ->
      [history_entry (VStr Samples.now) "X.jpg" (VInt 0)]
      = [history_entry (VStr Samples.now) "X.jpg" (VInt 0)])
  /\ (forall st,
        history_batches Samples.env [Samples.revisions]
          {| image_history := []; current_p18_value := None |} = Ok st ->
        image_history st = [] ->
        [history_entry (VStr Samples.now) "X.jpg" (VInt 0)]
        = [history_entry (VStr Samples.now) "X.jpg" (VInt 0)]).
Proof.
  apply (proj2 (X24_history_and_current_image Samples.env (Some "X.jpg")
                  [Samples.revisions] true Samples.now) "X.jpg").
  - reflexivity.
  - discriminate.
  - reflexivity.
Defined.

(** The loop only ever appends to the history, and a current value, once
    set, stays set. *)
Lemma history_step_grows (env : Env) (rev : item_revision)
    (st st' : history_state) (stop : bool) :
  history_step env rev st = Ok (st', stop) ->
  (exists more, image_history st' = image_history st ++ more)
  /\ (current_p18_value st <> None -> current_p18_value st' <> None).
Proof.
  unfold history_step.
  destruct (item_json rev) as [|[|v|]];
    try (intros [= <- _]; split; [exists []; now rewrite app_nil_r | auto]).
  - destruct (current_p18_value st) eqn:Hc; intros [= <- _];
      (split; [exists []; now rewrite app_nil_r | congruence]).
  - destruct (differs_from v (current_p18_value st));
      [|intros [= <- _]; split; [exists []; now rewrite app_nil_r | auto]].
    destruct (format_timestamp env _) as [t|e]; [|discriminate].
    intros [= <- _]. cbn. split; [eauto | discriminate].
Qed.

Lemma history_batch_grows (env : Env) (revs : list item_revision)
    (st st' : history_state) :
  history_batch env revs st = Ok st' ->
  (exists more, image_history st' = image_history st ++ more)
  /\ (current_p18_value st <> None -> current_p18_value st' <> None).
Proof.
  revert st. induction revs as [|rev revs IH]; intros st; cbn [history_batch].
  - intros [= <-]. split; [exists []; now rewrite app_nil_r | auto].
  - destruct (history_step env rev st) as [[st1 stop]|e] eqn:Hstep; [|discriminate].
    apply history_step_grows in Hstep as [(m1 & Hm1) Hc1].
    destruct stop.
    + intros [= <-]. eauto.
    + intros H. apply IH in H as [(m2 & Hm2) Hc2]. split; [|auto].
      exists (m1 ++ m2). now rewrite Hm2, Hm1, app_assoc.
Qed.

Lemma history_batches_grows (env : Env) (batches : list (list item_revision))
    (st st' : history_state) :
  history_batches env batches st = Ok st' ->
  exists more, image_history st' = image_history st ++ more.
Proof.
  revert st. induction batches as [|revs batches IH]; intros st;
    cbn [history_batches].
  - intros [= <-]. exists []. now rewrite app_nil_r.
  - destruct (history_batch env revs st) as [st1|e] eqn:Hb; [|discriminate].
    apply history_batch_grows in Hb as [(m1 & Hm1) _].
    intros H. apply IH in H as (m2 & Hm2).
    exists (m1 ++ m2). now rewrite Hm2, Hm1, app_assoc.
Qed.

(** X25: when the newest revision of the item has an image value, the first
    entry of the returned history is stamped with the id and the timestamp
    of that newest revision, whatever the older revisions hold: also when
    the same value was already there in older revisions. *)
Theorem X25_current_value_stamped_with_newest_revision
    (env : Env) (image : string) (rev : item_revision)
    (rest : list item_revision) (batches : list (list item_revision))
    (now p18_value : string) (formatted_ts : pyval) (l : list pyval) :
  image <> "" ->
  item_json rev = ItemJson (ValueClaim p18_value) ->
  format_timestamp env (opt_str (item_timestamp rev)) = Ok formatted_ts ->
  get_image_history_for_item env (Some image) ((rev :: rest) :: batches) false now
  = Ok (VList l) ->
  exists older,
    l = history_entry formatted_ts p18_value (item_revid rev) :: older.
Proof.
  intros Hne Hjson Hts. unfold get_image_history_for_item.
  apply String.eqb_neq in Hne. rewrite Hne.
  cbn [history_batches history_batch]. unfold history_step at 1.
  rewrite Hjson. cbn [current_p18_value differs_from image_history app]. rewrite Hts.
  destruct (history_batch env rest _) as [st1|e] eqn:Hb; [|discriminate].
  destruct (history_batches env batches st1) as [st|e] eqn:Hbs; [|discriminate].
  apply history_batch_grows in Hb as [(m1 & Hm1) _].
  apply history_batches_grows in Hbs as (m2 & Hm2).
  rewrite Hm2, Hm1. cbn [image_history app]. intros [= <-]. eauto.
Qed.

Lemma X25_witness :
  exists older,
    [history_entry (VStr "2024-04-01T00:00:00+00:00") "X.jpg" (VInt 40);
     history_entry (VStr "2024-02-01T00:00:00+00:00") "Old.jpg" (VInt 20)]
    = history_entry (VStr "2024-04-01T00:00:00+00:00") "X.jpg" (VInt 40) :: older.
Proof.
  apply (X25_current_value_stamped_with_newest_revision Samples.env "X.jpg"
           (Samples.item_rev 40 "2024-04-01T00:00:00Z" (ValueClaim "X.jpg"))
           (tail Samples.revisions) [] Samples.now "X.jpg"
           (VStr "2024-04-01T00:00:00+00:00")).
  - discriminate.
  - reflexivity.
  - reflexivity.
  - reflexivity.
Defined.

(** X26: once a value has been seen, a revision without any P18 claim ends
    the reading of its response: the revisions that follow it in the same
    response have no influence on the result. *)
Theorem X26_revisions_after_a_removal_are_not_read
    (env : Env) (before : list item_revision) (rev : item_revision)
    (after after' : list item_revision) (st : history_state) :
  current_p18_value st <> None ->
  item_json rev = ItemJson NoClaims ->
  history_batch env (before ++ rev :: after) st
  = history_batch env (before ++ rev :: after') st.
Proof.
  intros Hc Hjson. revert st Hc.
  induction before as [|r before IH]; intros st Hc.
  - cbn [app history_batch]. unfold history_step. rewrite Hjson.
    now destruct (current_p18_value st).
  - change ((r :: before) ++ rev :: after) with (r :: (before ++ rev :: after)).
    change ((r :: before) ++ rev :: after') with (r :: (before ++ rev :: after')).
    cbn [history_batch].
    destruct (history_step env r st) as [[st1 stop]|e] eqn:Hstep; [|reflexivity].
    destruct stop; [reflexivity |].
    apply IH. now apply (history_step_grows _ _ _ _ _ Hstep).
Qed.

Lemma X26_witness :
  history_batch Samples.env
    ([Samples.item_rev 20 "2024-02-01T00:00:00Z" (ValueClaim "Old.jpg")]
       ++ Samples.item_rev 10 "2024-01-01T00:00:00Z" NoClaims
       :: [Samples.item_rev 5 "2023-12-01T00:00:00Z" (ValueClaim "Older.jpg")])
    {| image_history := [history_entry (VStr "t") "X.jpg" (VInt 40)];
       current_p18_value := Some "X.jpg" |}
  = history_batch Samples.env
      ([Samples.item_rev 20 "2024-02-01T00:00:00Z" (ValueClaim "Old.jpg")]
         ++ Samples.item_rev 10 "2024-01-01T00:00:00Z" NoClaims :: [])
      {| image_history := [history_entry (VStr "t") "X.jpg" (VInt 40)];
         current_p18_value := Some "X.jpg" |}.
Proof.
  apply (X26_revisions_after_a_removal_are_not_read Samples.env
           [Samples.item_rev 20 "2024-02-01T00:00:00Z" (ValueClaim "Old.jpg")]
           (Samples.item_rev 10 "2024-01-01T00:00:00Z" NoClaims)).
  - discriminate.
  - reflexivity.
Defined.

(** The reading goes on with the next response: the value that precedes a
    removal is recorded when it comes in a later response, and left out
    when it comes in the same one. *)
Example history_resumes_with_next_response :
  get_image_history_for_item Samples.env (Some "X.jpg")
    [firstn 4 Samples.revisions; skipn 4 Samples.revisions] false Samples.now
  = Ok (VList
      [history_entry (VStr "2024-04-01T00:00:00+00:00") "X.jpg" (VInt 40);
       history_entry (VStr "2024-02-01T00:00:00+00:00") "Old.jpg" (VInt 20);
       history_entry (VStr "2023-12-01T00:00:00+00:00") "Older.jpg" (VInt 5)])
  /\ get_image_history_for_item Samples.env (Some "X.jpg")
       [Samples.revisions] false Samples.now
     = Ok (VList
         [history_entry (VStr "2024-04-01T00:00:00+00:00") "X.jpg" (VInt 40);
          history_entry (VStr "2024-02-01T00:00:00+00:00") "Old.jpg" (VInt 20)]).
Proof. split; reflexivity. Qed.

(** X27: the only exceptions that escape from the reading of the history
    come from the conversion of a timestamp: when every revision has a
    timestamp that the conversion accepts, a history is returned. *)
Theorem X27_history_returned_when_timestamps_convert
    (env : Env) (current_image : option string)
    (batches : list (list item_revision)) (transport_error : bool) (now : string) :
  Forall (Forall (fun rev =>
            exists ts formatted,
              item_timestamp rev = Some ts
              /\ datetime_format env (PyStr.replace "Z" "+00:00" ts) = Some formatted))
         batches ->
  exists h,
    get_image_history_for_item env current_image batches transport_error now = Ok h.
Proof.
  intros Hts. unfold get_image_history_for_item.
  destruct current_image as [image|]; [|eauto].
  destruct (String.eqb image ""); [eauto |].
  assert (Hrun : forall st, exists st', history_batches env batches st = Ok st').
  { induction Hts as [|revs batches Hrevs _ IH]; intros st; [cbn; eauto |].
    cbn [history_batches].
    assert (Hb : exists st1, history_batch env revs st = Ok st1).
    { clear IH. revert st. induction Hrevs as [|rev revs Hrev _ IHr]; intros st;
        [cbn; eauto |].
      cbn [history_batch].
      assert (Hstep : exists r, history_step env rev st = Ok r).
      { unfold history_step. destruct (item_json rev) as [|[|v|]]; eauto.
        - destruct (current_p18_value st); eauto.
        - destruct (differs_from v (current_p18_value st)); eauto.
          destruct Hrev as (ts & f & -> & Hf).
          unfold format_timestamp. cbn [opt_str]. rewrite Hf. eauto. }
      destruct Hstep as [[st1 stop] ->]. destruct stop; eauto. }
    destruct Hb as [st1 ->]. apply IH. }
  destruct (Hrun {| image_history := []; current_p18_value := None |}) as [st ->].
  destruct transport_error; [eauto |].
  destruct (image_history st); eauto.
Qed.

Lemma X27_witness :
  exists h,
    get_image_history_for_item Samples.env (Some "X.jpg") [Samples.revisions]
      false Samples.now = Ok h.
Proof.
  apply (X27_history_returned_when_timestamps_convert Samples.env (Some "X.jpg")
           [Samples.revisions] false Samples.now).
  repeat constructor; eexists _, _; split; reflexivity.
Defined.

(** A revision that brings a new value and has no timestamp makes the
    reading raise. *)
Example history_raises_without_timestamp :
  get_image_history_for_item Samples.env (Some "X.jpg")
    [[{| item_revid := VInt 40; item_timestamp := None;
         item_json := ItemJson (ValueClaim "X.jpg") |}]] false Samples.now
  = Raise (AttributeError "replace").
Proof. reflexivity. Qed.

(** ** Files of a category *)

(** The loop that removes the duplicates, from any point of its run: the
    titles seen are those kept so far. *)
Lemma unique_files_loop_spec (all unique : list string) (seen : gset string) :
  (forall x, x ∈ seen <-> x ∈ unique) ->
  NoDup unique ->
  exists more,
    unique_files_loop all unique seen = unique ++ more
    /\ NoDup (unique ++ more)
    /\ (forall f, f ∈ more
                  <-> f ∈ all /\ PyStr.startswith "File:" f = true /\ f ∉ unique)
    /\ sublist more all.
Proof.
  revert unique seen. induction all as [|file rest IH]; intros unique seen Hseen Hnd.
  - exists []. cbn. rewrite app_nil_r.
    split; [reflexivity |]. split; [exact Hnd |]. split; [|constructor].
    intros f. split.
    + intros Hf. inversion Hf.
    + intros [Hf _]. inversion Hf.
  - cbn [unique_files_loop].
    destruct (negb (bool_decide (file ∈ seen)) && PyStr.startswith "File:" file)
      eqn:Hkeep.
    + apply andb_prop in Hkeep as [Hnew Hfile].
      apply negb_true_iff, bool_decide_eq_false in Hnew.
      assert (Hnotin : file ∉ unique) by (now rewrite <- Hseen).
      destruct (IH (unique ++ [file]) (seen ∪ {[file]})) as (more & Heq & Hnd' & Hin & Hsub).
      { intros x. rewrite elem_of_union, elem_of_singleton, elem_of_app,
          list_elem_of_singleton, Hseen. tauto. }
      { apply NoDup_app. repeat split; [exact Hnd | | apply NoDup_singleton].
        intros x Hx Hx'. apply list_elem_of_singleton in Hx'. now subst x. }
      exists (file :: more). rewrite Heq, <- app_assoc. cbn [app].
      split; [reflexivity |]. split; [now rewrite <- app_assoc in Hnd' |].
      split; [|now constructor].
      intros f. rewrite elem_of_cons, Hin, elem_of_cons, elem_of_app,
        list_elem_of_singleton.
      split.
      * intros [->|(Hf & Hs & Hn)]; [tauto |]. repeat split; auto.
      * intros ([->|Hf] & Hs & Hn); [now left |].
        destruct (decide (f = file)) as [->|Hne]; [now left | right].
        repeat split; auto. intros [H|H]; auto.
    + destruct (IH unique seen Hseen Hnd) as (more & Heq & Hnd' & Hin & Hsub).
      exists more. split; [exact Heq |]. split; [exact Hnd' |].
      split; [|now constructor].
      intros f. rewrite Hin, elem_of_cons. split; [tauto |].
      intros ([->|Hf] & Hs & Hn); [|tauto]. exfalso.
      rewrite Hs, andb_true_r in Hkeep.
      apply negb_false_iff, bool_decide_eq_true in Hkeep.
      apply Hn. now apply Hseen.
Qed.

(** In a list without duplicates, what comes before an element in a
    sublist comes before it in the list. *)
Lemma sublist_pair_before (f g : string) (unique more : list string) :
  NoDup (unique ++ g :: more) ->
  sublist [f; g] (unique ++ g :: more) ->
  f ∈ unique.
Proof.
  intros Hnd Hsub.
  apply NoDup_app in Hnd as (_ & Hdisj & Hnd).
  apply NoDup_cons in Hnd as [Hg _].
  apply sublist_app_r in Hsub as (l1 & l2 & Heq & H1 & H2).
  destruct l1 as [|x [|y l1]]; cbn in Heq.
  - subst l2. exfalso. apply sublist_cons_r in H2 as [H2|(l' & [= -> <-] & H2)].
    + apply Hg. eapply elem_of_sublist; [|exact H2]. repeat constructor.
    + apply Hg. eapply elem_of_sublist; [|exact H2]. repeat constructor.
  - injection Heq as <- <-. now apply singleton_sublist_l.
  - injection Heq as <- <- Hl. exfalso.
    apply (Hdisj g); [|constructor].
    eapply elem_of_sublist; [|exact H1]. repeat constructor.
Qed.

(** The loop keeps the order of first reception: a title that was not yet
    kept and ends up after another one was first met after that one was
    kept or met. *)
Lemma unique_files_loop_order (all unique : list string) (seen : gset string) :
  (forall x, x ∈ seen <-> x ∈ unique) ->
  NoDup unique ->
  forall f g,
    sublist [f; g] (unique_files_loop all unique seen) ->
    g ∉ unique ->
    exists r1 r2, all = r1 ++ g :: r2 /\ (g ∉ r1) /\ (f ∈ unique \/ f ∈ r1).
Proof.
  revert unique seen.
  induction all as [|file rest IH]; intros unique seen Hseen Hnd f g Hsub Hg.
  - cbn in Hsub. exfalso. apply Hg.
    eapply elem_of_sublist; [|exact Hsub]. repeat constructor.
  - cbn [unique_files_loop] in Hsub.
    destruct (negb (bool_decide (file ∈ seen)) && PyStr.startswith "File:" file)
      eqn:Hkeep.
    + apply andb_prop in Hkeep as [Hnew Hfile].
      apply negb_true_iff, bool_decide_eq_false in Hnew.
      assert (Hnotin : file ∉ unique) by (now rewrite <- Hseen).
      assert (Hseen' : forall x, x ∈ seen ∪ {[file]} <-> x ∈ unique ++ [file]).
      { intros x. rewrite elem_of_union, elem_of_singleton, elem_of_app,
          list_elem_of_singleton, Hseen. tauto. }
      assert (Hnd' : NoDup (unique ++ [file])).
      { apply NoDup_app. repeat split; [exact Hnd | | apply NoDup_singleton].
        intros x Hx Hx'. apply list_elem_of_singleton in Hx'. now subst x. }
      destruct (decide (g = file)) as [->|Hne].
      * exists [], rest. split; [reflexivity |]. split; [apply not_elem_of_nil |].
        left.
        destruct (unique_files_loop_spec rest (unique ++ [file]) (seen ∪ {[file]})
                    Hseen' Hnd') as (more & Heq & Hndr & _).
        rewrite Heq, <- app_assoc in Hsub. rewrite <- app_assoc in Hndr.
        exact (sublist_pair_before f file unique more Hndr Hsub).
      * destruct (IH (unique ++ [file]) (seen ∪ {[file]}) Hseen' Hnd' f g Hsub)
          as (r1 & r2 & -> & Hr1 & Hf).
        { rewrite elem_of_app, list_elem_of_singleton. tauto. }
        exists (file :: r1), r2. split; [reflexivity |].
        split; [rewrite elem_of_cons; tauto |].
        rewrite elem_of_app, list_elem_of_singleton in Hf.
        rewrite elem_of_cons. tauto.
    + destruct (IH unique seen Hseen Hnd f g Hsub Hg) as (r1 & r2 & -> & Hr1 & Hf).
      exists (file :: r1), r2. split; [reflexivity |].
      assert (Hne : g <> file).
      { intros ->.
        destruct (unique_files_loop_spec (r1 ++ file :: r2) unique seen Hseen Hnd)
          as (more & Heq & _ & Hin & _).
        assert (Hres : file ∈ unique ++ more).
        { rewrite <- Heq. eapply elem_of_sublist; [|exact Hsub].
          repeat constructor. }
        apply elem_of_app in Hres as [Hres|Hres]; [now apply Hg |].
        apply Hin in Hres as (_ & Hs & _).
        rewrite Hs, andb_true_r in Hkeep.
        apply negb_false_iff, bool_decide_eq_true in Hkeep.
        apply Hg. now apply Hseen. }
      split; [rewrite elem_of_cons; tauto |].
      rewrite elem_of_cons. tauto.
Qed.

(** X28: the list of files of a category has no duplicates and holds, in
    the order in which they were first received, exactly the titles
    received that start with [File:]: a title that comes before another one
    in the list was received before the other one was first received. *)
Theorem X28_category_files_are_distinct_file_titles
    (api : CategoryApi) (category_name : string) (depth : Z) :
  let received := all_files (crawl_categories api category_name depth) in
  let files := get_commons_category_files api category_name depth in
  NoDup files
  /\ (forall f, f ∈ files <-> f ∈ received /\ PyStr.startswith "File:" f = true)
  /\ sublist files received
  /\ (forall f g,
        sublist [f; g] files ->
        exists before after,
          received = before ++ g :: after /\ (g ∉ before) /\ f ∈ before).
Proof.
  intros received files. subst files. unfold get_commons_category_files.
  fold received.
  assert (Hempty : forall x : string, x ∈ (∅ : gset string) <-> x ∈ @nil string).
  { intros x. rewrite elem_of_empty, elem_of_nil. tauto. }
  split; [|split; [|split]].
  - destruct (unique_files_loop_spec received [] ∅ Hempty (NoDup_nil_2))
      as (more & -> & Hnd & _). exact Hnd.
  - destruct (unique_files_loop_spec received [] ∅ Hempty (NoDup_nil_2))
      as (more & -> & _ & Hin & _). cbn [app].
    intros f. rewrite Hin. split; [tauto |].
    intros [Hf Hs]. repeat split; auto. apply not_elem_of_nil.
  - destruct (unique_files_loop_spec received [] ∅ Hempty (NoDup_nil_2))
      as (more & -> & _ & _ & Hsub). exact Hsub.
  - intros f g Hsub.
    destruct (unique_files_loop_order received [] ∅ Hempty (NoDup_nil_2) f g Hsub)
      as (r1 & r2 & Heq & Hg & [Hf|Hf]).
    + apply not_elem_of_nil.
    + now apply elem_of_nil in Hf.
    + now exists r1, r2.
Qed.

(** The order of first reception on a category that sends a title twice. *)
Example category_files_first_reception :
  get_commons_category_files
    {| category_files := fun _ => (["File:A.jpg"; "File:B.jpg"; "Talk:A";
                                    "File:A.jpg"], false);
       category_subcats := fun _ => ([], false) |} "Portraits" 0
  = ["File:A.jpg"; "File:B.jpg"].
Proof. reflexivity. Qed.

Lemma fetched_categories_app (l l' : list category_event) :
  fetched_categories (l ++ l') = fetched_categories l ++ fetched_categories l'.
Proof. apply omap_app. Qed.

Lemma get_category_files_recursive_invariant (api : CategoryApi) (depth : Z)
    (fuel : nat) (cat_name : string) (current_depth : Z) (st : crawl_state) :
  crawl_invariant st ->
  crawl_invariant
    (get_category_files_recursive api depth fuel cat_name current_depth st).
Proof.
  revert cat_name current_depth st.
  induction fuel as [|fuel IH]; intros cat_name current_depth st Hst;
    cbn [get_category_files_recursive].
  - now destruct ((depth <? current_depth) || _).
  - destruct ((depth <? current_depth)
              || bool_decide (cat_name ∈ processed_categories st)) eqn:Hguard;
      [exact Hst |].
    apply orb_false_elim in Hguard as [_ Hnew].
    apply bool_decide_eq_false in Hnew.
    destruct Hst as [Hnd Hsub].
    destruct (category_files api cat_name) as [titles failed].
    assert (Hst1 : forall log',
               fetched_categories log' = [] ->
               crawl_invariant
                 {| all_files := all_files st ++ titles;
                    processed_categories := processed_categories st ∪ {[cat_name]};
                    crawl_log := (crawl_log st ++ [FetchFiles cat_name]) ++ log' |}).
    { intros log' Hlog'. unfold crawl_invariant. cbn [crawl_log processed_categories].
      rewrite !fetched_categories_app, Hlog', app_nil_r. cbn. split.
      - apply NoDup_app. repeat split; [exact Hnd | | apply NoDup_singleton].
        intros x Hx Hx'. apply list_elem_of_singleton in Hx'. subst x. auto.
      - intros c Hc. apply elem_of_app in Hc as [Hc|Hc].
        + apply elem_of_union. left. auto.
        + apply list_elem_of_singleton in Hc. subst c. set_solver. }
    destruct failed; cbn [all_files processed_categories crawl_log].
    + apply (Hst1 [PrintCategoryError cat_name]). reflexivity.
    + destruct (current_depth <? depth).
      * destruct (category_subcats api cat_name) as [subcats failed'].
        destruct failed'; cbn [all_files processed_categories crawl_log].
        -- rewrite <- app_assoc.
           apply (Hst1 [FetchSubcats cat_name; PrintCategoryError cat_name]).
           reflexivity.
        -- match goal with
           | |- crawl_invariant (fold_left _ _ ?s) =>
               assert (Hs : crawl_invariant s)
                 by (apply (Hst1 [FetchSubcats cat_name]); reflexivity);
               revert Hs; generalize s
           end.
           induction subcats as [|sub subcats IHs]; intros s Hs; [exact Hs |].
           cbn [fold_left]. apply IHs, IH, Hs.
      * specialize (Hst1 [] eq_refl). now rewrite app_nil_r in Hst1.
Qed.

(** X29: no category is requested twice, whatever the subcategories list:
    a category reached again, through a cycle or through two parents, is
    skipped. *)
Theorem X29_each_category_fetched_once
    (api : CategoryApi) (category_name : string) (depth : Z) :
  NoDup (fetched_categories (crawl_log (crawl_categories api category_name depth))).
Proof.
  apply get_category_files_recursive_invariant.
  split; [constructor |]. intros c Hc. inversion Hc.
Qed.

Lemma get_category_files_recursive_below (api : CategoryApi) (depth : Z)
    (fuel : nat) (cat_name : string) (current_depth : Z) (st : crawl_state) :
  depth < current_depth ->
  get_category_files_recursive api depth fuel cat_name current_depth st = st.
Proof.
  intros H. apply Z.ltb_lt in H.
  destruct fuel; cbn [get_category_files_recursive]; now rewrite H.
Qed.

(** The levels left bound the recursion: any fuel above them gives the
    same result. *)
Lemma get_category_files_recursive_fuel (api : CategoryApi) (depth : Z)
    (fuel fuel' : nat) (cat_name : string) (current_depth : Z) (st : crawl_state) :
  depth - current_depth < Z.of_nat fuel ->
  depth - current_depth < Z.of_nat fuel' ->
  get_category_files_recursive api depth fuel cat_name current_depth st
  = get_category_files_recursive api depth fuel' cat_name current_depth st.
Proof.
  revert fuel' cat_name current_depth st.
  induction fuel as [|fuel IH]; intros fuel' cat_name current_depth st Hf Hf'.
  - rewrite !get_category_files_recursive_below by lia. reflexivity.
  - destruct (Z.lt_ge_cases depth current_depth) as [Hlt|Hge].
    + rewrite !get_category_files_recursive_below by lia. reflexivity.
    + destruct fuel' as [|fuel']; [lia |].
      cbn [get_category_files_recursive].
      destruct ((depth <? current_depth) || _); [reflexivity |].
      destruct (category_files api cat_name) as [titles failed].
      destruct failed; [reflexivity |].
      destruct (Z.ltb_spec current_depth depth); [|reflexivity].
      destruct (category_subcats api cat_name) as [subcats failed'].
      destruct failed'; [reflexivity |].
      match goal with |- fold_left _ _ ?s = _ => generalize s end.
      induction subcats as [|sub subcats IHs]; intros s; [reflexivity |].
      cbn [fold_left]. rewrite (IH fuel') by lia. apply IHs.
Qed.

Lemma crawl_categories_fuel (api : CategoryApi) (category_name : string)
    (depth : Z) (fuel : nat) :
  depth < Z.of_nat fuel ->
  get_category_files_recursive api depth fuel category_name 0
    {| all_files := []; processed_categories := ∅; crawl_log := [] |}
  = crawl_categories api category_name depth.
Proof.
  intros H. unfold crawl_categories.
  apply get_category_files_recursive_fuel; lia.
Qed.

(** ** Global usage of a file *)

Lemma add_page_spec (wiki title : string) (d : list (string * gset string)) :
  NoDup (map fst d) ->
  NoDup (map fst (add_page wiki title d))
  /\ (forall w pages,
        In (w, pages) (add_page wiki title d) ->
        (w = wiki /\ title ∈ pages
         /\ (forall t, t ∈ pages ->
               t = title \/ exists pages', In (w, pages') d /\ t ∈ pages'))
        \/ (w <> wiki /\ In (w, pages) d))
  /\ (forall w pages,
        In (w, pages) d ->
        exists pages', In (w, pages') (add_page wiki title d) /\ pages ⊆ pages')
  /\ exists pages, In (wiki, pages) (add_page wiki title d).
Proof.
  induction d as [|[k v] d IH]; intros Hnd.
  - cbn. repeat split.
    + repeat constructor. apply not_elem_of_nil.
    + intros w pages [[= <- <-]|[]]. left. repeat split; [set_solver |].
      intros t Ht. left. set_solver.
    + intros w pages [].
    + eexists. now left.
  - cbn [map fst] in Hnd. apply NoDup_cons in Hnd as [Hk Hnd].
    specialize (IH Hnd) as (IHnd & IHs & IHk & IHw).
    cbn [add_page]. destruct (String.eqb_spec k wiki) as [->|Hne].
    + repeat split.
      * cbn [map fst]. now apply NoDup_cons.
      * intros w pages [[= <- <-]|Hin].
        -- left. repeat split;
             [apply elem_of_union; right; now apply elem_of_singleton |].
           intros t Ht. apply elem_of_union in Ht as [Ht|Ht].
           ++ right. exists v. split; [now left | exact Ht].
           ++ left. now apply elem_of_singleton in Ht.
        -- right. split; [|now right].
           intros ->. apply Hk. apply list_elem_of_In.
           now apply (in_map fst d (wiki, pages)).
      * intros w pages [[= <- <-]|Hin].
        -- eexists. split; [now left | apply union_subseteq_l].
        -- exists pages. split; [now right | reflexivity].
      * eexists. now left.
    + repeat split.
      * cbn [map fst]. apply NoDup_cons. split; [|exact IHnd].
        intros Hin. apply list_elem_of_In, in_map_iff in Hin as ([w pages] & Hw & Hin).
        cbn in Hw. subst w.
        destruct (IHs k pages Hin) as [(Heq & _)|(_ & Hin')]; [congruence |].
        apply Hk. apply list_elem_of_In. now apply (in_map fst d (k, pages)).
      * intros w pages [[= <- <-]|Hin].
        -- right. split; [exact Hne | now left].
        -- destruct (IHs w pages Hin) as [(-> & Ht & Hall)|(Hw & Hin')].
           ++ left. repeat split; auto. intros t Hin_t.
              destruct (Hall t Hin_t) as [->|(p' & Hp' & Htp')]; [now left |].
              right. exists p'. split; [now right | exact Htp'].
           ++ right. split; [exact Hw | now right].
      * intros w pages [[= <- <-]|Hin].
        -- exists v. split; [now left | reflexivity].
        -- destruct (IHk w pages Hin) as (p' & Hp' & Hsub).
           exists p'. split; [now right | exact Hsub].
      * destruct IHw as [pages Hp]. exists pages. now right.
Qed.

Lemma listed_more (usages : list usage_entry) (e : usage_entry) (wiki title : string) :
  listed (usages ++ [e]) wiki title
  <-> listed usages wiki title
      \/ (e = {| usage_wiki := Some wiki; usage_title := title |}
          /\ wiki <> "" /\ PyStr.endswith ".wikipedia.org" wiki = true).
Proof.
  unfold listed. rewrite in_app_iff. cbn [In]. split.
  - intros ([H|[H|[]]] & Hne & Hend); [left | right]; repeat split; auto.
  - intros [(H & Hne & Hend)|(H & Hne & Hend)]; repeat split; auto.
Qed.

(** A usage that is not on a Wikipedia changes nothing. *)
Lemma usage_invariant_skip (done : list usage_entry) (e : usage_entry)
    (d : list (string * gset string)) :
  (forall wiki, usage_wiki e = Some wiki ->
     wiki = "" \/ PyStr.endswith ".wikipedia.org" wiki = false) ->
  usage_invariant done d ->
  usage_invariant (done ++ [e]) d.
Proof.
  intros He (Hnd & Hs & Hc). split; [exact Hnd |]. split.
  - intros w pages Hin. destruct (Hs w pages Hin) as (H1 & H2 & H3).
    split; [exact H1 |]. split; [exact H2 |].
    intros x Hx. apply listed_more. left. now apply H3.
  - intros w x Hl. apply listed_more in Hl as [Hl|(-> & Hne & Hend)];
      [now apply Hc |].
    destruct (He w eq_refl) as [H|H]; congruence.
Qed.

(** A usage on a Wikipedia is added under its wiki. *)
Lemma usage_invariant_add (done : list usage_entry) (wiki title : string)
    (d : list (string * gset string)) :
  wiki <> "" ->
  PyStr.endswith ".wikipedia.org" wiki = true ->
  usage_invariant done d ->
  usage_invariant (done ++ [{| usage_wiki := Some wiki; usage_title := title |}])
                  (add_page wiki title d).
Proof.
  intros Hne Hend (Hnd & Hs & Hc).
  destruct (add_page_spec wiki title d Hnd) as (Hnd' & Hs' & Hk' & Hw').
  split; [exact Hnd' |]. split.
  - intros w p Hp. destruct (Hs' w p Hp) as [(-> & _ & Hall')|(_ & Hp')].
    + split; [exact Hne |]. split; [exact Hend |].
      intros x Hx. apply listed_more.
      destruct (Hall' x Hx) as [->|(p' & Hp' & Hxp')]; [right; auto |].
      left. now apply (Hs wiki p' Hp').
    + destruct (Hs w p Hp') as (H1 & H2 & H3).
      split; [exact H1 |]. split; [exact H2 |].
      intros x Hx. apply listed_more. left. now apply H3.
  - intros w x Hl. apply listed_more in Hl as [Hl|([= <- <-] & _)].
    + destruct (Hc w x Hl) as (p & Hp & Hxp).
      destruct (Hk' w p Hp) as (p' & Hp' & Hsub).
      exists p'. split; [exact Hp' | now apply Hsub].
    + destruct Hw' as [p Hp]. exists p. split; [exact Hp |].
      destruct (Hs' wiki p Hp) as [(_ & Hxp & _)|(Hne' & _)];
        [exact Hxp | congruence].
Qed.

Lemma usage_fold_invariant (usages done : list usage_entry)
    (d : list (string * gset string)) :
  usage_invariant done d ->
  usage_invariant (done ++ usages)
    (fold_left
       (fun d usage =>
          match usage_wiki usage with
          | Some wiki =>
              if negb (String.eqb wiki "") && PyStr.endswith ".wikipedia.org" wiki
              then add_page wiki (usage_title usage) d
              else d
          | None => d
          end)
       usages d).
Proof.
  revert done d. induction usages as [|e usages IH]; intros done d Hd.
  - now rewrite app_nil_r.
  - cbn [fold_left].
    replace (done ++ e :: usages) with ((done ++ [e]) ++ usages)
      by (now rewrite <- app_assoc).
    apply IH. destruct e as [[wiki|] title]; cbn [usage_wiki usage_title].
    + destruct (String.eqb_spec wiki "") as [Hempty|Hne]; cbn [negb andb].
      * apply usage_invariant_skip; [|exact Hd].
        intros w [= <-]. now left.
      * destruct (PyStr.endswith ".wikipedia.org" wiki) eqn:Hend.
        -- now apply usage_invariant_add.
        -- apply usage_invariant_skip; [|exact Hd].
           intros w [= <-]. now right.
    + apply usage_invariant_skip; [|exact Hd]. intros w [=].
Qed.

(** X30: the usage of a file is sorted under distinct wikis, all of them
    Wikipedias, and a page is under a wiki exactly when a usage on that
    wiki and page was listed; when the retrieval fails nothing is returned,
    whatever had been received. *)
Theorem X30_global_usage_by_wikipedia
    (usages : list usage_entry) (failed : bool) :
  let d := get_global_usage_of_file usages failed in
  (failed = true -> d = [])
  /\ NoDup (map fst d)
  /\ (forall w pages, In (w, pages) d ->
        PyStr.endswith ".wikipedia.org" w = true
        /\ get_language_code w = PyStr.split_first "." w
        /\ forall t, t ∈ pages -> listed usages w t)
  /\ (failed = false ->
      forall w t, listed usages w t -> exists pages, In (w, pages) d /\ t ∈ pages).
Proof.
  intros d. subst d. unfold get_global_usage_of_file.
  destruct failed.
  - split; [reflexivity |]. split; [constructor |].
    split; [intros w pages [] | discriminate].
  - assert (H0 : usage_invariant [] []).
    { split; [constructor |]. split; [intros w pages [] | intros w x ([] & _)]. }
    apply (usage_fold_invariant usages) in H0. cbn [app] in H0.
    destruct H0 as (Hnd & Hs & Hc).
    split; [discriminate |]. split; [exact Hnd |]. split.
    + intros w pages Hin. destruct (Hs w pages Hin) as (H1 & H2 & H3).
      split; [exact H2 |]. split; [|exact H3].
      unfold get_language_code. now rewrite H2.
    + intros _. exact Hc.
Qed.

(** * Failures in the batch: what is caught and what escapes *)

(** ** Runs that go through *)







(** ** The image history in a lookup *)








